(** * Layout templates of ipywidgets: [AppLayout] and [TwoByTwoLayout]

    A shallow embedding of [ipywidgets/widgets/widget_templates.py].

    The two container classes compute a CSS grid description (track sizes
    and a matrix of area names) from the widgets placed at their named
    positions, write it onto their layout object and tag every child's own
    layout object with the name of its position.  The embedding follows the
    Python text: lists are indexed the Python way (negative indices count
    from the end, an index out of range raises [IndexError]), the
    [children] dictionary is an association list in insertion order, and
    attribute writes on layout objects go to one shared heap. *)

From stdpp Require Import gmap strings list.
From Stdlib Require Import ZArith Lia.

Local Open Scope string_scope.
Local Open Scope Z_scope.
Local Open Scope list_scope.

(** ** Exceptions *)

Inductive exn := IndexError | TraitError.

Inductive result (A : Type) :=
  | Ok (a : A)
  | Raise (e : exn).
Arguments Ok {A} a.
Arguments Raise {A} e.

#[global] Instance result_ret : MRet result := @Ok.
#[global] Instance result_bind : MBind result :=
  λ A B f m, match m with Ok a => f a | Raise e => Raise e end.

(** A [for] loop over a list whose body may raise. *)
Fixpoint for_each {A S : Type} (body : A → S → result S) (xs : list A) (s : S)
  : result S :=
  match xs with
  | [] => Ok s
  | x :: xs' => s' ← body x s; for_each body xs' s'
  end.

(** ** Python lists *)

Module PyList.

(** The position a Python index [i] designates in a list of length [n]. *)
Definition index (n : nat) (i : Z) : result nat :=
  let j := if i <? 0 then i + Z.of_nat n else i in
  if (0 <=? j) && (j <? Z.of_nat n) then Ok (Z.to_nat j) else Raise IndexError.

(** [l[i]] *)
Definition getitem {A} (l : list A) (i : Z) : result A :=
  k ← index (length l) i;
  match l !! k with
  | Some x => Ok x
  | None => Raise IndexError
  end.

(** [l[i] = v] *)
Definition setitem {A} (l : list A) (i : Z) (v : A) : result (list A) :=
  k ← index (length l) i; Ok (<[k := v]> l).

(** [del l[i]] *)
Definition delitem {A} (l : list A) (i : Z) : result (list A) :=
  k ← index (length l) i; Ok (delete k l).

(** [m[r][c]] *)
Definition getitem2 {A} (m : list (list A)) (r c : Z) : result A :=
  row ← getitem m r; getitem row c.

(** [m[r][c] = v]: the row object is updated in place. *)
Definition setitem2 {A} (m : list (list A)) (r c : Z) (v : A)
  : result (list (list A)) :=
  row ← getitem m r; row' ← setitem row c v; setitem m r row'.

(** [enumerate(l)] *)
Definition enumerate {A} (l : list A) : list (Z * A) :=
  imap (λ i x, (Z.of_nat i, x)) l.

End PyList.

(** ** Python strings *)

Definition quote_mark : string := String (Ascii.ascii_of_nat 34) EmptyString.
Definition newline : string := String (Ascii.ascii_of_nat 10) EmptyString.

(** ['"{}"'.format(s)] *)
Definition format_quoted (s : string) : string := quote_mark +:+ s +:+ quote_mark.

(** ["\n".join('"{}"'.format(" ".join(line)) for line in areas)] *)
Definition grid_template_areas_css (areas : list (list string)) : string :=
  String.concat newline (map (λ line, format_quoted (String.concat " " line)) areas).

(** ** Widgets, dictionaries *)

(** Layout objects live in the heap and are named by their address. *)
Abbreviation loc := nat.

(** A child widget: its identity and the layout object its [layout]
    attribute refers to.  Two widgets may share one layout object, and
    one widget may sit at several positions: the code checks neither.
    Every occupant is taken to have a [layout] attribute, as the widgets
    that can be displayed in a box do. *)
Record Widget := mkWidget { model_id : nat; widget_layout : loc }.

#[global] Instance Widget_eq_dec : EqDecision Widget.
Proof. solve_decision. Defined.

(** Dictionaries are association lists in insertion order.  Lines 136-138
    and 243-245:
    [{position: child for position, child in all_children.items() if child is not None}] *)
Definition present (all_children : list (string * option Widget))
  : list (string * Widget) :=
  omap (λ item, match item.2 with
                | Some child => Some (item.1, child)
                | None => None
                end) all_children.

(** [d.get(k)] *)
Fixpoint dict_get {V} (d : list (string * V)) (k : string) : option V :=
  match d with
  | [] => None
  | (k', v) :: d' => if decide (k' = k) then Some v else dict_get d' k
  end.

Definition keys {V} (d : list (string * V)) : list string := d.*1.
Definition values {V} (d : list (string * V)) : list V := d.*2.

(** ** Attribute values, the heap of layout objects, traces *)

(** The values the classes store in traits and forward to layout objects. *)
Inductive value :=
  | VNone
  | VBool (b : bool)
  | VStr (s : string)
  | VWidget (w : Widget)
  | VTuple (ws : list Widget).

#[global] Instance value_eq_dec : EqDecision value.
Proof. solve_decision. Defined.

Definition of_child (c : option Widget) : value :=
  match c with Some w => VWidget w | None => VNone end.

Definition of_unicode (u : option string) : value :=
  match u with Some s => VStr s | None => VNone end.

(** [child is not None] *)
Definition is_not_None {A} (c : option A) : bool :=
  match c with Some _ => true | None => false end.

(** What the code writes, in the order it writes it: an attribute of a
    layout object ([setattr]), or a trait of the container itself. *)
Inductive event :=
  | SetAttr (o : loc) (name : string) (new : value)
  | SetTrait (name : string) (new : value).

(** The dictionary an observer receives: its ['name'] and ['new'] entries. *)
Record Change := mkChange { name : string; new : value }.

(** A container [self] together with the layout objects it can reach. *)
Record world (C : Type) := mkWorld {
  self : C;
  heap : gmap (loc * string) value;
  trace : list event
}.
Arguments mkWorld {C} self heap trace.
Arguments self {C} w.
Arguments heap {C} w.
Arguments trace {C} w.

(** [setattr(o, name, v)] on a layout object. *)
Definition setattr {C} (o : loc) (name : string) (v : value) (w : world C) : world C :=
  mkWorld (self w) (<[(o, name) := v]> (heap w)) (trace w ++ [SetAttr o name v]).

(** [getattr(o, name)], [None] while the attribute was never set. *)
Definition getattr {C} (w : world C) (o : loc) (name : string) : option value :=
  heap w !! (o, name).

(** Storing a trait value on the container. *)
Definition store_trait {C} (update : C → C) (change : Change) (w : world C) : world C :=
  mkWorld (update (self w)) (heap w) (trace w ++ [SetTrait (name change) (new change)]).

(** Lines 143-144 and 250-251:
    [for position, child in children.items(): child.layout.grid_area = position] *)
Definition tag_child {C} (w : world C) (item : string * Widget) : world C :=
  setattr (widget_layout item.2) "grid_area" (VStr item.1) w.

Definition tag_children {C} (children : list (string * Widget)) (w : world C) : world C :=
  foldl tag_child w children.

(** ** The mixin [LayoutTemplate]: style attributes and the merge flag *)

Module LayoutTemplate.

Record t := mk {
  grid_gap : option string;
  justify_content : option string;
  align_items : option string;
  width : option string;
  height : option string;
  merge : bool
}.

(** The declared defaults: every style attribute [None], [merge] true. *)
Definition default : t := mk None None None None None true.

(** The traits tagged [style=True]. *)
Inductive style := GridGap | JustifyContent | AlignItems | Width | Height.

Definition style_name (a : style) : string :=
  match a with
  | GridGap => "grid_gap"
  | JustifyContent => "justify_content"
  | AlignItems => "align_items"
  | Width => "width"
  | Height => "height"
  end.

Definition set_style (a : style) (v : option string) (self : t) : t :=
  match a with
  | GridGap => mk v (justify_content self) (align_items self) (width self) (height self) (merge self)
  | JustifyContent => mk (grid_gap self) v (align_items self) (width self) (height self) (merge self)
  | AlignItems => mk (grid_gap self) (justify_content self) v (width self) (height self) (merge self)
  | Width => mk (grid_gap self) (justify_content self) (align_items self) v (height self) (merge self)
  | Height => mk (grid_gap self) (justify_content self) (align_items self) (width self) v (merge self)
  end.

Definition set_merge (b : bool) (self : t) : t :=
  mk (grid_gap self) (justify_content self) (align_items self) (width self) (height self) b.

(** The mixin only works in a class that has a [layout] attribute. *)
Class Host (C : Type) := layout_of : C → loc.

(** Lines 81-85, observing [All]:
    [setattr(self.layout, change['name'], change['new'])] *)
Definition _delegate_to_layout {C} `{Host C} (change : Change) (w : world C) : world C :=
  setattr (layout_of (self w)) (name change) (new change) w.

(** The mixin reads its own traits off [self]. *)
Class Styled (C : Type) := template_of : C → t.

(** [getattr(self, prop)] for a style trait. *)
Definition get_style (a : style) (self : t) : option string :=
  match a with
  | GridGap => grid_gap self
  | JustifyContent => justify_content self
  | AlignItems => align_items self
  | Width => width self
  | Height => height self
  end.

(** [if value:] on a style value: [None] and the empty string are false. *)
Definition truthy (value : option string) : bool :=
  match value with
  | Some (String _ _) => true
  | Some EmptyString => false
  | None => false
  end.

(** Lines 91-94, the body of the loop over [_props]. *)
Definition copy_prop {C} `{Host C} `{Styled C} (w : world C) (prop : style) : world C :=
  let value := get_style prop (template_of (self w)) in
  if truthy value
  then setattr (layout_of (self w)) (style_name prop) (of_unicode value) w
  else w.

(** Lines 87-94.  [_props] is what [self.trait_names(style=True)]
    returns: the style traits, in an order traitlets chooses. *)
Definition _copy_layout_props {C} `{Host C} `{Styled C} (_props : list style)
    (w : world C) : world C :=
  foldl copy_prop w _props.

(** The five traits tagged [style=True], in the order of their names. *)
Definition style_traits : list style :=
  [AlignItems; GridGap; Height; JustifyContent; Width].

(** [str.lower()], on the letters A to Z. *)
Definition lower_ascii (c : Ascii.ascii) : Ascii.ascii :=
  let n := Ascii.nat_of_ascii c in
  if (65 <=? n)%nat && (n <=? 90)%nat then Ascii.ascii_of_nat (n + 32) else c.

Fixpoint lower (s : string) : string :=
  match s with
  | EmptyString => EmptyString
  | String c s' => String (lower_ascii c) (lower s')
  end.

(** The values of the two [CaselessStrEnum] traits, lines 56-64; the
    other style traits are [Unicode] and take any string. *)
Definition enum_values (a : style) : option (list string) :=
  match a with
  | JustifyContent =>
      Some ["flex-start"; "flex-end"; "center"; "space-between"; "space-around"]
  | AlignItems =>
      Some ["flex-start"; "flex-end"; "center"; "baseline"; "stretch"]
  | GridGap | Width | Height => None
  end.

(** What traitlets stores for a value assigned to a style trait.  All
    five allow [None].  A [CaselessStrEnum] stores the listed value that
    equals the given one up to case, and raises [TraitError] when there
    is none. *)
Definition validate_style (a : style) (value : option string) : result (option string) :=
  match enum_values a, value with
  | Some values, Some s =>
      match List.find (λ v, String.eqb (lower v) (lower s)) values with
      | Some v => Ok (Some v)
      | None => Raise TraitError
      end
  | _, _ => Ok value
  end.

End LayoutTemplate.

(** What a resolver computes: the matrix of area names and the tracks. *)
Record GridSpec := mkGrid {
  grid_template_areas : list (list string);
  grid_template_columns : list string;
  grid_template_rows : list string
}.

(** ** [AppLayout]: header, footer, two sidebars and a centre *)

Module AppLayout.

Record t := mk {
  header : option Widget;
  footer : option Widget;
  left_sidebar : option Widget;
  right_sidebar : option Widget;
  center : option Widget;
  template : LayoutTemplate.t;
  children : list Widget;
  layout : loc
}.

Definition merge (self : t) : bool := LayoutTemplate.merge (template self).

(** [all_children], lines 130-134. *)
Definition all_children (self : t) : list (string * option Widget) :=
  [("header", header self);
   ("footer", footer self);
   ("left-sidebar", left_sidebar self);
   ("right-sidebar", right_sidebar self);
   ("center", center self)].

Definition base_areas : list (list string) :=
  [["header"; "header"; "header"];
   ["left-sidebar"; "center"; "right-sidebar"];
   ["footer"; "footer"; "footer"]].

Definition base : GridSpec :=
  mkGrid base_areas ["1fr"; "2fr"; "1fr"] ["1fr"; "3fr"; "1fr"].

(** Lines 155-158: without a centre the middle column goes. *)
Definition drop_center (self : t) (g : GridSpec) : result GridSpec :=
  match center self with
  | None =>
      areas ← mapM (λ row, PyList.delitem row 1) (grid_template_areas g);
      columns ← PyList.delitem (grid_template_columns g) 1;
      Ok (mkGrid areas columns (grid_template_rows g))
  | Some _ => Ok g
  end.

(** Lines 160-161. *)
Definition fill_left (self : t) (g : GridSpec) : result GridSpec :=
  match left_sidebar self with
  | None =>
      v ← PyList.getitem2 (grid_template_areas g) 1 1;
      areas ← PyList.setitem2 (grid_template_areas g) 1 0 v;
      Ok (mkGrid areas (grid_template_columns g) (grid_template_rows g))
  | Some _ => Ok g
  end.

(** Lines 163-164. *)
Definition fill_right (self : t) (g : GridSpec) : result GridSpec :=
  match right_sidebar self with
  | None =>
      v ← PyList.getitem2 (grid_template_areas g) 1 (-2);
      areas ← PyList.setitem2 (grid_template_areas g) 1 (-1) v;
      Ok (mkGrid areas (grid_template_columns g) (grid_template_rows g))
  | Some _ => Ok g
  end.

(** Lines 166-171: an empty middle row replaces the whole grid. *)
Definition header_footer_only (self : t) (g : GridSpec) : result GridSpec :=
  match left_sidebar self, right_sidebar self, center self with
  | None, None, None => Ok (mkGrid [["header"]; ["footer"]] ["1fr"] ["1fr"; "1fr"])
  | _, _, _ => Ok g
  end.

(** Lines 173-175. *)
Definition drop_header (self : t) (g : GridSpec) : result GridSpec :=
  match header self with
  | None =>
      areas ← PyList.delitem (grid_template_areas g) 0;
      rows ← PyList.delitem (grid_template_rows g) 0;
      Ok (mkGrid areas (grid_template_columns g) rows)
  | Some _ => Ok g
  end.

(** Lines 177-179. *)
Definition drop_footer (self : t) (g : GridSpec) : result GridSpec :=
  match footer self with
  | None =>
      areas ← PyList.delitem (grid_template_areas g) (-1);
      rows ← PyList.delitem (grid_template_rows g) (-1);
      Ok (mkGrid areas (grid_template_columns g) rows)
  | Some _ => Ok g
  end.

(** Lines 124-128 and 146-179: the grid for a non-empty [children]. *)
Definition grid (self : t) (children : list (string * Widget)) : result GridSpec :=
  if merge self then
    if decide (length children = 1%nat) then
      position ← PyList.getitem (keys children) 0;
      Ok (mkGrid [[position; position; position];
                  [position; position; position];
                  [position; position; position]]
                 (grid_template_columns base) (grid_template_rows base))
    else
      g ← drop_center self base;
      g ← fill_left self g;
      g ← fill_right self g;
      g ← header_footer_only self g;
      g ← drop_header self g;
      drop_footer self g
  else Ok base.

#[global] Instance host : LayoutTemplate.Host t := layout.
#[global] Instance styled : LayoutTemplate.Styled t := template.

Definition set_children (ws : list Widget) (self : t) : t :=
  mk (header self) (footer self) (left_sidebar self) (right_sidebar self)
     (center self) (template self) ws (layout self).

(** Line 189, [self.children = tuple(children.values())]: a trait
    assignment, which the observer on [All] forwards like any other. *)
Definition assign_children (ws : list Widget) (w : world t) : world t :=
  let change := mkChange "children" (VTuple ws) in
  LayoutTemplate._delegate_to_layout change (store_trait (set_children ws) change w).

(** Lines 182-189: the layout object and [children] are written. *)
Definition write_out (g : GridSpec) (children : list (string * Widget))
    (w : world t) : world t :=
  let css := grid_template_areas_css (grid_template_areas g) in
  let w := setattr (layout (self w)) "grid_template_columns"
             (VStr (String.concat " " (grid_template_columns g))) w in
  let w := setattr (layout (self w)) "grid_template_rows"
             (VStr (String.concat " " (grid_template_rows g))) w in
  let w := setattr (layout (self w)) "grid_template_areas" (VStr css) w in
  assign_children (values children) w.

(** Lines 122-189. *)
Definition _update_layout (w : world t) : result (world t) :=
  let children := present (all_children (self w)) in
  match children with
  | [] => Ok w
  | _ :: _ =>
      let w := tag_children children w in
      g ← grid (self w) children;
      Ok (write_out g children w)
  end.

(** Lines 191-193. *)
Definition _child_changed (change : Change) (w : world t) : result (world t) :=
  _update_layout w.

Definition child_changed_names : list string :=
  ["footer"; "header"; "center"; "left_sidebar"; "right_sidebar"].

(** The widget positions, lines 112-116. *)
Inductive slot := Header | Footer | LeftSidebar | RightSidebar | Center.

Definition slot_name (s : slot) : string :=
  match s with
  | Header => "header"
  | Footer => "footer"
  | LeftSidebar => "left_sidebar"
  | RightSidebar => "right_sidebar"
  | Center => "center"
  end.

(** The key of a position in [all_children]. *)
Definition position (s : slot) : string :=
  match s with
  | Header => "header"
  | Footer => "footer"
  | LeftSidebar => "left-sidebar"
  | RightSidebar => "right-sidebar"
  | Center => "center"
  end.

Definition get_slot (s : slot) (self : t) : option Widget :=
  match s with
  | Header => header self
  | Footer => footer self
  | LeftSidebar => left_sidebar self
  | RightSidebar => right_sidebar self
  | Center => center self
  end.

Definition set_slot (s : slot) (c : option Widget) (self : t) : t :=
  match s with
  | Header => mk c (footer self) (left_sidebar self) (right_sidebar self)
                (center self) (template self) (children self) (layout self)
  | Footer => mk (header self) c (left_sidebar self) (right_sidebar self)
                (center self) (template self) (children self) (layout self)
  | LeftSidebar => mk (header self) (footer self) c (right_sidebar self)
                (center self) (template self) (children self) (layout self)
  | RightSidebar => mk (header self) (footer self) (left_sidebar self) c
                (center self) (template self) (children self) (layout self)
  | Center => mk (header self) (footer self) (left_sidebar self) (right_sidebar self)
                c (template self) (children self) (layout self)
  end.

Definition set_template (f : LayoutTemplate.t → LayoutTemplate.t) (self : t) : t :=
  mk (header self) (footer self) (left_sidebar self) (right_sidebar self)
     (center self) (f (template self)) (children self) (layout self).

(** An assignment to one of the traits the file declares or writes. *)
Inductive assignment :=
  | SetStyle (a : LayoutTemplate.style) (v : option string)
  | SetMerge (b : bool)
  | SetSlot (s : slot) (c : option Widget)
  | SetChildren (ws : list Widget).

Definition change_of (a : assignment) : Change :=
  match a with
  | SetStyle a v => mkChange (LayoutTemplate.style_name a) (of_unicode v)
  | SetMerge b => mkChange "merge" (VBool b)
  | SetSlot s c => mkChange (slot_name s) (of_child c)
  | SetChildren ws => mkChange "children" (VTuple ws)
  end.

Definition update_of (a : assignment) : t → t :=
  match a with
  | SetStyle a v => set_template (LayoutTemplate.set_style a v)
  | SetMerge b => set_template (LayoutTemplate.set_merge b)
  | SetSlot s c => set_slot s c
  | SetChildren ws => set_children ws
  end.

(** The notification of a change.  The notification machinery belongs
    to traitlets, not to this file; what the decorators ask of it is
    modelled: the new value is stored, then the observers registered for
    the trait's name run ([_child_changed], for the five positions),
    then those registered for [All] ([_delegate_to_layout]), each to
    completion.  This is what an assignment does when it changes the
    value, see [set_trait]. *)
Definition assign (a : assignment) (w : world t) : result (world t) :=
  let change := change_of a in
  let w := store_trait (update_of a) change w in
  w ← (if bool_decide (name change ∈ child_changed_names)
       then _child_changed change w else Ok w);
  Ok (LayoutTemplate._delegate_to_layout change w).

(** The value traitlets stores for the one assigned. *)
Definition validate (a : assignment) : result assignment :=
  match a with
  | SetStyle st v => v' ← LayoutTemplate.validate_style st v; Ok (SetStyle st v')
  | SetMerge _ | SetSlot _ _ | SetChildren _ => Ok a
  end.

(** [old_value == new_value]: the trait already holds the value. *)
Definition unchanged (a : assignment) (self : t) : bool :=
  match a with
  | SetStyle st v => bool_decide (LayoutTemplate.get_style st (template self) = v)
  | SetMerge b => bool_decide (merge self = b)
  | SetSlot s c => bool_decide (get_slot s self = c)
  | SetChildren ws => bool_decide (children self = ws)
  end.

(** [self.<trait> = value], as traitlets carries it out: the value is
    validated, and the observers are notified only when the validated
    value differs from the one the trait holds. *)
Definition set_trait (a : assignment) (w : world t) : result (world t) :=
  a ← validate a;
  if unchanged a (self w) then Ok w else assign a w.

End AppLayout.

(** ** [TwoByTwoLayout]: a 2x2 grid *)

Module TwoByTwoLayout.

Record t := mk {
  top_left : option Widget;
  top_right : option Widget;
  bottom_left : option Widget;
  bottom_right : option Widget;
  template : LayoutTemplate.t;
  children : list Widget;
  layout : loc
}.

Definition merge (self : t) : bool := LayoutTemplate.merge (template self).

(** [all_children], lines 238-241. *)
Definition all_children (self : t) : list (string * option Widget) :=
  [("top-left", top_left self);
   ("top-right", top_right self);
   ("bottom-left", bottom_left self);
   ("bottom-right", bottom_right self)].

Definition base_areas : list (list string) :=
  [["top-left"; "top-right"];
   ["bottom-left"; "bottom-right"]].

(** Lines 262-273: the body of the loop over the two columns. *)
Definition merge_column (children : list (string * Widget))
    (ic : Z * string) (areas : list (list string)) : result (list (list string)) :=
  let '(i, column) := ic in
  let top := dict_get children ("top-" +:+ column) in
  let bottom := dict_get children ("bottom-" +:+ column) in
  let i_neighbour := (i + 1) `mod` 2 in
  match top, bottom with
  | None, None =>
      v ← PyList.getitem2 areas 0 i_neighbour;
      areas ← PyList.setitem2 areas 0 i v;
      v ← PyList.getitem2 areas 1 i_neighbour;
      PyList.setitem2 areas 1 i v
  | None, Some _ =>
      v ← PyList.getitem2 areas 1 i;
      PyList.setitem2 areas 0 i v
  | Some _, None =>
      v ← PyList.getitem2 areas 0 i;
      PyList.setitem2 areas 1 i v
  | Some _, Some _ => Ok areas
  end.

(** Lines 235-236 and 253-273: the area matrix for a non-empty
    [children]. *)
Definition grid (self : t) (children : list (string * Widget))
  : result (list (list string)) :=
  if merge self then
    if decide (length children = 1%nat) then
      position ← PyList.getitem (keys children) 0;
      Ok [[position; position]; [position; position]]
    else
      for_each (merge_column children) (PyList.enumerate ["left"; "right"]) base_areas
  else Ok base_areas.

#[global] Instance host : LayoutTemplate.Host t := layout.
#[global] Instance styled : LayoutTemplate.Styled t := template.

Definition set_children (ws : list Widget) (self : t) : t :=
  mk (top_left self) (top_right self) (bottom_left self) (bottom_right self)
     (template self) ws (layout self).

(** Line 282, [self.children = tuple(children.values())]. *)
Definition assign_children (ws : list Widget) (w : world t) : world t :=
  let change := mkChange "children" (VTuple ws) in
  LayoutTemplate._delegate_to_layout change (store_trait (set_children ws) change w).

(** Lines 275-282: the layout object and [children] are written. *)
Definition write_out (areas : list (list string)) (children : list (string * Widget))
    (w : world t) : world t :=
  let css := grid_template_areas_css areas in
  let w := setattr (layout (self w)) "grid_template_columns" (VStr "1fr 1fr") w in
  let w := setattr (layout (self w)) "grid_template_rows" (VStr "1fr 1fr") w in
  let w := setattr (layout (self w)) "grid_template_areas" (VStr css) w in
  assign_children (values children) w.

(** Lines 232-282. *)
Definition _update_layout (w : world t) : result (world t) :=
  let children := present (all_children (self w)) in
  match children with
  | [] => Ok w
  | _ :: _ =>
      let w := tag_children children w in
      areas ← grid (self w) children;
      Ok (write_out areas children w)
  end.

(** Lines 285-287. *)
Definition _child_changed (change : Change) (w : world t) : result (world t) :=
  _update_layout w.

Definition child_changed_names : list string :=
  ["top_left"; "bottom_left"; "top_right"; "bottom_right"].

(** The widget positions, lines 222-225. *)
Inductive slot := TopLeft | TopRight | BottomLeft | BottomRight.

Definition slot_name (s : slot) : string :=
  match s with
  | TopLeft => "top_left"
  | TopRight => "top_right"
  | BottomLeft => "bottom_left"
  | BottomRight => "bottom_right"
  end.

(** The key of a position in [all_children]. *)
Definition position (s : slot) : string :=
  match s with
  | TopLeft => "top-left"
  | TopRight => "top-right"
  | BottomLeft => "bottom-left"
  | BottomRight => "bottom-right"
  end.

Definition get_slot (s : slot) (self : t) : option Widget :=
  match s with
  | TopLeft => top_left self
  | TopRight => top_right self
  | BottomLeft => bottom_left self
  | BottomRight => bottom_right self
  end.

Definition set_slot (s : slot) (c : option Widget) (self : t) : t :=
  match s with
  | TopLeft => mk c (top_right self) (bottom_left self) (bottom_right self)
                 (template self) (children self) (layout self)
  | TopRight => mk (top_left self) c (bottom_left self) (bottom_right self)
                 (template self) (children self) (layout self)
  | BottomLeft => mk (top_left self) (top_right self) c (bottom_right self)
                 (template self) (children self) (layout self)
  | BottomRight => mk (top_left self) (top_right self) (bottom_left self) c
                 (template self) (children self) (layout self)
  end.

Definition set_template (f : LayoutTemplate.t → LayoutTemplate.t) (self : t) : t :=
  mk (top_left self) (top_right self) (bottom_left self) (bottom_right self)
     (f (template self)) (children self) (layout self).

(** An assignment to one of the traits the file declares or writes. *)
Inductive assignment :=
  | SetStyle (a : LayoutTemplate.style) (v : option string)
  | SetMerge (b : bool)
  | SetSlot (s : slot) (c : option Widget)
  | SetChildren (ws : list Widget).

Definition change_of (a : assignment) : Change :=
  match a with
  | SetStyle a v => mkChange (LayoutTemplate.style_name a) (of_unicode v)
  | SetMerge b => mkChange "merge" (VBool b)
  | SetSlot s c => mkChange (slot_name s) (of_child c)
  | SetChildren ws => mkChange "children" (VTuple ws)
  end.

Definition update_of (a : assignment) : t → t :=
  match a with
  | SetStyle a v => set_template (LayoutTemplate.set_style a v)
  | SetMerge b => set_template (LayoutTemplate.set_merge b)
  | SetSlot s c => set_slot s c
  | SetChildren ws => set_children ws
  end.

(** The notification of a change, as for [AppLayout]. *)
Definition assign (a : assignment) (w : world t) : result (world t) :=
  let change := change_of a in
  let w := store_trait (update_of a) change w in
  w ← (if bool_decide (name change ∈ child_changed_names)
       then _child_changed change w else Ok w);
  Ok (LayoutTemplate._delegate_to_layout change w).

(** The value traitlets stores for the one assigned. *)
Definition validate (a : assignment) : result assignment :=
  match a with
  | SetStyle st v => v' ← LayoutTemplate.validate_style st v; Ok (SetStyle st v')
  | SetMerge _ | SetSlot _ _ | SetChildren _ => Ok a
  end.

(** [old_value == new_value]: the trait already holds the value. *)
Definition unchanged (a : assignment) (self : t) : bool :=
  match a with
  | SetStyle st v => bool_decide (LayoutTemplate.get_style st (template self) = v)
  | SetMerge b => bool_decide (merge self = b)
  | SetSlot s c => bool_decide (get_slot s self = c)
  | SetChildren ws => bool_decide (children self = ws)
  end.

(** [self.<trait> = value], as for [AppLayout]. *)
Definition set_trait (a : assignment) (w : world t) : result (world t) :=
  a ← validate a;
  if unchanged a (self w) then Ok w else assign a w.

End TwoByTwoLayout.


(** ** Reading a run *)

(** The event that tags one child. *)
Definition tag_event (item : string * Widget) : event :=
  SetAttr (widget_layout item.2) "grid_area" (VStr item.1).

(** The events of the write-out onto the layout object [l]. *)
Definition write_out_events (l : loc) (columns rows css : string) (ws : list Widget)
  : list event :=
  [SetAttr l "grid_template_columns" (VStr columns);
   SetAttr l "grid_template_rows" (VStr rows);
   SetAttr l "grid_template_areas" (VStr css);
   SetTrait "children" (VTuple ws);
   SetAttr l "children" (VTuple ws)].

(** The layout object [l] holds this grid description. *)
Definition shows {C} (w : world C) (l : loc) (columns rows css : string) : Prop :=
  getattr w l "grid_template_columns" = Some (VStr columns) ∧
  getattr w l "grid_template_rows" = Some (VStr rows) ∧
  getattr w l "grid_template_areas" = Some (VStr css).

(** [e] writes the area tag [p] onto some layout object. *)
Definition is_tag (p : string) (e : event) : bool :=
  match e with
  | SetAttr _ attr (VStr q) => bool_decide (attr = "grid_area") && bool_decide (q = p)
  | _ => false
  end.

(** [e] writes a grid attribute of [l] or the container's [children]. *)
Definition is_rewrite (l : loc) (e : event) : bool :=
  match e with
  | SetAttr o attr _ =>
      bool_decide (o = l) &&
      bool_decide (attr ∈ ["grid_template_columns"; "grid_template_rows";
                           "grid_template_areas"])
  | SetTrait attr _ => bool_decide (attr = "children")
  end.

(** The name [p] occurs in the matrix. *)
Definition occurs (p : string) (areas : list (list string)) : Prop :=
  p ∈ concat areas.

Definition n_rows (areas : list (list string)) : nat := length areas.
Definition n_columns (areas : list (list string)) : nat :=
  match areas with
  | [] => 0%nat
  | row :: _ => length row
  end.

(** The cells of the left column, [areas[0][0]] and [areas[1][0]]. *)
Definition left_column (areas : list (list string)) : result (string * string) :=
  top ← PyList.getitem2 areas 0 0;
  bottom ← PyList.getitem2 areas 1 0;
  Ok (top, bottom).

(** The cells of the right column, [areas[0][1]] and [areas[1][1]]. *)
Definition right_column (areas : list (list string)) : result (string * string) :=
  top ← PyList.getitem2 areas 0 1;
  bottom ← PyList.getitem2 areas 1 1;
  Ok (top, bottom).

(** Every position occupied in [T] is occupied in [S]. *)
Definition app_subpattern (T S : AppLayout.t) : Prop :=
  ∀ s, is_not_None (AppLayout.get_slot s T) = true →
       is_not_None (AppLayout.get_slot s S) = true.

(** The size of the cross grid when merging is on and at least two
    positions are occupied: two rows and one column when the middle row
    is empty; otherwise a row less for each of header and footer that is
    absent, and a column less when the centre is absent. *)
Definition middle_empty (self : AppLayout.t) : bool :=
  negb (is_not_None (AppLayout.left_sidebar self)) &&
  negb (is_not_None (AppLayout.right_sidebar self)) &&
  negb (is_not_None (AppLayout.center self)).

Definition cross_rows (self : AppLayout.t) : nat :=
  if middle_empty self then 2%nat
  else (3 - (if is_not_None (AppLayout.header self) then 0 else 1)
          - (if is_not_None (AppLayout.footer self) then 0 else 1))%nat.

Definition cross_columns (self : AppLayout.t) : nat :=
  if middle_empty self then 1%nat
  else if is_not_None (AppLayout.center self) then 3%nat else 2%nat.

(** The two assignments agree on which right-column positions are occupied. *)
Definition same_right_presence (a b : TwoByTwoLayout.t) : Prop :=
  is_not_None (TwoByTwoLayout.top_right a) = is_not_None (TwoByTwoLayout.top_right b) ∧
  is_not_None (TwoByTwoLayout.bottom_right a) = is_not_None (TwoByTwoLayout.bottom_right b).

(** The events a run appended to the trace of [w]. *)
Definition appended {C} (w w' : world C) (run : list event) : Prop :=
  trace w' = trace w ++ run.

(** ** Sample widgets and containers *)

Definition button1 : Widget := mkWidget 1 101.
Definition button2 : Widget := mkWidget 2 102.
Definition button3 : Widget := mkWidget 3 103.
Definition button4 : Widget := mkWidget 4 104.


(** A fresh [AppLayout] with nothing placed; its layout object is at 0. *)
Definition app_blank : world AppLayout.t :=
  mkWorld (AppLayout.mk None None None None None LayoutTemplate.default [] 0) ∅ [].


(** [header] alone, and [header] with [footer]. *)
Definition app_header : AppLayout.t :=
  AppLayout.mk (Some button1) None None None None LayoutTemplate.default [] 0.
Definition app_header_footer : AppLayout.t :=
  AppLayout.mk (Some button1) (Some button2) None None None LayoutTemplate.default [] 0.

(** [app_blank] after [header = button1]. *)
Definition app_header_placed : world AppLayout.t :=
  match AppLayout.assign (AppLayout.SetSlot AppLayout.Header (Some button1)) app_blank with
  | Ok w => w
  | Raise _ => app_blank
  end.

(** [app_header_placed] after [merge = False]: the layout object still
    shows the merged grid. *)
Definition app_header_unmerged : world AppLayout.t :=
  match AppLayout.set_trait (AppLayout.SetMerge false) app_header_placed with
  | Ok w => w
  | Raise _ => app_header_placed
  end.

(** A fresh [TwoByTwoLayout] with nothing placed. *)
Definition quad_blank : world TwoByTwoLayout.t :=
  mkWorld (TwoByTwoLayout.mk None None None None LayoutTemplate.default [] 0) ∅ [].

(** [top_left] with [bottom_right]; [top_left] alone; the left column. *)
Definition quad_diagonal : TwoByTwoLayout.t :=
  TwoByTwoLayout.mk (Some button1) None None (Some button4) LayoutTemplate.default [] 0.
Definition quad_top_left : TwoByTwoLayout.t :=
  TwoByTwoLayout.mk (Some button1) None None None LayoutTemplate.default [] 0.
Definition quad_left : TwoByTwoLayout.t :=
  TwoByTwoLayout.mk (Some button1) None (Some button3) None LayoutTemplate.default [] 0.

(** ** Replaying a trace *)

(** The heap after the attribute writes of [run], in their order. *)
Definition replay_event (h : gmap (loc * string) value) (e : event)
  : gmap (loc * string) value :=
  match e with
  | SetAttr o attr v => <[(o, attr) := v]> h
  | SetTrait _ _ => h
  end.

Definition replay (run : list event) (h : gmap (loc * string) value)
  : gmap (loc * string) value :=
  foldl replay_event h run.

(** The value [run] writes last to the attribute [k], if it writes it. *)
Definition last_write (run : list event) (k : loc * string) : option value :=
  foldl (λ found e,
           match e with
           | SetAttr o attr v => if decide ((o, attr) = k) then Some v else found
           | SetTrait _ _ => found
           end) None run.

(** ** Shapes of area matrices *)

(** The cells of a matrix with their row and column. *)
Definition cells (areas : list (list string)) : list (nat * nat * string) :=
  concat (imap (λ r row, imap (λ c p, (r, c, p)) row) areas).

Definition minimum (l : list nat) : nat := foldr Nat.min (hd 0%nat l) l.
Definition maximum (l : list nat) : nat := foldr Nat.max 0%nat l.

(** The cells named [p] fill their bounding box: the area is a
    rectangle, as [grid-template-areas] requires of every named area. *)
Definition is_rectangle (p : string) (areas : list (list string)) : bool :=
  let mine := List.filter (λ cell, String.eqb cell.2 p) (cells areas) in
  let rs := map (λ cell, cell.1.1) mine in
  let cs := map (λ cell, cell.1.2) mine in
  forallb (λ cell,
             if (minimum rs <=? cell.1.1)%nat && (cell.1.1 <=? maximum rs)%nat &&
                (minimum cs <=? cell.1.2)%nat && (cell.1.2 <=? maximum cs)%nat
             then String.eqb cell.2 p else true)
          (cells areas).

Definition rectangular_areas (areas : list (list string)) : bool :=
  forallb (λ p, is_rectangle p areas) (concat areas).

(** A name that can stand in an area template: not empty, and free of
    the characters that separate cells and rows. *)
Fixpoint free_of (c : Ascii.ascii) (s : string) : Prop :=
  match s with
  | EmptyString => True
  | String a s' => a ≠ c ∧ free_of c s'
  end.

Definition plain (s : string) : Prop :=
  s ≠ EmptyString ∧ free_of (Ascii.ascii_of_nat 32) s ∧ free_of (Ascii.ascii_of_nat 10) s.

Definition plain_areas (areas : list (list string)) : Prop :=
  Forall (Forall plain) areas.

(** The two containers agree on which positions are occupied. *)
Definition app_same_presence (a b : AppLayout.t) : Prop :=
  ∀ s, is_not_None (AppLayout.get_slot s a) = is_not_None (AppLayout.get_slot s b).

Definition quad_same_presence (a b : TwoByTwoLayout.t) : Prop :=
  ∀ s, is_not_None (TwoByTwoLayout.get_slot s a)
       = is_not_None (TwoByTwoLayout.get_slot s b).

(** The layout objects of the occupants. *)
Definition occupant_layouts (children : list (string * Widget)) : list loc :=
  widget_layout <$> values children.

(** The attributes a run of [_update_layout] may write. *)
Definition grid_attributes : list string :=
  ["grid_template_columns"; "grid_template_rows"; "grid_template_areas"].

#[global] Instance style_eq_dec : EqDecision LayoutTemplate.style.
Proof. solve_decision. Defined.

(** A container with style attributes set: an empty [grid_gap] and a
    [width]. *)
Definition styled_app : world AppLayout.t :=
  mkWorld (AppLayout.mk (Some button1) None None None None
             (LayoutTemplate.mk (Some EmptyString) None None (Some "100%") None true)
             [] 0) ∅ [].

(** ** Facts about the heap and the trace *)

Section Heap.
Context {C : Type}.
Implicit Types (w : world C) (children : list (string * Widget)).

Lemma tag_children_self children w : self (tag_children children w) = self w.
Proof.
  revert w. induction children as [|item children IH]; intros w; [done|].
  simpl. by rewrite IH.
Qed.

Lemma tag_children_trace children w :
  trace (tag_children children w) = trace w ++ (tag_event <$> children).
Proof.
  revert w. induction children as [|item children IH]; intros w; simpl.
  - by rewrite app_nil_r.
  - rewrite IH. simpl. by rewrite <- app_assoc.
Qed.

(** Tagging touches no attribute but [grid_area]. *)
Lemma tag_children_other children w o attr :
  attr ≠ "grid_area" →
  getattr (tag_children children w) o attr = getattr w o attr.
Proof.
  intros Hattr. revert w.
  induction children as [|item children IH]; intros w; [done|].
  simpl. rewrite IH. unfold getattr, tag_child. simpl.
  apply lookup_insert_ne. congruence.
Qed.

(** A layout object no child refers to keeps its tag. *)
Lemma tag_children_fresh children w o :
  o ∉ (widget_layout <$> values children) →
  getattr (tag_children children w) o "grid_area" = getattr w o "grid_area".
Proof.
  revert w. induction children as [|[p c] children IH]; intros w Ho; [done|].
  unfold values in *. rewrite !fmap_cons in Ho.
  apply not_elem_of_cons in Ho as [Hne Ho].
  simpl. rewrite IH by done.
  unfold getattr, tag_child. simpl.
  apply lookup_insert_ne. intros [= Heq]. by apply Hne.
Qed.

(** When the children's layout objects are pairwise distinct, each
    child ends up tagged with its own position. *)
Lemma tag_children_tagged children w p c :
  NoDup (widget_layout <$> values children) →
  (p, c) ∈ children →
  getattr (tag_children children w) (widget_layout c) "grid_area" = Some (VStr p).
Proof.
  revert w. induction children as [|[q d] children IH]; intros w Hnd Hin.
  - by apply elem_of_nil in Hin.
  - unfold values in *. rewrite !fmap_cons in Hnd.
    apply NoDup_cons in Hnd as [Hd Hnd].
    apply elem_of_cons in Hin as [[= -> ->]|Hin]; simpl.
    + rewrite tag_children_fresh by done.
      unfold getattr, tag_child. simpl. apply lookup_insert_eq.
    + by apply IH.
Qed.

(** The write-out carries no area tag. *)
Lemma write_out_events_no_tag p l columns rows css ws :
  List.filter (is_tag p) (write_out_events l columns rows css ws) = [].
Proof. reflexivity. Qed.

End Heap.

(** ** Facts about [AppLayout] *)

Section AppLayoutFacts.
Implicit Types (self : AppLayout.t) (w : world AppLayout.t) (g : GridSpec).

(** The grid computation never raises. *)
Lemma app_grid_total self :
  ∃ g, AppLayout.grid self (present (AppLayout.all_children self)) = Ok g.
Proof.
  destruct self as [[?|] [?|] [?|] [?|] [?|] [? ? ? ? ? [|]] ? ?];
    vm_compute; eauto.
Qed.

Lemma app_present_slot self s c :
  AppLayout.get_slot s self = Some c →
  (AppLayout.position s, c) ∈ present (AppLayout.all_children self).
Proof.
  destruct self as [h f l r ce ? ? ?].
  destruct s; simpl; intros ->;
    repeat match goal with o : option Widget |- _ => destruct o end;
    cbn; repeat (first [apply list_elem_of_here | apply list_elem_of_further]).
Qed.

Lemma app_write_out_self g children w :
  self (AppLayout.write_out g children w)
  = AppLayout.set_children (values children) (self w).
Proof. done. Qed.

Lemma app_write_out_trace g children w :
  trace (AppLayout.write_out g children w)
  = trace w ++ write_out_events (AppLayout.layout (self w))
      (String.concat " " (grid_template_columns g))
      (String.concat " " (grid_template_rows g))
      (grid_template_areas_css (grid_template_areas g))
      (values children).
Proof.
  unfold AppLayout.write_out, AppLayout.assign_children,
    LayoutTemplate._delegate_to_layout, store_trait, setattr. simpl.
  by rewrite <- !app_assoc.
Qed.

Lemma app_write_out_shows g children w :
  shows (AppLayout.write_out g children w) (AppLayout.layout (self w))
    (String.concat " " (grid_template_columns g))
    (String.concat " " (grid_template_rows g))
    (grid_template_areas_css (grid_template_areas g)).
Proof.
  unfold shows, getattr, AppLayout.write_out, AppLayout.assign_children,
    LayoutTemplate._delegate_to_layout, store_trait, setattr. simpl.
  repeat split.
  - rewrite !lookup_insert_ne by congruence. apply lookup_insert_eq.
  - rewrite !lookup_insert_ne by congruence. apply lookup_insert_eq.
  - rewrite !lookup_insert_ne by congruence. apply lookup_insert_eq.
Qed.

Lemma app_write_out_grid_area g children w o :
  getattr (AppLayout.write_out g children w) o "grid_area" = getattr w o "grid_area".
Proof.
  unfold getattr, AppLayout.write_out, AppLayout.assign_children,
    LayoutTemplate._delegate_to_layout, store_trait, setattr. simpl.
  by rewrite !lookup_insert_ne by congruence.
Qed.

(** A run on a non-empty [children]: tags, then the write-out. *)
Lemma app_update_layout_run w g :
  present (AppLayout.all_children (self w)) ≠ [] →
  AppLayout.grid (self w) (present (AppLayout.all_children (self w))) = Ok g →
  AppLayout._update_layout w
  = Ok (AppLayout.write_out g (present (AppLayout.all_children (self w)))
          (tag_children (present (AppLayout.all_children (self w))) w)).
Proof.
  intros Hne Hg. unfold AppLayout._update_layout.
  destruct (present (AppLayout.all_children (self w))) as [|item rest] eqn:E; [done|].
  cbv zeta. rewrite tag_children_self, Hg. done.
Qed.

Lemma app_update_layout_empty w :
  present (AppLayout.all_children (self w)) = [] →
  AppLayout._update_layout w = Ok w.
Proof. intros E. unfold AppLayout._update_layout. by rewrite E. Qed.

Lemma app_slot_observed s :
  bool_decide (AppLayout.slot_name s ∈ AppLayout.child_changed_names) = true.
Proof. by destruct s. Qed.

(** What one run on a non-empty [children] leaves behind. *)
Lemma app_run w g :
  let children := present (AppLayout.all_children (self w)) in
  children ≠ [] →
  AppLayout.grid (self w) children = Ok g →
  ∃ w', AppLayout._update_layout w = Ok w' ∧
    self w' = AppLayout.set_children (values children) (self w) ∧
    shows w' (AppLayout.layout (self w))
      (String.concat " " (grid_template_columns g))
      (String.concat " " (grid_template_rows g))
      (grid_template_areas_css (grid_template_areas g)) ∧
    appended w w' ((tag_event <$> children) ++
      write_out_events (AppLayout.layout (self w))
        (String.concat " " (grid_template_columns g))
        (String.concat " " (grid_template_rows g))
        (grid_template_areas_css (grid_template_areas g))
        (values children)) ∧
    ∀ o, getattr w' o "grid_area" = getattr (tag_children children w) o "grid_area".
Proof.
  intros children Hne Hg. eexists. split; [by apply app_update_layout_run|].
  fold children.
  pose proof (app_write_out_shows g children (tag_children children w)) as Hs.
  pose proof (app_write_out_trace g children (tag_children children w)) as Ht.
  rewrite tag_children_self in Hs, Ht. rewrite tag_children_trace in Ht.
  repeat split; try apply Hs.
  - by rewrite app_write_out_self, tag_children_self.
  - unfold appended. by rewrite Ht, <- app_assoc.
  - intros o. apply app_write_out_grid_area.
Qed.

Lemma app_update_layout_total w : ∃ w', AppLayout._update_layout w = Ok w'.
Proof.
  destruct (decide (present (AppLayout.all_children (self w)) = [])) as [E|Hne].
  - exists w. by apply app_update_layout_empty.
  - destruct (app_grid_total (self w)) as [g Hg].
    destruct (app_run w g Hne Hg) as (w' & Hrun & _). by exists w'.
Qed.

(** A run keeps the layout object and only appends to the trace. *)
Lemma app_update_layout_frame w w' :
  AppLayout._update_layout w = Ok w' →
  AppLayout.layout (self w') = AppLayout.layout (self w) ∧
  ∃ run, appended w w' run.
Proof.
  intros Hrun.
  destruct (decide (present (AppLayout.all_children (self w)) = [])) as [E|Hne].
  - rewrite app_update_layout_empty in Hrun by done. injection Hrun as <-.
    split; [done|]. exists []. unfold appended. by rewrite app_nil_r.
  - destruct (app_grid_total (self w)) as [g Hg].
    destruct (app_run w g Hne Hg) as (w2 & Hrun2 & Hself & _ & Happ & _).
    rewrite Hrun in Hrun2. injection Hrun2 as <-.
    split; [by rewrite Hself|by eauto].
Qed.

Lemma app_style_not_observed a :
  bool_decide (LayoutTemplate.style_name a ∈ AppLayout.child_changed_names) = false.
Proof. by destruct a. Qed.

(** Among the tags of a run, exactly one carries a given occupied
    position, and it goes to the occupant's layout object. *)
Lemma app_single_tag self s c :
  AppLayout.get_slot s self = Some c →
  List.filter (is_tag (AppLayout.position s))
    (tag_event <$> present (AppLayout.all_children self))
  = [tag_event (AppLayout.position s, c)].
Proof.
  destruct self as [h f l r ce ? ? ?].
  destruct s; simpl; intros ->;
    repeat match goal with o : option Widget |- _ => destruct o end;
    reflexivity.
Qed.

Lemma app_position_occurs self s c g :
  AppLayout.get_slot s self = Some c →
  AppLayout.grid self (present (AppLayout.all_children self)) = Ok g →
  occurs (AppLayout.position s) (grid_template_areas g).
Proof.
  destruct self as [h f l r ce [? ? ? ? ? m] ? ?].
  destruct s; simpl; intros ->;
    repeat match goal with o : option Widget |- _ => destruct o end;
    destruct m; vm_compute; intros [= <-];
    repeat (first [apply list_elem_of_here | apply list_elem_of_further]).
Qed.

(** The size of the merged grid of two or more occupants. *)
Lemma app_grid_size self :
  AppLayout.merge self = true →
  (2 ≤ length (present (AppLayout.all_children self)))%nat →
  ∃ g, AppLayout.grid self (present (AppLayout.all_children self)) = Ok g ∧
    n_rows (grid_template_areas g) = cross_rows self ∧
    n_columns (grid_template_areas g) = cross_columns self ∧
    length (grid_template_rows g) = cross_rows self ∧
    length (grid_template_columns g) = cross_columns self.
Proof.
  destruct self as [h f l r c [? ? ? ? ? m] ? ?].
  unfold AppLayout.merge. simpl. intros -> Hlen.
  destruct h, f, l, r, c; cbn in Hlen; try (exfalso; lia);
    (eexists; split; [vm_compute; reflexivity|]); by vm_compute.
Qed.

(** Removing occupants never adds one. *)
Lemma app_subpattern_length T S :
  app_subpattern T S →
  (length (present (AppLayout.all_children T))
   ≤ length (present (AppLayout.all_children S)))%nat.
Proof.
  intros Hsub.
  pose proof (Hsub AppLayout.Header) as Hh.
  pose proof (Hsub AppLayout.Footer) as Hf.
  pose proof (Hsub AppLayout.LeftSidebar) as Hl.
  pose proof (Hsub AppLayout.RightSidebar) as Hr.
  pose proof (Hsub AppLayout.Center) as Hc.
  destruct T as [hT fT lT rT cT ? ? ?], S as [hS fS lS rS cS ? ? ?].
  simpl in *. clear Hsub.
  destruct hT, hS; try (by specialize (Hh eq_refl)); clear Hh;
  destruct fT, fS; try (by specialize (Hf eq_refl)); clear Hf;
  destruct lT, lS; try (by specialize (Hl eq_refl)); clear Hl;
  destruct rT, rS; try (by specialize (Hr eq_refl)); clear Hr;
  destruct cT, cS; try (by specialize (Hc eq_refl)); clear Hc;
  cbn; lia.
Qed.

(** With at least two occupants left, the closed forms only shrink. *)
Lemma cross_size_monotone T S :
  app_subpattern T S →
  (2 ≤ length (present (AppLayout.all_children T)))%nat →
  (cross_rows T ≤ cross_rows S)%nat ∧ (cross_columns T ≤ cross_columns S)%nat.
Proof.
  intros Hsub.
  pose proof (Hsub AppLayout.Header) as Hh.
  pose proof (Hsub AppLayout.Footer) as Hf.
  pose proof (Hsub AppLayout.LeftSidebar) as Hl.
  pose proof (Hsub AppLayout.RightSidebar) as Hr.
  pose proof (Hsub AppLayout.Center) as Hc.
  destruct T as [hT fT lT rT cT ? ? ?], S as [hS fS lS rS cS ? ? ?].
  unfold cross_rows, cross_columns, middle_empty. simpl in *. clear Hsub.
  destruct hT, hS; try (by specialize (Hh eq_refl)); clear Hh;
  destruct fT, fS; try (by specialize (Hf eq_refl)); clear Hf;
  destruct lT, lS; try (by specialize (Hl eq_refl)); clear Hl;
  destruct rT, rS; try (by specialize (Hr eq_refl)); clear Hr;
  destruct cT, cS; try (by specialize (Hc eq_refl)); clear Hc;
  cbn; lia.
Qed.

End AppLayoutFacts.

(** ** Facts about [TwoByTwoLayout] *)

Section TwoByTwoLayoutFacts.
Implicit Types (self : TwoByTwoLayout.t) (w : world TwoByTwoLayout.t).
Implicit Types (areas : list (list string)).

(** The grid computation never raises. *)
Lemma quad_grid_total self :
  ∃ areas, TwoByTwoLayout.grid self (present (TwoByTwoLayout.all_children self)) = Ok areas.
Proof.
  destruct self as [[?|] [?|] [?|] [?|] [? ? ? ? ? [|]] ? ?];
    vm_compute; eauto.
Qed.

Lemma quad_present_slot self s c :
  TwoByTwoLayout.get_slot s self = Some c →
  (TwoByTwoLayout.position s, c) ∈ present (TwoByTwoLayout.all_children self).
Proof.
  destruct self as [tl tr bl br ? ? ?].
  destruct s; simpl; intros ->;
    repeat match goal with o : option Widget |- _ => destruct o end;
    cbn; repeat (first [apply list_elem_of_here | apply list_elem_of_further]).
Qed.

Lemma quad_write_out_self areas children w :
  self (TwoByTwoLayout.write_out areas children w)
  = TwoByTwoLayout.set_children (values children) (self w).
Proof. done. Qed.

Lemma quad_write_out_trace areas children w :
  trace (TwoByTwoLayout.write_out areas children w)
  = trace w ++ write_out_events (TwoByTwoLayout.layout (self w))
      "1fr 1fr" "1fr 1fr" (grid_template_areas_css areas) (values children).
Proof.
  unfold TwoByTwoLayout.write_out, TwoByTwoLayout.assign_children,
    LayoutTemplate._delegate_to_layout, store_trait, setattr. simpl.
  by rewrite <- !app_assoc.
Qed.

Lemma quad_write_out_shows areas children w :
  shows (TwoByTwoLayout.write_out areas children w) (TwoByTwoLayout.layout (self w))
    "1fr 1fr" "1fr 1fr" (grid_template_areas_css areas).
Proof.
  unfold shows, getattr, TwoByTwoLayout.write_out, TwoByTwoLayout.assign_children,
    LayoutTemplate._delegate_to_layout, store_trait, setattr. simpl.
  repeat split.
  - rewrite !lookup_insert_ne by congruence. apply lookup_insert_eq.
  - rewrite !lookup_insert_ne by congruence. apply lookup_insert_eq.
  - rewrite !lookup_insert_ne by congruence. apply lookup_insert_eq.
Qed.

Lemma quad_write_out_grid_area areas children w o :
  getattr (TwoByTwoLayout.write_out areas children w) o "grid_area"
  = getattr w o "grid_area".
Proof.
  unfold getattr, TwoByTwoLayout.write_out, TwoByTwoLayout.assign_children,
    LayoutTemplate._delegate_to_layout, store_trait, setattr. simpl.
  by rewrite !lookup_insert_ne by congruence.
Qed.

(** A run on a non-empty [children]: tags, then the write-out. *)
Lemma quad_update_layout_run w areas :
  present (TwoByTwoLayout.all_children (self w)) ≠ [] →
  TwoByTwoLayout.grid (self w) (present (TwoByTwoLayout.all_children (self w))) = Ok areas →
  TwoByTwoLayout._update_layout w
  = Ok (TwoByTwoLayout.write_out areas (present (TwoByTwoLayout.all_children (self w)))
          (tag_children (present (TwoByTwoLayout.all_children (self w))) w)).
Proof.
  intros Hne Hg. unfold TwoByTwoLayout._update_layout.
  destruct (present (TwoByTwoLayout.all_children (self w))) as [|item rest] eqn:E; [done|].
  cbv zeta. rewrite tag_children_self, Hg. done.
Qed.

Lemma quad_update_layout_empty w :
  present (TwoByTwoLayout.all_children (self w)) = [] →
  TwoByTwoLayout._update_layout w = Ok w.
Proof. intros E. unfold TwoByTwoLayout._update_layout. by rewrite E. Qed.

Lemma quad_slot_observed s :
  bool_decide (TwoByTwoLayout.slot_name s ∈ TwoByTwoLayout.child_changed_names) = true.
Proof. by destruct s. Qed.

(** What one run on a non-empty [children] leaves behind. *)
Lemma quad_run w areas :
  let children := present (TwoByTwoLayout.all_children (self w)) in
  children ≠ [] →
  TwoByTwoLayout.grid (self w) children = Ok areas →
  ∃ w', TwoByTwoLayout._update_layout w = Ok w' ∧
    self w' = TwoByTwoLayout.set_children (values children) (self w) ∧
    shows w' (TwoByTwoLayout.layout (self w)) "1fr 1fr" "1fr 1fr"
      (grid_template_areas_css areas) ∧
    appended w w' ((tag_event <$> children) ++
      write_out_events (TwoByTwoLayout.layout (self w)) "1fr 1fr" "1fr 1fr"
        (grid_template_areas_css areas) (values children)) ∧
    ∀ o, getattr w' o "grid_area" = getattr (tag_children children w) o "grid_area".
Proof.
  intros children Hne Hg. eexists. split; [by apply quad_update_layout_run|].
  fold children.
  pose proof (quad_write_out_shows areas children (tag_children children w)) as Hs.
  pose proof (quad_write_out_trace areas children (tag_children children w)) as Ht.
  rewrite tag_children_self in Hs, Ht. rewrite tag_children_trace in Ht.
  repeat split; try apply Hs.
  - by rewrite quad_write_out_self, tag_children_self.
  - unfold appended. by rewrite Ht, <- app_assoc.
  - intros o. apply quad_write_out_grid_area.
Qed.

Lemma quad_update_layout_total w : ∃ w', TwoByTwoLayout._update_layout w = Ok w'.
Proof.
  destruct (decide (present (TwoByTwoLayout.all_children (self w)) = [])) as [E|Hne].
  - exists w. by apply quad_update_layout_empty.
  - destruct (quad_grid_total (self w)) as [g Hg].
    destruct (quad_run w g Hne Hg) as (w' & Hrun & _). by exists w'.
Qed.

(** A run keeps the layout object and only appends to the trace. *)
Lemma quad_update_layout_frame w w' :
  TwoByTwoLayout._update_layout w = Ok w' →
  TwoByTwoLayout.layout (self w') = TwoByTwoLayout.layout (self w) ∧
  ∃ run, appended w w' run.
Proof.
  intros Hrun.
  destruct (decide (present (TwoByTwoLayout.all_children (self w)) = [])) as [E|Hne].
  - rewrite quad_update_layout_empty in Hrun by done. injection Hrun as <-.
    split; [done|]. exists []. unfold appended. by rewrite app_nil_r.
  - destruct (quad_grid_total (self w)) as [g Hg].
    destruct (quad_run w g Hne Hg) as (w2 & Hrun2 & Hself & _ & Happ & _).
    rewrite Hrun in Hrun2. injection Hrun2 as <-.
    split; [by rewrite Hself|by eauto].
Qed.

Lemma quad_style_not_observed a :
  bool_decide (LayoutTemplate.style_name a ∈ TwoByTwoLayout.child_changed_names) = false.
Proof. by destruct a. Qed.

(** Among the tags of a run, exactly one carries a given occupied
    position, and it goes to the occupant's layout object. *)
Lemma quad_single_tag self s c :
  TwoByTwoLayout.get_slot s self = Some c →
  List.filter (is_tag (TwoByTwoLayout.position s))
    (tag_event <$> present (TwoByTwoLayout.all_children self))
  = [tag_event (TwoByTwoLayout.position s, c)].
Proof.
  destruct self as [tl tr bl br ? ? ?].
  destruct s; simpl; intros ->;
    repeat match goal with o : option Widget |- _ => destruct o end;
    reflexivity.
Qed.

Lemma quad_position_occurs self s c areas :
  TwoByTwoLayout.get_slot s self = Some c →
  TwoByTwoLayout.grid self (present (TwoByTwoLayout.all_children self)) = Ok areas →
  occurs (TwoByTwoLayout.position s) areas.
Proof.
  destruct self as [tl tr bl br [? ? ? ? ? m] ? ?].
  destruct s; simpl; intros ->;
    repeat match goal with o : option Widget |- _ => destruct o end;
    destruct m; vm_compute; intros [= <-];
    repeat (first [apply list_elem_of_here | apply list_elem_of_further]).
Qed.

(** X9: with two or more occupants the loop over the columns, which
    updates the matrix in place, gives each column what its step gives
    on the base matrix: the second step never reads a cell the first
    changed. *)
Lemma quad_columns_read_base self :
  TwoByTwoLayout.merge self = true →
  (2 ≤ length (present (TwoByTwoLayout.all_children self)))%nat →
  ∃ areas from_left from_right,
    let children := present (TwoByTwoLayout.all_children self) in
    TwoByTwoLayout.grid self children = Ok areas ∧
    TwoByTwoLayout.merge_column children (0, "left") TwoByTwoLayout.base_areas
    = Ok from_left ∧
    TwoByTwoLayout.merge_column children (1, "right") TwoByTwoLayout.base_areas
    = Ok from_right ∧
    left_column areas = left_column from_left ∧
    right_column areas = right_column from_right.
Proof.
  destruct self as [tl tr bl br [? ? ? ? ? m] ? ?].
  unfold TwoByTwoLayout.merge. simpl. intros -> Hlen.
  destruct tl, tr, bl, br; cbn in Hlen; try (exfalso; lia);
    eexists _, _, _; repeat split; reflexivity.
Qed.

End TwoByTwoLayoutFacts.

(** ** Worked examples *)

Example app_full_grid :
  AppLayout.grid
    (AppLayout.mk (Some button1) (Some button2) (Some button3) (Some button4)
       (Some (mkWidget 5 105)) LayoutTemplate.default [] 0)
    [("header", button1); ("footer", button2); ("left-sidebar", button3);
     ("right-sidebar", button4); ("center", mkWidget 5 105)]
  = Ok AppLayout.base.
Proof. reflexivity. Qed.

Example app_no_center_grid :
  AppLayout.grid
    (AppLayout.mk (Some button1) (Some button2) (Some button3) (Some button4)
       None LayoutTemplate.default [] 0)
    [("header", button1); ("footer", button2); ("left-sidebar", button3);
     ("right-sidebar", button4)]
  = Ok (mkGrid [["header"; "header"];
                ["left-sidebar"; "right-sidebar"];
                ["footer"; "footer"]]
          ["1fr"; "1fr"] ["1fr"; "3fr"; "1fr"]).
Proof. reflexivity. Qed.

Example app_no_left_no_center_grid :
  AppLayout.grid
    (AppLayout.mk (Some button1) (Some button2) None (Some button4)
       None LayoutTemplate.default [] 0)
    [("header", button1); ("footer", button2); ("right-sidebar", button4)]
  = Ok (mkGrid [["header"; "header"];
                ["right-sidebar"; "right-sidebar"];
                ["footer"; "footer"]]
          ["1fr"; "1fr"] ["1fr"; "3fr"; "1fr"]).
Proof. reflexivity. Qed.

Example app_no_header_no_right_grid :
  AppLayout.grid
    (AppLayout.mk None (Some button2) (Some button3) None
       (Some button4) LayoutTemplate.default [] 0)
    [("footer", button2); ("left-sidebar", button3); ("center", button4)]
  = Ok (mkGrid [["left-sidebar"; "center"; "center"];
                ["footer"; "footer"; "footer"]]
          ["1fr"; "2fr"; "1fr"] ["3fr"; "1fr"]).
Proof. reflexivity. Qed.

Example quad_three_grid :
  TwoByTwoLayout.grid
    (TwoByTwoLayout.mk (Some button1) (Some button2) None (Some button4)
       LayoutTemplate.default [] 0)
    [("top-left", button1); ("top-right", button2); ("bottom-right", button4)]
  = Ok [["top-left"; "top-right"]; ["top-left"; "bottom-right"]].
Proof. reflexivity. Qed.

Example quad_right_only_grid :
  TwoByTwoLayout.grid
    (TwoByTwoLayout.mk None (Some button2) None (Some button4)
       LayoutTemplate.default [] 0)
    [("top-right", button2); ("bottom-right", button4)]
  = Ok [["top-right"; "top-right"]; ["bottom-right"; "bottom-right"]].
Proof. reflexivity. Qed.

Example app_header_placed_areas :
  getattr app_header_placed 0 "grid_template_areas"
  = Some (VStr (grid_template_areas_css
                  [["header"; "header"; "header"];
                   ["header"; "header"; "header"];
                   ["header"; "header"; "header"]])) ∧
  getattr app_header_placed 101 "grid_area" = Some (VStr "header") ∧
  AppLayout.children (self app_header_placed) = [button1].
Proof. by vm_compute. Qed.

(** ** The quadrant grid on concrete assignments *)

(** C1, as the code has it: with [top_left] and [bottom_right] placed and
    merging on, each column merges vertically, so the bottom-left cell
    takes top-left's name and the top-right cell takes bottom-right's; the
    matrix is [[top-left, bottom-right], [top-left, bottom-right]], and
    this is what the layout object receives. *)
Theorem quad_diagonal_grid (w : world TwoByTwoLayout.t) (a d : Widget) :
  TwoByTwoLayout.merge (self w) = true →
  TwoByTwoLayout.top_left (self w) = Some a →
  TwoByTwoLayout.top_right (self w) = None →
  TwoByTwoLayout.bottom_left (self w) = None →
  TwoByTwoLayout.bottom_right (self w) = Some d →
  TwoByTwoLayout.grid (self w) (present (TwoByTwoLayout.all_children (self w)))
  = Ok [["top-left"; "bottom-right"]; ["top-left"; "bottom-right"]] ∧
  ∃ w', TwoByTwoLayout._update_layout w = Ok w' ∧
        shows w' (TwoByTwoLayout.layout (self w)) "1fr 1fr" "1fr 1fr"
          (grid_template_areas_css
             [["top-left"; "bottom-right"]; ["top-left"; "bottom-right"]]).
Proof.
  intros Hm Htl Htr Hbl Hbr.
  assert (Hg : TwoByTwoLayout.grid (self w)
                 (present (TwoByTwoLayout.all_children (self w)))
               = Ok [["top-left"; "bottom-right"]; ["top-left"; "bottom-right"]]).
  { destruct w as [[tl tr bl br [? ? ? ? ? m] ? ?] ? ?].
    unfold TwoByTwoLayout.merge in *. simpl in *. subst. reflexivity. }
  split; [done|].
  assert (Hne : present (TwoByTwoLayout.all_children (self w)) ≠ []).
  { destruct w as [[tl tr bl br ? ? ?] ? ?]. simpl in *. by subst. }
  destruct (quad_run w _ Hne Hg) as (w' & Hrun & _ & Hshows & _).
  by eauto.
Qed.

Lemma quad_diagonal_grid_witness :
  TwoByTwoLayout.grid quad_diagonal (present (TwoByTwoLayout.all_children quad_diagonal))
  = Ok [["top-left"; "bottom-right"]; ["top-left"; "bottom-right"]].
Proof.
  exact (proj1 (quad_diagonal_grid (mkWorld quad_diagonal ∅ []) button1 button4
                  eq_refl eq_refl eq_refl eq_refl eq_refl)).
Defined.

(** C1, as the specification words it, fails on [quad_diagonal]: the
    matrix is not [[top-left, top-left], [bottom-right, bottom-right]]. *)
Lemma quad_diagonal_not_row_merged :
  TwoByTwoLayout.merge quad_diagonal = true ∧
  TwoByTwoLayout.grid quad_diagonal (present (TwoByTwoLayout.all_children quad_diagonal))
  ≠ Ok [["top-left"; "top-left"]; ["bottom-right"; "bottom-right"]].
Proof. split; [done|]. vm_compute. discriminate. Qed.

(** ** The right column of the quadrant grid *)

(** C2, as the code has it: with merging on, two assignments that agree
    on which right-column positions are occupied, and in which the right
    column is not empty, resolve to the same right-column cells, whatever
    the left column holds. *)
Theorem quad_right_column_stable (a b : TwoByTwoLayout.t) :
  TwoByTwoLayout.merge a = true →
  TwoByTwoLayout.merge b = true →
  same_right_presence a b →
  is_not_None (TwoByTwoLayout.top_right a) || is_not_None (TwoByTwoLayout.bottom_right a)
  = true →
  ∃ areas_a areas_b cells,
    TwoByTwoLayout.grid a (present (TwoByTwoLayout.all_children a)) = Ok areas_a ∧
    TwoByTwoLayout.grid b (present (TwoByTwoLayout.all_children b)) = Ok areas_b ∧
    right_column areas_a = Ok cells ∧
    right_column areas_b = Ok cells.
Proof.
  destruct a as [tla tra bla bra [? ? ? ? ? ma] ? ?].
  destruct b as [tlb trb blb brb [? ? ? ? ? mb] ? ?].
  unfold TwoByTwoLayout.merge, same_right_presence. simpl.
  intros -> -> [Htr Hbr] Hright.
  destruct tra, bra; try discriminate Hright;
    destruct trb, brb; try discriminate Htr; try discriminate Hbr;
    destruct tla, bla, tlb, blb;
    eexists _, _, _; repeat split; reflexivity.
Qed.

Lemma quad_right_column_stable_witness :
  ∃ areas_a areas_b cells,
    TwoByTwoLayout.grid quad_diagonal
      (present (TwoByTwoLayout.all_children quad_diagonal)) = Ok areas_a ∧
    TwoByTwoLayout.grid
      (TwoByTwoLayout.set_slot TwoByTwoLayout.BottomLeft (Some button3) quad_diagonal)
      (present (TwoByTwoLayout.all_children
         (TwoByTwoLayout.set_slot TwoByTwoLayout.BottomLeft (Some button3) quad_diagonal)))
    = Ok areas_b ∧
    right_column areas_a = Ok cells ∧
    right_column areas_b = Ok cells.
Proof.
  apply (quad_right_column_stable quad_diagonal
           (TwoByTwoLayout.set_slot TwoByTwoLayout.BottomLeft (Some button3) quad_diagonal)).
  - reflexivity.
  - reflexivity.
  - split; reflexivity.
  - reflexivity.
Defined.

(** C2, as the specification words it, fails when the right column is
    empty: [quad_top_left] and [quad_left] agree on the right column and
    differ only on the left, yet the right-column cells differ. *)
Lemma quad_right_column_varies :
  TwoByTwoLayout.merge quad_top_left = true ∧
  TwoByTwoLayout.merge quad_left = true ∧
  same_right_presence quad_top_left quad_left ∧
  ∃ areas_a areas_b,
    TwoByTwoLayout.grid quad_top_left
      (present (TwoByTwoLayout.all_children quad_top_left)) = Ok areas_a ∧
    TwoByTwoLayout.grid quad_left
      (present (TwoByTwoLayout.all_children quad_left)) = Ok areas_b ∧
    right_column areas_a = Ok ("top-left", "top-left") ∧
    right_column areas_b = Ok ("top-left", "bottom-left") ∧
    right_column areas_a ≠ right_column areas_b.
Proof.
  repeat split.
  eexists _, _. repeat split; try reflexivity. vm_compute. discriminate.
Qed.

(** ** Shrinking the cross grid *)

(** C3, as the code has it: with merging on, when [T] keeps at least two
    of the occupants of [S], the grid of [T] has no more rows and no more
    columns than the grid of [S], in the area matrix and in the tracks. *)
Theorem app_grid_shrinks (S T : AppLayout.t) :
  AppLayout.merge S = true →
  AppLayout.merge T = true →
  app_subpattern T S →
  (2 ≤ length (present (AppLayout.all_children T)))%nat →
  ∃ gS gT,
    AppLayout.grid S (present (AppLayout.all_children S)) = Ok gS ∧
    AppLayout.grid T (present (AppLayout.all_children T)) = Ok gT ∧
    (n_rows (grid_template_areas gT) ≤ n_rows (grid_template_areas gS))%nat ∧
    (n_columns (grid_template_areas gT) ≤ n_columns (grid_template_areas gS))%nat ∧
    (length (grid_template_rows gT) ≤ length (grid_template_rows gS))%nat ∧
    (length (grid_template_columns gT) ≤ length (grid_template_columns gS))%nat.
Proof.
  intros HmS HmT Hsub Hlen.
  pose proof (app_subpattern_length T S Hsub) as Hle.
  destruct (app_grid_size S HmS ltac:(lia)) as (gS & HgS & HrS & HcS & HtrS & HtcS).
  destruct (app_grid_size T HmT Hlen) as (gT & HgT & HrT & HcT & HtrT & HtcT).
  destruct (cross_size_monotone T S Hsub Hlen) as [Hrows Hcols].
  exists gS, gT. rewrite HrS, HcS, HtrS, HtcS, HrT, HcT, HtrT, HtcT. by repeat split.
Qed.

Lemma app_grid_shrinks_witness :
  ∃ gS gT,
    AppLayout.grid (AppLayout.set_slot AppLayout.Center (Some button3) app_header_footer)
      (present (AppLayout.all_children
         (AppLayout.set_slot AppLayout.Center (Some button3) app_header_footer))) = Ok gS ∧
    AppLayout.grid app_header_footer (present (AppLayout.all_children app_header_footer))
    = Ok gT ∧
    (n_rows (grid_template_areas gT) ≤ n_rows (grid_template_areas gS))%nat ∧
    (n_columns (grid_template_areas gT) ≤ n_columns (grid_template_areas gS))%nat ∧
    (length (grid_template_rows gT) ≤ length (grid_template_rows gS))%nat ∧
    (length (grid_template_columns gT) ≤ length (grid_template_columns gS))%nat.
Proof.
  apply (app_grid_shrinks
           (AppLayout.set_slot AppLayout.Center (Some button3) app_header_footer)
           app_header_footer).
  - reflexivity.
  - reflexivity.
  - intros s. destruct s; simpl; intros H; first [reflexivity | exact H].
  - simpl. lia.
Defined.

(** C3, as the specification words it, fails for a single occupant:
    [app_header] keeps one of the two occupants of [app_header_footer],
    and its grid is 3 by 3 where the larger assignment's is 2 by 1. *)
Lemma app_grid_grows_for_single :
  AppLayout.merge app_header_footer = true ∧
  AppLayout.merge app_header = true ∧
  app_subpattern app_header app_header_footer ∧
  present (AppLayout.all_children app_header) ≠ [] ∧
  ∃ gS gT,
    AppLayout.grid app_header_footer (present (AppLayout.all_children app_header_footer))
    = Ok gS ∧
    AppLayout.grid app_header (present (AppLayout.all_children app_header)) = Ok gT ∧
    (n_rows (grid_template_areas gS) < n_rows (grid_template_areas gT))%nat ∧
    (n_columns (grid_template_areas gS) < n_columns (grid_template_areas gT))%nat.
Proof.
  repeat split.
  - intros s. destruct s; simpl; intros H; first [reflexivity | exact H].
  - discriminate.
  - eexists _, _. repeat split; try reflexivity; cbn; lia.
Qed.

(** ** Nothing placed: the run changes nothing *)

(** C5: when no position is occupied, [_update_layout] returns without
    raising and leaves the container, every layout object (the grid
    attributes of its own and the area tags of all others) and the trace
    exactly as they were; so for both classes. *)
Theorem update_layout_empty_noop :
  (∀ w : world AppLayout.t,
     (∀ s, AppLayout.get_slot s (self w) = None) →
     AppLayout._update_layout w = Ok w) ∧
  (∀ w : world TwoByTwoLayout.t,
     (∀ s, TwoByTwoLayout.get_slot s (self w) = None) →
     TwoByTwoLayout._update_layout w = Ok w).
Proof.
  split; intros w Hnone.
  - apply app_update_layout_empty.
    pose proof (Hnone AppLayout.Header). pose proof (Hnone AppLayout.Footer).
    pose proof (Hnone AppLayout.LeftSidebar). pose proof (Hnone AppLayout.RightSidebar).
    pose proof (Hnone AppLayout.Center).
    destruct w as [[? ? ? ? ? ? ? ?] ? ?]. simpl in *. by subst.
  - apply quad_update_layout_empty.
    pose proof (Hnone TwoByTwoLayout.TopLeft). pose proof (Hnone TwoByTwoLayout.TopRight).
    pose proof (Hnone TwoByTwoLayout.BottomLeft).
    pose proof (Hnone TwoByTwoLayout.BottomRight).
    destruct w as [[? ? ? ? ? ? ?] ? ?]. simpl in *. by subst.
Qed.

Lemma update_layout_empty_noop_witness :
  AppLayout._update_layout app_blank = Ok app_blank ∧
  TwoByTwoLayout._update_layout quad_blank = Ok quad_blank.
Proof.
  split.
  - apply (proj1 update_layout_empty_noop app_blank). intros s. destruct s; reflexivity.
  - apply (proj2 update_layout_empty_noop quad_blank). intros s. destruct s; reflexivity.
Defined.

(** ** Merging off *)




(** ** Header and footer alone *)

(** C7: with merging on, no sidebar and no centre, and at least two
    occupants, the header and the footer are both present, the matrix
    built by the earlier steps is discarded whatever it was, and the
    grid is [[header], [footer]] with columns [1fr] and rows [1fr, 1fr];
    this is what the layout object receives. *)
Theorem app_header_footer_minimal (w : world AppLayout.t) :
  AppLayout.merge (self w) = true →
  AppLayout.left_sidebar (self w) = None →
  AppLayout.right_sidebar (self w) = None →
  AppLayout.center (self w) = None →
  (2 ≤ length (present (AppLayout.all_children (self w))))%nat →
  is_Some (AppLayout.header (self w)) ∧
  is_Some (AppLayout.footer (self w)) ∧
  (∀ g, AppLayout.header_footer_only (self w) g
        = Ok (mkGrid [["header"]; ["footer"]] ["1fr"] ["1fr"; "1fr"])) ∧
  AppLayout.grid (self w) (present (AppLayout.all_children (self w)))
  = Ok (mkGrid [["header"]; ["footer"]] ["1fr"] ["1fr"; "1fr"]) ∧
  ∃ w', AppLayout._update_layout w = Ok w' ∧
    shows w' (AppLayout.layout (self w)) "1fr" "1fr 1fr"
      (grid_template_areas_css [["header"]; ["footer"]]).
Proof.
  intros Hm Hl Hr Hc Hlen.
  assert (Hpresent : is_Some (AppLayout.header (self w)) ∧
                     is_Some (AppLayout.footer (self w)) ∧
                     AppLayout.grid (self w) (present (AppLayout.all_children (self w)))
                     = Ok (mkGrid [["header"]; ["footer"]] ["1fr"] ["1fr"; "1fr"])).
  { destruct w as [[h f l r c [? ? ? ? ? m] ? ?] ? ?].
    unfold AppLayout.merge in *. simpl in *. subst.
    destruct h, f; cbn in Hlen; try lia. by eauto. }
  destruct Hpresent as (Hh & Hf & Hg).
  repeat split; try done.
  - intros g. unfold AppLayout.header_footer_only. by rewrite Hl, Hr, Hc.
  - assert (Hne : present (AppLayout.all_children (self w)) ≠ []).
    { intros E. rewrite E in Hlen. simpl in Hlen. lia. }
    destruct (app_run w _ Hne Hg) as (w' & Hrun & _ & Hshows & _).
    by eauto.
Qed.

Lemma app_header_footer_minimal_witness :
  AppLayout.grid app_header_footer (present (AppLayout.all_children app_header_footer))
  = Ok (mkGrid [["header"]; ["footer"]] ["1fr"] ["1fr"; "1fr"]).
Proof.
  refine (proj1 (proj2 (proj2 (proj2
    (app_header_footer_minimal (mkWorld app_header_footer ∅ []) _ _ _ _ _)))));
    first [reflexivity | simpl; lia].
Defined.

(** ** No exception *)

(** C9: no presence pattern makes the code raise, with merging on or
    off.  Each reduction step of the cross grid succeeds on the grid the
    steps before it leave (so the deletions for an absent header or
    footer find a row to delete), both column steps of the quadrant grid
    succeed, and [_update_layout] returns for every container of either
    class. *)
Theorem update_layout_never_raises :
  (∀ self : AppLayout.t, ∃ g1 g2 g3 g4 g5 g6,
     AppLayout.drop_center self AppLayout.base = Ok g1 ∧
     AppLayout.fill_left self g1 = Ok g2 ∧
     AppLayout.fill_right self g2 = Ok g3 ∧
     AppLayout.header_footer_only self g3 = Ok g4 ∧
     AppLayout.drop_header self g4 = Ok g5 ∧
     AppLayout.drop_footer self g5 = Ok g6 ∧
     grid_template_areas g4 ≠ [] ∧ grid_template_rows g4 ≠ [] ∧
     (AppLayout.footer self = None →
      grid_template_areas g5 ≠ [] ∧ grid_template_rows g5 ≠ [])) ∧
  (∀ self : TwoByTwoLayout.t, ∃ areas1 areas2,
     let children := present (TwoByTwoLayout.all_children self) in
     TwoByTwoLayout.merge_column children (0, "left") TwoByTwoLayout.base_areas
     = Ok areas1 ∧
     TwoByTwoLayout.merge_column children (1, "right") areas1 = Ok areas2) ∧
  (∀ w : world AppLayout.t, ∃ w', AppLayout._update_layout w = Ok w') ∧
  (∀ w : world TwoByTwoLayout.t, ∃ w', TwoByTwoLayout._update_layout w = Ok w').
Proof.
  split; [|split; [|split]].
  - intros [[?|] [?|] [?|] [?|] [?|] ? ? ?];
      eexists _, _, _, _, _, _;
      (split; [reflexivity|]); (split; [reflexivity|]); (split; [reflexivity|]);
      (split; [reflexivity|]); (split; [reflexivity|]); (split; [reflexivity|]);
      vm_compute; (split; [discriminate|]); (split; [discriminate|]);
      intros E; first [discriminate E | split; discriminate].
  - intros [[?|] [?|] [?|] [?|] ? ? ?]; eexists _, _; split; reflexivity.
  - apply app_update_layout_total.
  - apply quad_update_layout_total.
Qed.

(** ** Forwarding to the layout object *)

(** A notified change of any trait ends with [setattr] of the same name
    and the new value on the layout object; a notified change of
    [merge] does nothing else. *)
Lemma notified_assignment_forwarded :
  (∀ (a : AppLayout.assignment) (w : world AppLayout.t), ∃ w' run,
     AppLayout.assign a w = Ok w' ∧
     AppLayout.layout (self w') = AppLayout.layout (self w) ∧
     getattr w' (AppLayout.layout (self w)) (name (AppLayout.change_of a))
     = Some (new (AppLayout.change_of a)) ∧
     appended w w'
       (SetTrait (name (AppLayout.change_of a)) (new (AppLayout.change_of a)) :: run ++
        [SetAttr (AppLayout.layout (self w)) (name (AppLayout.change_of a))
           (new (AppLayout.change_of a))])) ∧
  (∀ (b : bool) (w : world AppLayout.t),
     AppLayout.assign (AppLayout.SetMerge b) w
     = Ok (mkWorld (AppLayout.set_template (LayoutTemplate.set_merge b) (self w))
             (<[(AppLayout.layout (self w), "merge") := VBool b]> (heap w))
             (trace w ++ [SetTrait "merge" (VBool b);
                          SetAttr (AppLayout.layout (self w)) "merge" (VBool b)]))) ∧
  (∀ (a : TwoByTwoLayout.assignment) (w : world TwoByTwoLayout.t), ∃ w' run,
     TwoByTwoLayout.assign a w = Ok w' ∧
     TwoByTwoLayout.layout (self w') = TwoByTwoLayout.layout (self w) ∧
     getattr w' (TwoByTwoLayout.layout (self w)) (name (TwoByTwoLayout.change_of a))
     = Some (new (TwoByTwoLayout.change_of a)) ∧
     appended w w'
       (SetTrait (name (TwoByTwoLayout.change_of a)) (new (TwoByTwoLayout.change_of a))
        :: run ++
        [SetAttr (TwoByTwoLayout.layout (self w)) (name (TwoByTwoLayout.change_of a))
           (new (TwoByTwoLayout.change_of a))])) ∧
  (∀ (b : bool) (w : world TwoByTwoLayout.t),
     TwoByTwoLayout.assign (TwoByTwoLayout.SetMerge b) w
     = Ok (mkWorld (TwoByTwoLayout.set_template (LayoutTemplate.set_merge b) (self w))
             (<[(TwoByTwoLayout.layout (self w), "merge") := VBool b]> (heap w))
             (trace w ++ [SetTrait "merge" (VBool b);
                          SetAttr (TwoByTwoLayout.layout (self w)) "merge" (VBool b)]))).
Proof.
  split; [|split; [|split]].
  - intros a w. unfold AppLayout.assign.
    set (change := AppLayout.change_of a).
    set (w1 := store_trait (AppLayout.update_of a) change w).
    assert (Hl1 : AppLayout.layout (self w1) = AppLayout.layout (self w)).
    { subst w1. simpl. by destruct a as [[]| |[]|]. }
    assert (Hstep : ∃ w2 run,
      (if bool_decide (name change ∈ AppLayout.child_changed_names)
       then AppLayout._child_changed change w1 else Ok w1) = Ok w2 ∧
      AppLayout.layout (self w2) = AppLayout.layout (self w1) ∧ appended w1 w2 run).
    { destruct (bool_decide (name change ∈ AppLayout.child_changed_names)).
      - destruct (app_update_layout_total w1) as [w2 Hw2].
        destruct (app_update_layout_frame w1 w2 Hw2) as (Hl & run & Hrun).
        by exists w2, run.
      - exists w1, []. repeat split. unfold appended. by rewrite app_nil_r. }
    destruct Hstep as (w2 & run & -> & Hl2 & Hrun).
    eexists _, run. split; [reflexivity|].
    unfold LayoutTemplate._delegate_to_layout, LayoutTemplate.layout_of, AppLayout.host.
    split; [simpl; by rewrite Hl2, Hl1|]. split.
    + unfold getattr, setattr. simpl. rewrite Hl2, Hl1. apply lookup_insert_eq.
    + unfold appended in *. simpl. rewrite Hrun, Hl2, Hl1. subst w1. simpl.
      by rewrite <- !app_assoc.
  - intros b w. unfold AppLayout.assign. simpl.
    unfold LayoutTemplate._delegate_to_layout, setattr, store_trait. simpl.
    by rewrite <- app_assoc.
  - intros a w. unfold TwoByTwoLayout.assign.
    set (change := TwoByTwoLayout.change_of a).
    set (w1 := store_trait (TwoByTwoLayout.update_of a) change w).
    assert (Hl1 : TwoByTwoLayout.layout (self w1) = TwoByTwoLayout.layout (self w)).
    { subst w1. simpl. by destruct a as [[]| |[]|]. }
    assert (Hstep : ∃ w2 run,
      (if bool_decide (name change ∈ TwoByTwoLayout.child_changed_names)
       then TwoByTwoLayout._child_changed change w1 else Ok w1) = Ok w2 ∧
      TwoByTwoLayout.layout (self w2) = TwoByTwoLayout.layout (self w1) ∧
      appended w1 w2 run).
    { destruct (bool_decide (name change ∈ TwoByTwoLayout.child_changed_names)).
      - destruct (quad_update_layout_total w1) as [w2 Hw2].
        destruct (quad_update_layout_frame w1 w2 Hw2) as (Hl & run & Hrun).
        by exists w2, run.
      - exists w1, []. repeat split. unfold appended. by rewrite app_nil_r. }
    destruct Hstep as (w2 & run & -> & Hl2 & Hrun).
    eexists _, run. split; [reflexivity|].
    unfold LayoutTemplate._delegate_to_layout, LayoutTemplate.layout_of, TwoByTwoLayout.host.
    split; [simpl; by rewrite Hl2, Hl1|]. split.
    + unfold getattr, setattr. simpl. rewrite Hl2, Hl1. apply lookup_insert_eq.
    + unfold appended in *. simpl. rewrite Hrun, Hl2, Hl1. subst w1. simpl.
      by rewrite <- !app_assoc.
  - intros b w. unfold TwoByTwoLayout.assign. simpl.
    unfold LayoutTemplate._delegate_to_layout, setattr, store_trait. simpl.
    by rewrite <- app_assoc.
Qed.

(** ** Assigning a widget position *)

(** A notified change of a widget position that leaves at least one
    position occupied: every occupant is tagged, the layout object's
    columns, rows and areas and the container's [children] are written,
    and the attribute is forwarded; so for both classes. *)
Lemma notified_slot_rewrites :
  (∀ (w : world AppLayout.t) (s : AppLayout.slot) (c : option Widget),
     let self' := AppLayout.set_slot s c (self w) in
     let children := present (AppLayout.all_children self') in
     children ≠ [] →
     ∃ g w',
       AppLayout.grid self' children = Ok g ∧
       AppLayout.assign (AppLayout.SetSlot s c) w = Ok w' ∧
       shows w' (AppLayout.layout (self w))
         (String.concat " " (grid_template_columns g))
         (String.concat " " (grid_template_rows g))
         (grid_template_areas_css (grid_template_areas g)) ∧
       AppLayout.children (self w') = values children ∧
       appended w w'
         (SetTrait (AppLayout.slot_name s) (of_child c) ::
          (tag_event <$> children) ++
          write_out_events (AppLayout.layout (self w))
            (String.concat " " (grid_template_columns g))
            (String.concat " " (grid_template_rows g))
            (grid_template_areas_css (grid_template_areas g))
            (values children) ++
          [SetAttr (AppLayout.layout (self w)) (AppLayout.slot_name s) (of_child c)])) ∧
  (∀ (w : world TwoByTwoLayout.t) (s : TwoByTwoLayout.slot) (c : option Widget),
     let self' := TwoByTwoLayout.set_slot s c (self w) in
     let children := present (TwoByTwoLayout.all_children self') in
     children ≠ [] →
     ∃ areas w',
       TwoByTwoLayout.grid self' children = Ok areas ∧
       TwoByTwoLayout.assign (TwoByTwoLayout.SetSlot s c) w = Ok w' ∧
       shows w' (TwoByTwoLayout.layout (self w)) "1fr 1fr" "1fr 1fr"
         (grid_template_areas_css areas) ∧
       TwoByTwoLayout.children (self w') = values children ∧
       appended w w'
         (SetTrait (TwoByTwoLayout.slot_name s) (of_child c) ::
          (tag_event <$> children) ++
          write_out_events (TwoByTwoLayout.layout (self w)) "1fr 1fr" "1fr 1fr"
            (grid_template_areas_css areas) (values children) ++
          [SetAttr (TwoByTwoLayout.layout (self w)) (TwoByTwoLayout.slot_name s)
             (of_child c)])).
Proof.
  split.
  - intros w s c self' children Hne.
    set (change := AppLayout.change_of (AppLayout.SetSlot s c)).
    set (w1 := store_trait (AppLayout.set_slot s c) change w).
    assert (Hl : AppLayout.layout self' = AppLayout.layout (self w)) by by destruct s.
    destruct (app_grid_total self') as [g Hg].
    destruct (app_run w1 g Hne Hg) as (w2 & Hrun & Hself & Hshows & Happ & _).
    change (self w1) with self' in *. fold children in Hself, Happ.
    rewrite Hl in Hshows, Happ.
    exists g, (LayoutTemplate._delegate_to_layout change w2).
    split; [exact Hg|]. split.
    { change (AppLayout.assign (AppLayout.SetSlot s c) w) with
        (w' ← (if bool_decide (AppLayout.slot_name s ∈ AppLayout.child_changed_names)
               then AppLayout._update_layout w1 else Ok w1);
         Ok (LayoutTemplate._delegate_to_layout change w')).
      by rewrite app_slot_observed, Hrun. }
    split.
    { destruct Hshows as (Hc & Hr & Ha).
      unfold shows, getattr, LayoutTemplate._delegate_to_layout, setattr in *. simpl.
      repeat split; (rewrite lookup_insert_ne; [assumption|by destruct s]). }
    split.
    { simpl. by rewrite Hself. }
    unfold appended in *. simpl. rewrite Happ. simpl.
    unfold LayoutTemplate.layout_of, AppLayout.host. rewrite Hself. simpl. rewrite Hl.
    by rewrite <- !app_assoc.
  - intros w s c self' children Hne.
    set (change := TwoByTwoLayout.change_of (TwoByTwoLayout.SetSlot s c)).
    set (w1 := store_trait (TwoByTwoLayout.set_slot s c) change w).
    assert (Hl : TwoByTwoLayout.layout self' = TwoByTwoLayout.layout (self w))
      by by destruct s.
    destruct (quad_grid_total self') as [areas Hg].
    destruct (quad_run w1 areas Hne Hg) as (w2 & Hrun & Hself & Hshows & Happ & _).
    change (self w1) with self' in *. fold children in Hself, Happ.
    rewrite Hl in Hshows, Happ.
    exists areas, (LayoutTemplate._delegate_to_layout change w2).
    split; [exact Hg|]. split.
    { change (TwoByTwoLayout.assign (TwoByTwoLayout.SetSlot s c) w) with
        (w' ← (if bool_decide (TwoByTwoLayout.slot_name s ∈ TwoByTwoLayout.child_changed_names)
               then TwoByTwoLayout._update_layout w1 else Ok w1);
         Ok (LayoutTemplate._delegate_to_layout change w')).
      by rewrite quad_slot_observed, Hrun. }
    split.
    { destruct Hshows as (Hc & Hr & Ha).
      unfold shows, getattr, LayoutTemplate._delegate_to_layout, setattr in *. simpl.
      repeat split; (rewrite lookup_insert_ne; [assumption|by destruct s]). }
    split.
    { simpl. by rewrite Hself. }
    unfold appended in *. simpl. rewrite Happ. simpl.
    unfold LayoutTemplate.layout_of, TwoByTwoLayout.host. rewrite Hself. simpl.
    rewrite Hl. by rewrite <- !app_assoc.
Qed.

(** ** Area tags *)

(** C8: in both classes and with merging on or off, a run tags every
    occupied position exactly once, with the position's own name and on
    its occupant's layout object, and that name occurs in the computed
    area matrix; when the occupants' layout objects are pairwise
    distinct, each occupant's layout object ends up holding the name of
    its position. *)
Theorem every_occupant_tagged :
  (∀ (w : world AppLayout.t) (s : AppLayout.slot) (c : Widget),
     AppLayout.get_slot s (self w) = Some c →
     let children := present (AppLayout.all_children (self w)) in
     ∃ g w' run,
       AppLayout.grid (self w) children = Ok g ∧
       AppLayout._update_layout w = Ok w' ∧
       appended w w' run ∧
       List.filter (is_tag (AppLayout.position s)) run
       = [SetAttr (widget_layout c) "grid_area" (VStr (AppLayout.position s))] ∧
       occurs (AppLayout.position s) (grid_template_areas g) ∧
       (NoDup (widget_layout <$> values children) →
        getattr w' (widget_layout c) "grid_area" = Some (VStr (AppLayout.position s)))) ∧
  (∀ (w : world TwoByTwoLayout.t) (s : TwoByTwoLayout.slot) (c : Widget),
     TwoByTwoLayout.get_slot s (self w) = Some c →
     let children := present (TwoByTwoLayout.all_children (self w)) in
     ∃ areas w' run,
       TwoByTwoLayout.grid (self w) children = Ok areas ∧
       TwoByTwoLayout._update_layout w = Ok w' ∧
       appended w w' run ∧
       List.filter (is_tag (TwoByTwoLayout.position s)) run
       = [SetAttr (widget_layout c) "grid_area" (VStr (TwoByTwoLayout.position s))] ∧
       occurs (TwoByTwoLayout.position s) areas ∧
       (NoDup (widget_layout <$> values children) →
        getattr w' (widget_layout c) "grid_area"
        = Some (VStr (TwoByTwoLayout.position s)))).
Proof.
  split.
  - intros w s c Hslot children.
    pose proof (app_present_slot _ _ _ Hslot) as Hin. fold children in Hin.
    assert (Hne : children ≠ []) by (intros E; rewrite E in Hin; by apply elem_of_nil in Hin).
    destruct (app_grid_total (self w)) as [g Hg].
    destruct (app_run w g Hne Hg) as (w' & Hrun & _ & _ & Happ & Htags).
    eexists g, w', _. split; [exact Hg|]. split; [exact Hrun|]. split; [exact Happ|].
    split; [|split].
    + rewrite List.filter_app, write_out_events_no_tag, app_nil_r.
      by apply app_single_tag.
    + by eapply app_position_occurs.
    + intros Hnd. rewrite Htags. by apply tag_children_tagged.
  - intros w s c Hslot children.
    pose proof (quad_present_slot _ _ _ Hslot) as Hin. fold children in Hin.
    assert (Hne : children ≠ []) by (intros E; rewrite E in Hin; by apply elem_of_nil in Hin).
    destruct (quad_grid_total (self w)) as [areas Hg].
    destruct (quad_run w areas Hne Hg) as (w' & Hrun & _ & _ & Happ & Htags).
    eexists areas, w', _. split; [exact Hg|]. split; [exact Hrun|]. split; [exact Happ|].
    split; [|split].
    + rewrite List.filter_app, write_out_events_no_tag, app_nil_r.
      by apply quad_single_tag.
    + by eapply quad_position_occurs.
    + intros Hnd. rewrite Htags. by apply tag_children_tagged.
Qed.

Lemma every_occupant_tagged_witness :
  ∃ g w' run,
    AppLayout.grid app_header_footer (present (AppLayout.all_children app_header_footer))
    = Ok g ∧
    AppLayout._update_layout (mkWorld app_header_footer ∅ []) = Ok w' ∧
    appended (mkWorld app_header_footer ∅ []) w' run ∧
    List.filter (is_tag "footer") run = [SetAttr 102 "grid_area" (VStr "footer")] ∧
    occurs "footer" (grid_template_areas g) ∧
    (NoDup (widget_layout <$> values (present (AppLayout.all_children app_header_footer))) →
     getattr w' 102 "grid_area" = Some (VStr "footer")).
Proof.
  apply (proj1 every_occupant_tagged (mkWorld app_header_footer ∅ [])
           AppLayout.Footer button2).
  reflexivity.
Defined.

(** * Further properties of the two classes *)

(** ** Replaying the writes of a run *)

Section Replay.
Context {C : Type}.
Implicit Types (w : world C) (run : list event) (h : gmap (loc * string) value).

Lemma replay_app run1 run2 h : replay (run1 ++ run2) h = replay run2 (replay run1 h).
Proof. apply foldl_app. Qed.

Lemma last_write_snoc run e k :
  last_write (run ++ [e]) k
  = match e with
    | SetAttr o attr v => if decide ((o, attr) = k) then Some v else last_write run k
    | SetTrait _ _ => last_write run k
    end.
Proof. unfold last_write. by rewrite foldl_app. Qed.

(** An attribute holds what the run wrote to it last, and what it held
    before when the run does not write it. *)
Lemma replay_lookup run h k :
  replay run h !! k = match last_write run k with
                      | Some v => Some v
                      | None => h !! k
                      end.
Proof.
  induction run as [|e run IH] using rev_ind; [done|].
  rewrite replay_app, last_write_snoc. simpl.
  destruct e as [o attr v|attr v]; simpl; [|exact IH].
  destruct (decide ((o, attr) = k)) as [<-|Hne].
  - apply lookup_insert_eq.
  - by rewrite lookup_insert_ne.
Qed.

Lemma replay_idempotent run h : replay run (replay run h) = replay run h.
Proof.
  apply map_eq. intros k. rewrite !replay_lookup.
  by destruct (last_write run k).
Qed.

Lemma tag_children_heap children w :
  heap (tag_children children w) = replay (tag_event <$> children) (heap w).
Proof.
  revert w. induction children as [|item children IH]; intros w; [done|].
  simpl. by rewrite IH.
Qed.

(** A run that writes no attribute named [attr] leaves it alone. *)
Lemma last_write_None run k :
  Forall (λ e, match e with SetAttr o attr _ => (o, attr) ≠ k | SetTrait _ _ => True end) run →
  last_write run k = None.
Proof.
  induction run as [|e run IH] using rev_ind; [done|].
  rewrite Forall_app, Forall_singleton. intros [Hrun He].
  rewrite last_write_snoc. destruct e as [o attr v|]; [|by apply IH].
  rewrite decide_False by done. by apply IH.
Qed.

End Replay.

(** A run is the replay of its events. *)
Lemma app_run_replay (w : world AppLayout.t) g :
  let children := present (AppLayout.all_children (self w)) in
  let run := (tag_event <$> children) ++
             write_out_events (AppLayout.layout (self w))
               (String.concat " " (grid_template_columns g))
               (String.concat " " (grid_template_rows g))
               (grid_template_areas_css (grid_template_areas g))
               (values children) in
  children ≠ [] →
  AppLayout.grid (self w) children = Ok g →
  ∃ w', AppLayout._update_layout w = Ok w' ∧
    self w' = AppLayout.set_children (values children) (self w) ∧
    heap w' = replay run (heap w) ∧
    appended w w' run.
Proof.
  intros children run Hne Hg.
  destruct (app_run w g Hne Hg) as (w' & Hrun & Hself & _ & Happ & _).
  exists w'. repeat split; try done.
  rewrite (app_update_layout_run w g Hne Hg) in Hrun. injection Hrun as <-.
  subst run. rewrite replay_app, <- tag_children_heap.
  unfold AppLayout.write_out, AppLayout.assign_children,
    LayoutTemplate._delegate_to_layout, store_trait, setattr. simpl.
  by rewrite tag_children_self.
Qed.

Lemma quad_run_replay (w : world TwoByTwoLayout.t) areas :
  let children := present (TwoByTwoLayout.all_children (self w)) in
  let run := (tag_event <$> children) ++
             write_out_events (TwoByTwoLayout.layout (self w)) "1fr 1fr" "1fr 1fr"
               (grid_template_areas_css areas) (values children) in
  children ≠ [] →
  TwoByTwoLayout.grid (self w) children = Ok areas →
  ∃ w', TwoByTwoLayout._update_layout w = Ok w' ∧
    self w' = TwoByTwoLayout.set_children (values children) (self w) ∧
    heap w' = replay run (heap w) ∧
    appended w w' run.
Proof.
  intros children run Hne Hg.
  destruct (quad_run w areas Hne Hg) as (w' & Hrun & Hself & _ & Happ & _).
  exists w'. repeat split; try done.
  rewrite (quad_update_layout_run w areas Hne Hg) in Hrun. injection Hrun as <-.
  subst run. rewrite replay_app, <- tag_children_heap.
  unfold TwoByTwoLayout.write_out, TwoByTwoLayout.assign_children,
    LayoutTemplate._delegate_to_layout, store_trait, setattr. simpl.
  by rewrite tag_children_self.
Qed.

(** X1: running [_update_layout] a second time changes neither the
    container nor any attribute of any layout object, for both classes. *)
Theorem update_layout_idempotent :
  (∀ w : world AppLayout.t, ∃ w' w'',
     AppLayout._update_layout w = Ok w' ∧
     AppLayout._update_layout w' = Ok w'' ∧
     self w'' = self w' ∧ heap w'' = heap w') ∧
  (∀ w : world TwoByTwoLayout.t, ∃ w' w'',
     TwoByTwoLayout._update_layout w = Ok w' ∧
     TwoByTwoLayout._update_layout w' = Ok w'' ∧
     self w'' = self w' ∧ heap w'' = heap w').
Proof.
  split; intros w.
  - destruct (decide (present (AppLayout.all_children (self w)) = [])) as [E|Hne].
    { exists w, w. by rewrite app_update_layout_empty. }
    destruct (app_grid_total (self w)) as [g Hg].
    destruct (app_run_replay w g Hne Hg) as (w' & Hrun & Hself & Hheap & _).
    assert (Hc : present (AppLayout.all_children (self w'))
                 = present (AppLayout.all_children (self w))) by by rewrite Hself.
    assert (Hg' : AppLayout.grid (self w') (present (AppLayout.all_children (self w')))
                  = Ok g) by (rewrite Hc, Hself; exact Hg).
    assert (Hne' : present (AppLayout.all_children (self w')) ≠ []) by by rewrite Hc.
    destruct (app_run_replay w' g Hne' Hg') as (w'' & Hrun' & Hself' & Hheap' & _).
    exists w', w''. repeat split; try done.
    + rewrite Hself', Hc, Hself. reflexivity.
    + rewrite Hheap', Hc, Hself, Hheap. apply replay_idempotent.
  - destruct (decide (present (TwoByTwoLayout.all_children (self w)) = [])) as [E|Hne].
    { exists w, w. by rewrite quad_update_layout_empty. }
    destruct (quad_grid_total (self w)) as [g Hg].
    destruct (quad_run_replay w g Hne Hg) as (w' & Hrun & Hself & Hheap & _).
    assert (Hc : present (TwoByTwoLayout.all_children (self w'))
                 = present (TwoByTwoLayout.all_children (self w))) by by rewrite Hself.
    assert (Hg' : TwoByTwoLayout.grid (self w')
                    (present (TwoByTwoLayout.all_children (self w'))) = Ok g)
      by (rewrite Hc, Hself; exact Hg).
    assert (Hne' : present (TwoByTwoLayout.all_children (self w')) ≠ [])
      by by rewrite Hc.
    destruct (quad_run_replay w' g Hne' Hg') as (w'' & Hrun' & Hself' & Hheap' & _).
    exists w', w''. repeat split; try done.
    + rewrite Hself', Hc, Hself. reflexivity.
    + rewrite Hheap', Hc, Hself, Hheap. apply replay_idempotent.
Qed.

(** The events of a run write only area tags of occupants and the grid
    attributes and [children] of the layout object [l]. *)
Lemma run_last_write_other (children : list (string * Widget)) l columns rows css ws o attr :
  attr ≠ "grid_area" →
  o ≠ l ∨ attr ∉ "children" :: grid_attributes →
  last_write ((tag_event <$> children) ++ write_out_events l columns rows css ws) (o, attr)
  = None.
Proof.
  intros Hattr Hother. apply last_write_None, Forall_app. split.
  - apply Forall_fmap, Forall_forall. intros item _. simpl. congruence.
  - assert (Hk : ∀ a, a ∈ "children" :: grid_attributes → (l, a) ≠ (o, attr)).
    { intros a Ha [= -> ->]. by destruct Hother as [Ho|Ho]; apply Ho. }
    unfold write_out_events, grid_attributes in *.
    repeat constructor; try apply Hk;
      repeat (first [apply list_elem_of_here | apply list_elem_of_further]).
Qed.

Lemma run_last_write_tag (children : list (string * Widget)) l columns rows css ws o :
  o ∉ occupant_layouts children →
  last_write ((tag_event <$> children) ++ write_out_events l columns rows css ws)
    (o, "grid_area") = None.
Proof.
  intros Ho. apply last_write_None, Forall_app. split.
  - apply Forall_fmap, Forall_forall. intros [p c] Hin. simpl. intros [= Heq].
    apply Ho. unfold occupant_layouts, values. rewrite <- Heq.
    apply list_elem_of_fmap. exists c. split; [done|].
    apply list_elem_of_fmap. by exists (p, c).
  - unfold write_out_events. repeat constructor; congruence.
Qed.

(** X2: a run of [_update_layout] keeps the occupants, the style
    attributes, [merge] and the layout object of the container; on the
    heap it leaves alone every attribute other than [grid_area] that is
    not one of the grid attributes or [children] of the container's own
    layout object, and the [grid_area] of every layout object that
    belongs to no occupant. *)
Theorem update_layout_frame :
  (∀ w : world AppLayout.t, ∃ w',
     AppLayout._update_layout w = Ok w' ∧
     (∀ s, AppLayout.get_slot s (self w') = AppLayout.get_slot s (self w)) ∧
     AppLayout.template (self w') = AppLayout.template (self w) ∧
     AppLayout.layout (self w') = AppLayout.layout (self w) ∧
     (∀ o attr, attr ≠ "grid_area" →
        o ≠ AppLayout.layout (self w) ∨ attr ∉ "children" :: grid_attributes →
        getattr w' o attr = getattr w o attr) ∧
     (∀ o, o ∉ occupant_layouts (present (AppLayout.all_children (self w))) →
        getattr w' o "grid_area" = getattr w o "grid_area")) ∧
  (∀ w : world TwoByTwoLayout.t, ∃ w',
     TwoByTwoLayout._update_layout w = Ok w' ∧
     (∀ s, TwoByTwoLayout.get_slot s (self w') = TwoByTwoLayout.get_slot s (self w)) ∧
     TwoByTwoLayout.template (self w') = TwoByTwoLayout.template (self w) ∧
     TwoByTwoLayout.layout (self w') = TwoByTwoLayout.layout (self w) ∧
     (∀ o attr, attr ≠ "grid_area" →
        o ≠ TwoByTwoLayout.layout (self w) ∨ attr ∉ "children" :: grid_attributes →
        getattr w' o attr = getattr w o attr) ∧
     (∀ o, o ∉ occupant_layouts (present (TwoByTwoLayout.all_children (self w))) →
        getattr w' o "grid_area" = getattr w o "grid_area")).
Proof.
  split; intros w.
  - destruct (decide (present (AppLayout.all_children (self w)) = [])) as [E|Hne].
    { exists w. by rewrite app_update_layout_empty. }
    destruct (app_grid_total (self w)) as [g Hg].
    destruct (app_run_replay w g Hne Hg) as (w' & Hrun & Hself & Hheap & _).
    exists w'. split; [exact Hrun|]. rewrite Hself.
    split; [by intros []|]. split; [done|]. split; [done|]. split.
    + intros o attr Hattr Hother. unfold getattr.
      by rewrite Hheap, replay_lookup, run_last_write_other.
    + intros o Ho. unfold getattr.
      by rewrite Hheap, replay_lookup, run_last_write_tag.
  - destruct (decide (present (TwoByTwoLayout.all_children (self w)) = [])) as [E|Hne].
    { exists w. by rewrite quad_update_layout_empty. }
    destruct (quad_grid_total (self w)) as [g Hg].
    destruct (quad_run_replay w g Hne Hg) as (w' & Hrun & Hself & Hheap & _).
    exists w'. split; [exact Hrun|]. rewrite Hself.
    split; [by intros []|]. split; [done|]. split; [done|]. split.
    + intros o attr Hattr Hother. unfold getattr.
      by rewrite Hheap, replay_lookup, run_last_write_other.
    + intros o Ho. unfold getattr.
      by rewrite Hheap, replay_lookup, run_last_write_tag.
Qed.

(** X3: after a run [children] holds the occupants in the order of
    [all_children] (header, footer, left sidebar, right sidebar, centre;
    top left, top right, bottom left, bottom right), and is left as it
    was when no position is occupied. *)
Theorem children_in_position_order :
  (∀ w : world AppLayout.t, ∃ w',
     AppLayout._update_layout w = Ok w' ∧
     AppLayout.children (self w')
     = match omap id [AppLayout.header (self w); AppLayout.footer (self w);
                      AppLayout.left_sidebar (self w); AppLayout.right_sidebar (self w);
                      AppLayout.center (self w)] with
       | [] => AppLayout.children (self w)
       | occupants => occupants
       end) ∧
  (∀ w : world TwoByTwoLayout.t, ∃ w',
     TwoByTwoLayout._update_layout w = Ok w' ∧
     TwoByTwoLayout.children (self w')
     = match omap id [TwoByTwoLayout.top_left (self w); TwoByTwoLayout.top_right (self w);
                      TwoByTwoLayout.bottom_left (self w);
                      TwoByTwoLayout.bottom_right (self w)] with
       | [] => TwoByTwoLayout.children (self w)
       | occupants => occupants
       end).
Proof.
  split; intros w.
  - destruct (decide (present (AppLayout.all_children (self w)) = [])) as [E|Hne].
    + exists w. rewrite app_update_layout_empty by done. split; [done|].
      destruct w as [[[?|] [?|] [?|] [?|] [?|] ? ? ?] ? ?]; by try discriminate E.
    + destruct (app_grid_total (self w)) as [g Hg].
      destruct (app_run w g Hne Hg) as (w' & Hrun & Hself & _).
      exists w'. split; [exact Hrun|]. rewrite Hself.
      destruct w as [[[?|] [?|] [?|] [?|] [?|] ? ? ?] ? ?]; try reflexivity.
      by destruct Hne.
  - destruct (decide (present (TwoByTwoLayout.all_children (self w)) = [])) as [E|Hne].
    + exists w. rewrite quad_update_layout_empty by done. split; [done|].
      destruct w as [[[?|] [?|] [?|] [?|] ? ? ?] ? ?]; by try discriminate E.
    + destruct (quad_grid_total (self w)) as [g Hg].
      destruct (quad_run w g Hne Hg) as (w' & Hrun & Hself & _).
      exists w'. split; [exact Hrun|]. rewrite Hself.
      destruct w as [[[?|] [?|] [?|] [?|] ? ? ?] ? ?]; try reflexivity.
      by destruct Hne.
Qed.

(** What an assignment to a position leaves behind. *)
Lemma app_assign_slot_spec (w : world AppLayout.t) s c :
  let self1 := AppLayout.set_slot s c (self w) in
  let children := present (AppLayout.all_children self1) in
  let l := AppLayout.layout (self w) in
  ∃ w', AppLayout.assign (AppLayout.SetSlot s c) w = Ok w' ∧
    match children with
    | [] => self w' = self1 ∧
            heap w' = <[(l, AppLayout.slot_name s) := of_child c]> (heap w)
    | _ :: _ =>
        ∃ g, AppLayout.grid self1 children = Ok g ∧
          self w' = AppLayout.set_children (values children) self1 ∧
          heap w' = <[(l, AppLayout.slot_name s) := of_child c]>
                      (replay ((tag_event <$> children) ++
                               write_out_events l
                                 (String.concat " " (grid_template_columns g))
                                 (String.concat " " (grid_template_rows g))
                                 (grid_template_areas_css (grid_template_areas g))
                                 (values children))
                         (heap w)) ∧
          shows w' l
            (String.concat " " (grid_template_columns g))
            (String.concat " " (grid_template_rows g))
            (grid_template_areas_css (grid_template_areas g))
    end.
Proof.
  intros self1 children l.
  set (change := AppLayout.change_of (AppLayout.SetSlot s c)).
  set (w1 := store_trait (AppLayout.set_slot s c) change w).
  assert (Hl : AppLayout.layout self1 = l) by by destruct s.
  assert (Hassign : ∀ w2, AppLayout._update_layout w1 = Ok w2 →
            AppLayout.assign (AppLayout.SetSlot s c) w
            = Ok (LayoutTemplate._delegate_to_layout change w2)).
  { intros w2 Hw2.
    change (AppLayout.assign (AppLayout.SetSlot s c) w) with
      (w' ← (if bool_decide (AppLayout.slot_name s ∈ AppLayout.child_changed_names)
             then AppLayout._update_layout w1 else Ok w1);
       Ok (LayoutTemplate._delegate_to_layout change w')).
    by rewrite app_slot_observed, Hw2. }
  destruct children as [|item rest] eqn:E.
  - eexists. split; [apply Hassign, app_update_layout_empty; exact E|].
    split; [done|]. simpl. unfold LayoutTemplate.layout_of, AppLayout.host.
    fold self1. by rewrite Hl.
  - assert (Hne : present (AppLayout.all_children (self w1)) ≠ [])
      by (change (self w1) with self1; fold children; by rewrite E).
    destruct (app_grid_total self1) as [g Hg].
    destruct (app_run_replay w1 g Hne Hg) as (w2 & Hrun & Hself & Hheap & _).
    destruct (app_run w1 g Hne Hg) as (w2' & Hrun' & _ & Hshows & _).
    rewrite Hrun in Hrun'. injection Hrun' as <-.
    change (self w1) with self1 in *. fold children in Hself, Hheap, Hg. rewrite E in *.
    rewrite Hl in Hheap, Hshows.
    eexists. split; [apply Hassign, Hrun|].
    exists g. split; [exact Hg|]. split; [exact Hself|]. split.
    + simpl. unfold LayoutTemplate.layout_of, AppLayout.host.
      rewrite Hself, Hheap. simpl. fold self1. by rewrite Hl.
    + destruct Hshows as (Hc & Hr & Ha).
      unfold shows, getattr, LayoutTemplate._delegate_to_layout, setattr in *. simpl.
      repeat split; (rewrite lookup_insert_ne; [assumption|by destruct s]).
Qed.

Lemma quad_assign_slot_spec (w : world TwoByTwoLayout.t) s c :
  let self1 := TwoByTwoLayout.set_slot s c (self w) in
  let children := present (TwoByTwoLayout.all_children self1) in
  let l := TwoByTwoLayout.layout (self w) in
  ∃ w', TwoByTwoLayout.assign (TwoByTwoLayout.SetSlot s c) w = Ok w' ∧
    match children with
    | [] => self w' = self1 ∧
            heap w' = <[(l, TwoByTwoLayout.slot_name s) := of_child c]> (heap w)
    | _ :: _ =>
        ∃ areas, TwoByTwoLayout.grid self1 children = Ok areas ∧
          self w' = TwoByTwoLayout.set_children (values children) self1 ∧
          heap w' = <[(l, TwoByTwoLayout.slot_name s) := of_child c]>
                      (replay ((tag_event <$> children) ++
                               write_out_events l "1fr 1fr" "1fr 1fr"
                                 (grid_template_areas_css areas) (values children))
                         (heap w)) ∧
          shows w' l "1fr 1fr" "1fr 1fr" (grid_template_areas_css areas)
    end.
Proof.
  intros self1 children l.
  set (change := TwoByTwoLayout.change_of (TwoByTwoLayout.SetSlot s c)).
  set (w1 := store_trait (TwoByTwoLayout.set_slot s c) change w).
  assert (Hl : TwoByTwoLayout.layout self1 = l) by by destruct s.
  assert (Hassign : ∀ w2, TwoByTwoLayout._update_layout w1 = Ok w2 →
            TwoByTwoLayout.assign (TwoByTwoLayout.SetSlot s c) w
            = Ok (LayoutTemplate._delegate_to_layout change w2)).
  { intros w2 Hw2.
    change (TwoByTwoLayout.assign (TwoByTwoLayout.SetSlot s c) w) with
      (w' ← (if bool_decide (TwoByTwoLayout.slot_name s
                             ∈ TwoByTwoLayout.child_changed_names)
             then TwoByTwoLayout._update_layout w1 else Ok w1);
       Ok (LayoutTemplate._delegate_to_layout change w')).
    by rewrite quad_slot_observed, Hw2. }
  destruct children as [|item rest] eqn:E.
  - eexists. split; [apply Hassign, quad_update_layout_empty; exact E|].
    split; [done|]. simpl. unfold LayoutTemplate.layout_of, TwoByTwoLayout.host.
    fold self1. by rewrite Hl.
  - assert (Hne : present (TwoByTwoLayout.all_children (self w1)) ≠ [])
      by (change (self w1) with self1; fold children; by rewrite E).
    destruct (quad_grid_total self1) as [g Hg].
    destruct (quad_run_replay w1 g Hne Hg) as (w2 & Hrun & Hself & Hheap & _).
    destruct (quad_run w1 g Hne Hg) as (w2' & Hrun' & _ & Hshows & _).
    rewrite Hrun in Hrun'. injection Hrun' as <-.
    change (self w1) with self1 in *. fold children in Hself, Hheap, Hg. rewrite E in *.
    rewrite Hl in Hheap, Hshows.
    eexists. split; [apply Hassign, Hrun|].
    exists g. split; [exact Hg|]. split; [exact Hself|]. split.
    + simpl. unfold LayoutTemplate.layout_of, TwoByTwoLayout.host.
      rewrite Hself, Hheap. simpl. fold self1. by rewrite Hl.
    + destruct Hshows as (Hc & Hr & Ha).
      unfold shows, getattr, LayoutTemplate._delegate_to_layout, setattr in *. simpl.
      repeat split; (rewrite lookup_insert_ne; [assumption|by destruct s]).
Qed.

(** X10: an assignment to a position changes the [grid_area] of no
    layout object but those of the widgets that occupy a position
    afterwards; the tag of a widget that was removed or replaced stays. *)
Theorem slot_assignment_keeps_other_tags :
  (∀ (w : world AppLayout.t) s c o,
     o ∉ occupant_layouts
           (present (AppLayout.all_children (AppLayout.set_slot s c (self w)))) →
     ∃ w', AppLayout.assign (AppLayout.SetSlot s c) w = Ok w' ∧
           getattr w' o "grid_area" = getattr w o "grid_area") ∧
  (∀ (w : world TwoByTwoLayout.t) s c o,
     o ∉ occupant_layouts
           (present (TwoByTwoLayout.all_children (TwoByTwoLayout.set_slot s c (self w)))) →
     ∃ w', TwoByTwoLayout.assign (TwoByTwoLayout.SetSlot s c) w = Ok w' ∧
           getattr w' o "grid_area" = getattr w o "grid_area").
Proof.
  split.
  - intros w s c o Ho.
    destruct (app_assign_slot_spec w s c) as (w' & Hassign & Hspec).
    exists w'. split; [exact Hassign|]. unfold getattr.
    destruct (present _) as [|item rest].
    + destruct Hspec as [_ ->]. apply lookup_insert_ne. by destruct s.
    + destruct Hspec as (g & _ & _ & -> & _).
      rewrite lookup_insert_ne by by destruct s.
      by rewrite replay_lookup, run_last_write_tag.
  - intros w s c o Ho.
    destruct (quad_assign_slot_spec w s c) as (w' & Hassign & Hspec).
    exists w'. split; [exact Hassign|]. unfold getattr.
    destruct (present _) as [|item rest].
    + destruct Hspec as [_ ->]. apply lookup_insert_ne. by destruct s.
    + destruct Hspec as (g & _ & _ & -> & _).
      rewrite lookup_insert_ne by by destruct s.
      by rewrite replay_lookup, run_last_write_tag.
Qed.

(** [footer = None] on header and footer leaves the footer's tag. *)
Lemma slot_assignment_keeps_other_tags_witness :
  ∃ w', AppLayout.assign (AppLayout.SetSlot AppLayout.Footer None)
          (mkWorld app_header_footer ∅ []) = Ok w' ∧
        getattr w' 102 "grid_area" = getattr (mkWorld app_header_footer ∅ []) 102 "grid_area".
Proof.
  apply (proj1 slot_assignment_keeps_other_tags (mkWorld app_header_footer ∅ [])
           AppLayout.Footer None 102%nat).
  vm_compute. intros H. apply list_elem_of_In in H. simpl in H.
  destruct H as [H|[]]. discriminate H.
Defined.

Lemma app_set_slot_comm s1 c1 s2 c2 self :
  s1 ≠ s2 →
  AppLayout.set_slot s2 c2 (AppLayout.set_slot s1 c1 self)
  = AppLayout.set_slot s1 c1 (AppLayout.set_slot s2 c2 self).
Proof. by destruct s1, s2. Qed.

Lemma quad_set_slot_comm s1 c1 s2 c2 self :
  s1 ≠ s2 →
  TwoByTwoLayout.set_slot s2 c2 (TwoByTwoLayout.set_slot s1 c1 self)
  = TwoByTwoLayout.set_slot s1 c1 (TwoByTwoLayout.set_slot s2 c2 self).
Proof. by destruct s1, s2. Qed.

(** After an assignment to a position the container holds the new
    occupant there and, but for [children], is otherwise as before. *)
Lemma app_assign_slot_self (w : world AppLayout.t) s c :
  ∃ w' ws, AppLayout.assign (AppLayout.SetSlot s c) w = Ok w' ∧
    self w' = AppLayout.set_children ws (AppLayout.set_slot s c (self w)).
Proof.
  destruct (app_assign_slot_spec w s c) as (w' & Hassign & Hspec).
  destruct (present _) as [|item rest].
  - destruct Hspec as [Hself _].
    exists w', (AppLayout.children (AppLayout.set_slot s c (self w))).
    split; [done|]. rewrite Hself. by destruct (self w), s.
  - destruct Hspec as (g & _ & Hself & _). by eexists _, _.
Qed.

Lemma quad_assign_slot_self (w : world TwoByTwoLayout.t) s c :
  ∃ w' ws, TwoByTwoLayout.assign (TwoByTwoLayout.SetSlot s c) w = Ok w' ∧
    self w' = TwoByTwoLayout.set_children ws (TwoByTwoLayout.set_slot s c (self w)).
Proof.
  destruct (quad_assign_slot_spec w s c) as (w' & Hassign & Hspec).
  destruct (present _) as [|item rest].
  - destruct Hspec as [Hself _].
    exists w', (TwoByTwoLayout.children (TwoByTwoLayout.set_slot s c (self w))).
    split; [done|]. rewrite Hself. by destruct (self w), s.
  - destruct Hspec as (g & _ & Hself & _). by eexists _, _.
Qed.

(** Two different positions whose changes are notified one after the
    other, in either order, leave the same container and the grid of
    the final occupants on the layout object, when some position is
    occupied in the end. *)
Lemma notified_slots_commute :
  (∀ (w : world AppLayout.t) s1 c1 s2 c2,
     s1 ≠ s2 →
     let final := AppLayout.set_slot s2 c2 (AppLayout.set_slot s1 c1 (self w)) in
     present (AppLayout.all_children final) ≠ [] →
     ∃ w12 w21 g,
       (AppLayout.assign (AppLayout.SetSlot s1 c1) w
          ≫= AppLayout.assign (AppLayout.SetSlot s2 c2)) = Ok w12 ∧
       (AppLayout.assign (AppLayout.SetSlot s2 c2) w
          ≫= AppLayout.assign (AppLayout.SetSlot s1 c1)) = Ok w21 ∧
       self w12 = self w21 ∧
       AppLayout.grid final (present (AppLayout.all_children final)) = Ok g ∧
       shows w12 (AppLayout.layout (self w))
         (String.concat " " (grid_template_columns g))
         (String.concat " " (grid_template_rows g))
         (grid_template_areas_css (grid_template_areas g)) ∧
       shows w21 (AppLayout.layout (self w))
         (String.concat " " (grid_template_columns g))
         (String.concat " " (grid_template_rows g))
         (grid_template_areas_css (grid_template_areas g))) ∧
  (∀ (w : world TwoByTwoLayout.t) s1 c1 s2 c2,
     s1 ≠ s2 →
     let final := TwoByTwoLayout.set_slot s2 c2 (TwoByTwoLayout.set_slot s1 c1 (self w)) in
     present (TwoByTwoLayout.all_children final) ≠ [] →
     ∃ w12 w21 areas,
       (TwoByTwoLayout.assign (TwoByTwoLayout.SetSlot s1 c1) w
          ≫= TwoByTwoLayout.assign (TwoByTwoLayout.SetSlot s2 c2)) = Ok w12 ∧
       (TwoByTwoLayout.assign (TwoByTwoLayout.SetSlot s2 c2) w
          ≫= TwoByTwoLayout.assign (TwoByTwoLayout.SetSlot s1 c1)) = Ok w21 ∧
       self w12 = self w21 ∧
       TwoByTwoLayout.grid final (present (TwoByTwoLayout.all_children final)) = Ok areas ∧
       shows w12 (TwoByTwoLayout.layout (self w)) "1fr 1fr" "1fr 1fr"
         (grid_template_areas_css areas) ∧
       shows w21 (TwoByTwoLayout.layout (self w)) "1fr 1fr" "1fr 1fr"
         (grid_template_areas_css areas)).
Proof.
  split.
  - intros w s1 c1 s2 c2 Hs final Hne.
    destruct (app_assign_slot_self w s1 c1) as (wa & wsa & Ha & Hselfa).
    destruct (app_assign_slot_self w s2 c2) as (wb & wsb & Hb & Hselfb).
    destruct (app_assign_slot_spec wa s2 c2) as (w12 & H12 & Hspec12).
    destruct (app_assign_slot_spec wb s1 c1) as (w21 & H21 & Hspec21).
    assert (Hfa : AppLayout.set_slot s2 c2 (self wa) = AppLayout.set_children wsa final).
    { rewrite Hselfa. subst final. by destruct (self w), s1, s2. }
    assert (Hfb : AppLayout.set_slot s1 c1 (self wb) = AppLayout.set_children wsb final).
    { rewrite Hselfb. subst final. rewrite (app_set_slot_comm s1 c1 s2 c2) by done.
      by destruct (self w), s1, s2. }
    assert (Hla : AppLayout.layout (self wa) = AppLayout.layout (self w))
      by (rewrite Hselfa; by destruct s1).
    assert (Hlb : AppLayout.layout (self wb) = AppLayout.layout (self w))
      by (rewrite Hselfb; by destruct s2).
    rewrite Hfa, Hla in Hspec12. rewrite Hfb, Hlb in Hspec21.
    change (AppLayout.all_children (AppLayout.set_children wsa final))
      with (AppLayout.all_children final) in Hspec12.
    change (AppLayout.all_children (AppLayout.set_children wsb final))
      with (AppLayout.all_children final) in Hspec21.
    destruct (present (AppLayout.all_children final)) as [|item rest] eqn:E; [done|].
    destruct Hspec12 as (g & Hg & Hself12 & _ & Hshows12).
    destruct Hspec21 as (g' & Hg' & Hself21 & _ & Hshows21).
    change (AppLayout.grid (AppLayout.set_children wsa final) (item :: rest))
      with (AppLayout.grid final (item :: rest)) in Hg.
    change (AppLayout.grid (AppLayout.set_children wsb final) (item :: rest))
      with (AppLayout.grid final (item :: rest)) in Hg'.
    rewrite Hg in Hg'. injection Hg' as <-.
    exists w12, w21, g. rewrite Ha, Hb. simpl.
    split; [exact H12|]. split; [exact H21|].
    split; [rewrite Hself12, Hself21; reflexivity|]. split; [done|]. split; [exact Hshows12|exact Hshows21].
  - intros w s1 c1 s2 c2 Hs final Hne.
    destruct (quad_assign_slot_self w s1 c1) as (wa & wsa & Ha & Hselfa).
    destruct (quad_assign_slot_self w s2 c2) as (wb & wsb & Hb & Hselfb).
    destruct (quad_assign_slot_spec wa s2 c2) as (w12 & H12 & Hspec12).
    destruct (quad_assign_slot_spec wb s1 c1) as (w21 & H21 & Hspec21).
    assert (Hfa : TwoByTwoLayout.set_slot s2 c2 (self wa)
                  = TwoByTwoLayout.set_children wsa final).
    { rewrite Hselfa. subst final. by destruct (self w), s1, s2. }
    assert (Hfb : TwoByTwoLayout.set_slot s1 c1 (self wb)
                  = TwoByTwoLayout.set_children wsb final).
    { rewrite Hselfb. subst final. rewrite (quad_set_slot_comm s1 c1 s2 c2) by done.
      by destruct (self w), s1, s2. }
    assert (Hla : TwoByTwoLayout.layout (self wa) = TwoByTwoLayout.layout (self w))
      by (rewrite Hselfa; by destruct s1).
    assert (Hlb : TwoByTwoLayout.layout (self wb) = TwoByTwoLayout.layout (self w))
      by (rewrite Hselfb; by destruct s2).
    rewrite Hfa, Hla in Hspec12. rewrite Hfb, Hlb in Hspec21.
    change (TwoByTwoLayout.all_children (TwoByTwoLayout.set_children wsa final))
      with (TwoByTwoLayout.all_children final) in Hspec12.
    change (TwoByTwoLayout.all_children (TwoByTwoLayout.set_children wsb final))
      with (TwoByTwoLayout.all_children final) in Hspec21.
    destruct (present (TwoByTwoLayout.all_children final)) as [|item rest] eqn:E; [done|].
    destruct Hspec12 as (g & Hg & Hself12 & _ & Hshows12).
    destruct Hspec21 as (g' & Hg' & Hself21 & _ & Hshows21).
    change (TwoByTwoLayout.grid (TwoByTwoLayout.set_children wsa final) (item :: rest))
      with (TwoByTwoLayout.grid final (item :: rest)) in Hg.
    change (TwoByTwoLayout.grid (TwoByTwoLayout.set_children wsb final) (item :: rest))
      with (TwoByTwoLayout.grid final (item :: rest)) in Hg'.
    rewrite Hg in Hg'. injection Hg' as <-.
    exists w12, w21, g. rewrite Ha, Hb. simpl.
    split; [exact H12|]. split; [exact H21|].
    split; [rewrite Hself12, Hself21; reflexivity|]. split; [done|]. split; [exact Hshows12|exact Hshows21].
Qed.

(** X12: an assignment to a style attribute, to [merge] or to
    [children] keeps the occupants and changes no grid attribute and no
    [grid_area] of any layout object; unless it is to [children] itself
    it keeps [children]. *)
Theorem other_assignments_keep_grid :
  (∀ (a : AppLayout.assignment) (w : world AppLayout.t),
     (∀ s c, a ≠ AppLayout.SetSlot s c) →
     ∃ w', AppLayout.assign a w = Ok w' ∧
       (∀ s, AppLayout.get_slot s (self w') = AppLayout.get_slot s (self w)) ∧
       (∀ o attr, attr ∈ "grid_area" :: grid_attributes →
          getattr w' o attr = getattr w o attr) ∧
       ((∀ ws, a ≠ AppLayout.SetChildren ws) →
        AppLayout.children (self w') = AppLayout.children (self w))) ∧
  (∀ (a : TwoByTwoLayout.assignment) (w : world TwoByTwoLayout.t),
     (∀ s c, a ≠ TwoByTwoLayout.SetSlot s c) →
     ∃ w', TwoByTwoLayout.assign a w = Ok w' ∧
       (∀ s, TwoByTwoLayout.get_slot s (self w') = TwoByTwoLayout.get_slot s (self w)) ∧
       (∀ o attr, attr ∈ "grid_area" :: grid_attributes →
          getattr w' o attr = getattr w o attr) ∧
       ((∀ ws, a ≠ TwoByTwoLayout.SetChildren ws) →
        TwoByTwoLayout.children (self w') = TwoByTwoLayout.children (self w))).
Proof.
  assert (Hin : ∀ attr : string, attr ∈ "grid_area" :: grid_attributes →
            attr = "grid_area" ∨ attr = "grid_template_columns" ∨
            attr = "grid_template_rows" ∨ attr = "grid_template_areas").
  { intros attr H. unfold grid_attributes in H.
    repeat (apply elem_of_cons in H as [->|H]); auto 6. by apply elem_of_nil in H. }
  split.
  - intros a w Ha. destruct a as [st v|b|s c|ws]; [| |by destruct (Ha s c)|].
    + eexists. split.
      { unfold AppLayout.assign. simpl. by rewrite app_style_not_observed. }
      split; [by intros []|]. split; [|done].
      intros o attr Hattr. unfold getattr. simpl. apply lookup_insert_ne.
      intros [= _ <-]. destruct (Hin _ Hattr) as [E|[E|[E|E]]]; by destruct st.
    + eexists. split; [reflexivity|].
      split; [by intros []|]. split; [|done].
      intros o attr Hattr. unfold getattr. simpl. apply lookup_insert_ne.
      intros [= _ <-]. by destruct (Hin _ Hattr) as [E|[E|[E|E]]].
    + eexists. split; [reflexivity|].
      split; [by intros []|]. split; [|by intros H; destruct (H ws)].
      intros o attr Hattr. unfold getattr. simpl. apply lookup_insert_ne.
      intros [= _ <-]. by destruct (Hin _ Hattr) as [E|[E|[E|E]]].
  - intros a w Ha. destruct a as [st v|b|s c|ws]; [| |by destruct (Ha s c)|].
    + eexists. split.
      { unfold TwoByTwoLayout.assign. simpl. by rewrite quad_style_not_observed. }
      split; [by intros []|]. split; [|done].
      intros o attr Hattr. unfold getattr. simpl. apply lookup_insert_ne.
      intros [= _ <-]. destruct (Hin _ Hattr) as [E|[E|[E|E]]]; by destruct st.
    + eexists. split; [reflexivity|].
      split; [by intros []|]. split; [|done].
      intros o attr Hattr. unfold getattr. simpl. apply lookup_insert_ne.
      intros [= _ <-]. by destruct (Hin _ Hattr) as [E|[E|[E|E]]].
    + eexists. split; [reflexivity|].
      split; [by intros []|]. split; [|by intros H; destruct (H ws)].
      intros o attr Hattr. unfold getattr. simpl. apply lookup_insert_ne.
      intros [= _ <-]. by destruct (Hin _ Hattr) as [E|[E|[E|E]]].
Qed.

Section CopyLayoutProps.
Context {C : Type} `{LayoutTemplate.Host C} `{LayoutTemplate.Styled C}.
Implicit Types (w : world C) (props : list LayoutTemplate.style).

Lemma copy_layout_props_self props w :
  self (LayoutTemplate._copy_layout_props props w) = self w.
Proof.
  revert w. induction props as [|a props IH]; intros w; [done|].
  simpl. rewrite IH. unfold LayoutTemplate.copy_prop.
  by destruct (LayoutTemplate.truthy _).
Qed.

Lemma style_name_inj a b :
  LayoutTemplate.style_name a = LayoutTemplate.style_name b → a = b.
Proof. by destruct a, b. Qed.

(** The attribute of a style trait after the copy. *)
Lemma copy_layout_props_lookup props w a :
  getattr (LayoutTemplate._copy_layout_props props w)
    (LayoutTemplate.layout_of (self w)) (LayoutTemplate.style_name a)
  = if bool_decide (a ∈ props) &&
       LayoutTemplate.truthy (LayoutTemplate.get_style a (LayoutTemplate.template_of (self w)))
    then Some (of_unicode (LayoutTemplate.get_style a (LayoutTemplate.template_of (self w))))
    else getattr w (LayoutTemplate.layout_of (self w)) (LayoutTemplate.style_name a).
Proof.
  revert w. induction props as [|b props IH]; intros w; [done|].
  simpl.
  assert (Hself : self (LayoutTemplate.copy_prop w b) = self w).
  { unfold LayoutTemplate.copy_prop. by destruct (LayoutTemplate.truthy _). }
  pose proof (IH (LayoutTemplate.copy_prop w b)) as IH'. rewrite Hself in IH'.
  rewrite IH'. clear IH IH'.
  destruct (decide (a = b)) as [<-|Hab].
  - rewrite (bool_decide_eq_true_2 (a ∈ a :: props)) by apply list_elem_of_here.
    simpl. unfold LayoutTemplate.copy_prop.
    destruct (LayoutTemplate.truthy _) eqn:Ht.
    + rewrite andb_true_r.
      destruct (bool_decide (a ∈ props)); [done|].
      unfold getattr, setattr. simpl. apply lookup_insert_eq.
    + by rewrite andb_false_r.
  - assert (Hmem : bool_decide (a ∈ b :: props) = bool_decide (a ∈ props)).
    { apply bool_decide_ext. rewrite elem_of_cons.
      split; [intros [E|?]; [by destruct Hab|done]|auto]. }
    rewrite Hmem.
    destruct (bool_decide (a ∈ props) && _); [done|].
    unfold LayoutTemplate.copy_prop.
    destruct (LayoutTemplate.truthy _); [|done].
    unfold getattr, setattr. simpl. apply lookup_insert_ne.
    intros [= Heq]. apply Hab. symmetry. by apply style_name_inj.
Qed.

(** The copy writes style attributes of the layout object only. *)
Lemma copy_layout_props_other props w o attr :
  (o ≠ LayoutTemplate.layout_of (self w) ∨
   ∀ a, attr ≠ LayoutTemplate.style_name a) →
  getattr (LayoutTemplate._copy_layout_props props w) o attr = getattr w o attr.
Proof.
  revert w. induction props as [|b props IH]; intros w Hother; [done|].
  simpl.
  assert (Hself : self (LayoutTemplate.copy_prop w b) = self w).
  { unfold LayoutTemplate.copy_prop. by destruct (LayoutTemplate.truthy _). }
  rewrite IH by by rewrite Hself.
  unfold LayoutTemplate.copy_prop. destruct (LayoutTemplate.truthy _); [|done].
  unfold getattr, setattr. simpl. apply lookup_insert_ne.
  intros [= <- <-]. destruct Hother as [Ho|Ha]; [done|by apply (Ha b)].
Qed.

End CopyLayoutProps.

Section CopyTheorems.
Context {C : Type} `{LayoutTemplate.Host C} `{LayoutTemplate.Styled C}.

(** X14: [_copy_layout_props] gives the layout object every style
    attribute that is listed and holds a non-empty string. *)
Theorem copy_layout_props_copies (props : list LayoutTemplate.style) (w : world C)
    (a : LayoutTemplate.style) :
  a ∈ props →
  LayoutTemplate.truthy
    (LayoutTemplate.get_style a (LayoutTemplate.template_of (self w))) = true →
  getattr (LayoutTemplate._copy_layout_props props w)
    (LayoutTemplate.layout_of (self w)) (LayoutTemplate.style_name a)
  = Some (of_unicode (LayoutTemplate.get_style a (LayoutTemplate.template_of (self w)))).
Proof.
  intros Hin Ht. rewrite copy_layout_props_lookup, Ht.
  by rewrite bool_decide_eq_true_2.
Qed.

(** X15: [_copy_layout_props] keeps the container, leaves the layout
    attribute of a style trait that is [None] or the empty string as it
    was, and writes nothing but style attributes of the container's
    layout object: [merge], [children] and the grid attributes stay. *)
Theorem copy_layout_props_skips (props : list LayoutTemplate.style) (w : world C) :
  self (LayoutTemplate._copy_layout_props props w) = self w ∧
  (∀ a, LayoutTemplate.truthy
          (LayoutTemplate.get_style a (LayoutTemplate.template_of (self w))) = false →
        getattr (LayoutTemplate._copy_layout_props props w)
          (LayoutTemplate.layout_of (self w)) (LayoutTemplate.style_name a)
        = getattr w (LayoutTemplate.layout_of (self w)) (LayoutTemplate.style_name a)) ∧
  (∀ o attr,
     o ≠ LayoutTemplate.layout_of (self w) ∨ (∀ a, attr ≠ LayoutTemplate.style_name a) →
     getattr (LayoutTemplate._copy_layout_props props w) o attr = getattr w o attr) ∧
  (∀ o attr, attr ∈ "merge" :: "children" :: "grid_area" :: grid_attributes →
     getattr (LayoutTemplate._copy_layout_props props w) o attr = getattr w o attr).
Proof.
  split; [apply copy_layout_props_self|]. split; [|split].
  - intros a Ht. rewrite copy_layout_props_lookup, Ht. by rewrite andb_false_r.
  - intros o attr. apply copy_layout_props_other.
  - intros o attr Hattr. apply copy_layout_props_other. right. intros a ->.
    unfold grid_attributes in Hattr.
    repeat (apply elem_of_cons in Hattr as [E|Hattr]; [by destruct a|]).
    by apply elem_of_nil in Hattr.
Qed.

End CopyTheorems.

Lemma copy_layout_props_copies_witness :
  getattr (LayoutTemplate._copy_layout_props LayoutTemplate.style_traits styled_app)
    0 "width" = Some (VStr "100%").
Proof.
  refine (copy_layout_props_copies LayoutTemplate.style_traits styled_app
            LayoutTemplate.Width _ _).
  - repeat (first [apply list_elem_of_here | apply list_elem_of_further]).
  - reflexivity.
Defined.

Lemma copy_layout_props_skips_witness :
  getattr (LayoutTemplate._copy_layout_props LayoutTemplate.style_traits styled_app)
    0 "grid_gap" = getattr styled_app 0 "grid_gap".
Proof.
  refine (proj1 (proj2 (copy_layout_props_skips LayoutTemplate.style_traits styled_app))
            LayoutTemplate.GridGap _).
  reflexivity.
Defined.

(** A notified change of a position that leaves no position occupied
    stores the value and forwards it to the layout object, and that is
    all it does. *)
Lemma notified_last_removed :
  (∀ (w : world AppLayout.t) s c,
     present (AppLayout.all_children (AppLayout.set_slot s c (self w))) = [] →
     AppLayout.assign (AppLayout.SetSlot s c) w
     = Ok (mkWorld (AppLayout.set_slot s c (self w))
             (<[(AppLayout.layout (self w), AppLayout.slot_name s) := of_child c]> (heap w))
             (trace w ++ [SetTrait (AppLayout.slot_name s) (of_child c);
                          SetAttr (AppLayout.layout (self w)) (AppLayout.slot_name s)
                            (of_child c)]))) ∧
  (∀ (w : world TwoByTwoLayout.t) s c,
     present (TwoByTwoLayout.all_children (TwoByTwoLayout.set_slot s c (self w))) = [] →
     TwoByTwoLayout.assign (TwoByTwoLayout.SetSlot s c) w
     = Ok (mkWorld (TwoByTwoLayout.set_slot s c (self w))
             (<[(TwoByTwoLayout.layout (self w), TwoByTwoLayout.slot_name s)
                := of_child c]> (heap w))
             (trace w ++ [SetTrait (TwoByTwoLayout.slot_name s) (of_child c);
                          SetAttr (TwoByTwoLayout.layout (self w))
                            (TwoByTwoLayout.slot_name s) (of_child c)]))).
Proof.
  split.
  - intros w s c E.
    set (change := AppLayout.change_of (AppLayout.SetSlot s c)).
    set (w1 := store_trait (AppLayout.set_slot s c) change w).
    change (AppLayout.assign (AppLayout.SetSlot s c) w) with
      (w' ← (if bool_decide (AppLayout.slot_name s ∈ AppLayout.child_changed_names)
             then AppLayout._update_layout w1 else Ok w1);
       Ok (LayoutTemplate._delegate_to_layout change w')).
    rewrite app_slot_observed, app_update_layout_empty by exact E.
    simpl. unfold LayoutTemplate._delegate_to_layout, setattr, LayoutTemplate.layout_of,
      AppLayout.host. simpl. f_equal. f_equal.
    + by destruct s.
    + rewrite <- app_assoc. by destruct s.
  - intros w s c E.
    set (change := TwoByTwoLayout.change_of (TwoByTwoLayout.SetSlot s c)).
    set (w1 := store_trait (TwoByTwoLayout.set_slot s c) change w).
    change (TwoByTwoLayout.assign (TwoByTwoLayout.SetSlot s c) w) with
      (w' ← (if bool_decide (TwoByTwoLayout.slot_name s
                             ∈ TwoByTwoLayout.child_changed_names)
             then TwoByTwoLayout._update_layout w1 else Ok w1);
       Ok (LayoutTemplate._delegate_to_layout change w')).
    rewrite quad_slot_observed, quad_update_layout_empty by exact E.
    simpl. unfold LayoutTemplate._delegate_to_layout, setattr, LayoutTemplate.layout_of,
      TwoByTwoLayout.host. simpl. f_equal. f_equal.
    + by destruct s.
    + rewrite <- app_assoc. by destruct s.
Qed.

(** X19: with merging off and at least one occupant, the layout object
    of a [TwoByTwoLayout] receives the base matrix and tracks. *)
Theorem quad_unmerged_base (w : world TwoByTwoLayout.t) :
  TwoByTwoLayout.merge (self w) = false →
  present (TwoByTwoLayout.all_children (self w)) ≠ [] →
  ∃ w', TwoByTwoLayout._update_layout w = Ok w' ∧
    shows w' (TwoByTwoLayout.layout (self w)) "1fr 1fr" "1fr 1fr"
      (grid_template_areas_css
         [["top-left"; "top-right"]; ["bottom-left"; "bottom-right"]]).
Proof.
  intros Hm Hne.
  assert (Hg : TwoByTwoLayout.grid (self w)
                 (present (TwoByTwoLayout.all_children (self w)))
               = Ok TwoByTwoLayout.base_areas).
  { unfold TwoByTwoLayout.grid. by rewrite Hm. }
  destruct (quad_run w _ Hne Hg) as (w' & Hrun & _ & Hshows & _).
  by exists w'.
Qed.

Lemma quad_unmerged_base_witness :
  let w := mkWorld (TwoByTwoLayout.set_template (LayoutTemplate.set_merge false)
                      quad_top_left) ∅ [] in
  ∃ w', TwoByTwoLayout._update_layout w = Ok w' ∧
    shows w' 0 "1fr 1fr" "1fr 1fr"
      (grid_template_areas_css
         [["top-left"; "top-right"]; ["bottom-left"; "bottom-right"]]).
Proof.
  intros w. apply (quad_unmerged_base w); [reflexivity|discriminate].
Defined.

(** X4: the area matrix of [AppLayout] has as many rows as there are
    row tracks and every row has as many cells as there are column
    tracks; the area matrix of [TwoByTwoLayout] is always 2 by 2. *)
Theorem grid_shape :
  (∀ self : AppLayout.t, ∃ g,
     AppLayout.grid self (present (AppLayout.all_children self)) = Ok g ∧
     length (grid_template_areas g) = length (grid_template_rows g) ∧
     Forall (λ row, length row = length (grid_template_columns g))
       (grid_template_areas g)) ∧
  (∀ self : TwoByTwoLayout.t, ∃ a b c d,
     TwoByTwoLayout.grid self (present (TwoByTwoLayout.all_children self))
     = Ok [[a; b]; [c; d]]).
Proof.
  split.
  - intros [[?|] [?|] [?|] [?|] [?|] [? ? ? ? ? [|]] ? ?];
      (eexists; split; [vm_compute; reflexivity|]);
      (split; [reflexivity|]); repeat constructor.
  - intros [[?|] [?|] [?|] [?|] [? ? ? ? ? [|]] ? ?];
      eexists _, _, _, _; vm_compute; reflexivity.
Qed.

(** X5: with merging on and at least one occupant, every cell of the
    area matrix names a position that is occupied. *)
Theorem merged_cells_occupied :
  (∀ self : AppLayout.t,
     AppLayout.merge self = true →
     present (AppLayout.all_children self) ≠ [] →
     ∃ g, AppLayout.grid self (present (AppLayout.all_children self)) = Ok g ∧
       ∀ p, occurs p (grid_template_areas g) →
            ∃ s c, p = AppLayout.position s ∧ AppLayout.get_slot s self = Some c) ∧
  (∀ self : TwoByTwoLayout.t,
     TwoByTwoLayout.merge self = true →
     present (TwoByTwoLayout.all_children self) ≠ [] →
     ∃ areas, TwoByTwoLayout.grid self (present (TwoByTwoLayout.all_children self))
              = Ok areas ∧
       ∀ p, occurs p areas →
            ∃ s c, p = TwoByTwoLayout.position s ∧
                   TwoByTwoLayout.get_slot s self = Some c).
Proof.
  split.
  - intros [h f l r c [? ? ? ? ? m] ? ?]. unfold AppLayout.merge. simpl. intros -> Hne.
    destruct h, f, l, r, c; try (by destruct Hne); clear Hne;
      (eexists; split; [vm_compute; reflexivity|]);
      intros p Hp; unfold occurs in Hp; simpl in Hp;
      repeat (apply elem_of_cons in Hp as [->|Hp]);
      try (by apply elem_of_nil in Hp).
    all: first [ (eexists AppLayout.Header, _; split; reflexivity)
               | (eexists AppLayout.Footer, _; split; reflexivity)
               | (eexists AppLayout.LeftSidebar, _; split; reflexivity)
               | (eexists AppLayout.RightSidebar, _; split; reflexivity)
               | (eexists AppLayout.Center, _; split; reflexivity) ].
  - intros [tl tr bl br [? ? ? ? ? m] ? ?]. unfold TwoByTwoLayout.merge. simpl.
    intros -> Hne.
    destruct tl, tr, bl, br; try (by destruct Hne); clear Hne;
      (eexists; split; [vm_compute; reflexivity|]);
      intros p Hp; unfold occurs in Hp; simpl in Hp;
      repeat (apply elem_of_cons in Hp as [->|Hp]);
      try (by apply elem_of_nil in Hp).
    all: first [ (eexists TwoByTwoLayout.TopLeft, _; split; reflexivity)
               | (eexists TwoByTwoLayout.TopRight, _; split; reflexivity)
               | (eexists TwoByTwoLayout.BottomLeft, _; split; reflexivity)
               | (eexists TwoByTwoLayout.BottomRight, _; split; reflexivity) ].
Qed.

(** X6: in every computed area matrix the cells of each name form a
    rectangle. *)
Theorem named_areas_are_rectangles :
  (∀ self : AppLayout.t, ∃ g,
     AppLayout.grid self (present (AppLayout.all_children self)) = Ok g ∧
     rectangular_areas (grid_template_areas g) = true) ∧
  (∀ self : TwoByTwoLayout.t, ∃ areas,
     TwoByTwoLayout.grid self (present (TwoByTwoLayout.all_children self)) = Ok areas ∧
     rectangular_areas areas = true).
Proof.
  split.
  - intros [[?|] [?|] [?|] [?|] [?|] [? ? ? ? ? [|]] ? ?];
      (eexists; split; [vm_compute; reflexivity|]); vm_compute; reflexivity.
  - intros [[?|] [?|] [?|] [?|] [? ? ? ? ? [|]] ? ?];
      (eexists; split; [vm_compute; reflexivity|]); vm_compute; reflexivity.
Qed.

(** An L shape and a diagonal are not rectangles. *)
Example l_shape : rectangular_areas [["a"; "a"]; ["a"; "b"]] = false.
Proof. reflexivity. Qed.
Example diag_shape : rectangular_areas [["a"; "b"]; ["b"; "a"]] = false.
Proof. reflexivity. Qed.

(** X7: the grid depends only on [merge] and on which positions are
    occupied, not on the widgets that occupy them. *)
Theorem grid_depends_on_presence :
  (∀ a b : AppLayout.t,
     AppLayout.merge a = AppLayout.merge b →
     app_same_presence a b →
     AppLayout.grid a (present (AppLayout.all_children a))
     = AppLayout.grid b (present (AppLayout.all_children b))) ∧
  (∀ a b : TwoByTwoLayout.t,
     TwoByTwoLayout.merge a = TwoByTwoLayout.merge b →
     quad_same_presence a b →
     TwoByTwoLayout.grid a (present (TwoByTwoLayout.all_children a))
     = TwoByTwoLayout.grid b (present (TwoByTwoLayout.all_children b))).
Proof.
  split.
  - intros [ha fa la ra ca [? ? ? ? ? ma] ? ?] [hb fb lb rb cb [? ? ? ? ? mb] ? ?].
    unfold AppLayout.merge. simpl. intros -> Hsame.
    pose proof (Hsame AppLayout.Header) as Hh.
    pose proof (Hsame AppLayout.Footer) as Hf.
    pose proof (Hsame AppLayout.LeftSidebar) as Hl.
    pose proof (Hsame AppLayout.RightSidebar) as Hr.
    pose proof (Hsame AppLayout.Center) as Hc.
    clear Hsame. simpl in *.
    destruct ha, hb; try discriminate Hh; clear Hh;
    destruct fa, fb; try discriminate Hf; clear Hf;
    destruct la, lb; try discriminate Hl; clear Hl;
    destruct ra, rb; try discriminate Hr; clear Hr;
    destruct ca, cb; try discriminate Hc; clear Hc;
    destruct mb; reflexivity.
  - intros [tla tra bla bra [? ? ? ? ? ma] ? ?] [tlb trb blb brb [? ? ? ? ? mb] ? ?].
    unfold TwoByTwoLayout.merge. simpl. intros -> Hsame.
    pose proof (Hsame TwoByTwoLayout.TopLeft) as H1.
    pose proof (Hsame TwoByTwoLayout.TopRight) as H2.
    pose proof (Hsame TwoByTwoLayout.BottomLeft) as H3.
    pose proof (Hsame TwoByTwoLayout.BottomRight) as H4.
    clear Hsame. simpl in *.
    destruct tla, tlb; try discriminate H1; clear H1;
    destruct tra, trb; try discriminate H2; clear H2;
    destruct bla, blb; try discriminate H3; clear H3;
    destruct bra, brb; try discriminate H4; clear H4;
    destruct mb; reflexivity.
Qed.

(** X8: on any 2 by 2 matrix and any [children] a column step succeeds
    and changes no cell outside its own column. *)
Theorem merge_column_local (children : list (string * Widget)) (a b c d : string) :
  (∃ a' c', TwoByTwoLayout.merge_column children (0, "left") [[a; b]; [c; d]]
            = Ok [[a'; b]; [c'; d]]) ∧
  (∃ b' d', TwoByTwoLayout.merge_column children (1, "right") [[a; b]; [c; d]]
            = Ok [[a; b']; [c; d']]).
Proof.
  unfold TwoByTwoLayout.merge_column. split.
  - destruct (dict_get children _), (dict_get children _); eexists _, _; reflexivity.
  - destruct (dict_get children _), (dict_get children _); eexists _, _; reflexivity.
Qed.

(** ** The area template as a string *)

Section Strings.
Implicit Types (a b c s : string) (ch : Ascii.ascii).

Lemma string_length_app a b :
  String.length (a +:+ b) = (String.length a + String.length b)%nat.
Proof. induction a as [|x a IH]; simpl; [done|]. by rewrite IH. Qed.

Lemma string_app_inv_head a b c : a +:+ b = a +:+ c → b = c.
Proof. induction a as [|x a IH]; simpl; [done|]. intros [= E]. by apply IH. Qed.

Lemma string_app_inv_tail a b c : a +:+ c = b +:+ c → a = b.
Proof.
  revert b. induction a as [|x a IH]; intros [|y b]; simpl; intros E.
  - done.
  - apply (f_equal String.length) in E. simpl in E.
    rewrite !string_length_app in E. simpl in E. lia.
  - apply (f_equal String.length) in E. simpl in E.
    rewrite !string_length_app in E. simpl in E. lia.
  - injection E as -> E. f_equal. by apply IH.
Qed.

Lemma free_of_app ch a b : free_of ch a → free_of ch b → free_of ch (a +:+ b).
Proof. induction a as [|x a IH]; simpl; [done|]. intros [? ?] ?. split; auto. Qed.

Lemma free_of_not_split ch a b : ¬ free_of ch (a +:+ String ch b).
Proof. induction a as [|x a IH]; simpl; intros [? ?]; [done|auto]. Qed.

(** Two separator-free strings that end at a separator are equal, and
    so is what follows the separator. *)
Lemma split_at_separator ch a a' b b' :
  free_of ch a → free_of ch a' →
  a +:+ String ch b = a' +:+ String ch b' → a = a' ∧ b = b'.
Proof.
  revert a'. induction a as [|x a IH]; intros [|y a']; simpl.
  - by intros _ _ [= ->].
  - intros _ [Hy _] [= E _]. by destruct Hy.
  - intros [Hx _] _ [= E _]. by destruct Hx.
  - intros [_ Ha] [_ Ha'] [= -> E].
    destruct (IH a' Ha Ha' E) as [-> ->]. done.
Qed.

Lemma free_of_concat ch sep l :
  free_of ch sep → Forall (free_of ch) l → free_of ch (String.concat sep l).
Proof.
  intros Hsep. induction l as [|x [|y l] IH]; simpl; intros Hl.
  - done.
  - by apply Forall_cons in Hl as [? _].
  - apply Forall_cons in Hl as [Hx Hl].
    apply free_of_app; [done|]. apply free_of_app; [done|]. by apply IH.
Qed.

(** [sep.join] with a one-character separator is injective on lists of
    non-empty strings that do not contain the separator. *)
Lemma concat_separator_inj ch l l' :
  Forall (λ s, s ≠ EmptyString ∧ free_of ch s) l →
  Forall (λ s, s ≠ EmptyString ∧ free_of ch s) l' →
  String.concat (String ch EmptyString) l = String.concat (String ch EmptyString) l' →
  l = l'.
Proof.
  revert l'. induction l as [|x l IH]; intros [|x' l'] Hl Hl' E.
  - done.
  - apply Forall_cons in Hl' as [[Hx' _] _].
    destruct l' as [|y' l'], x' as [|? ?]; simpl in E; done.
  - apply Forall_cons in Hl as [[Hx _] _].
    destruct l as [|y l], x as [|? ?]; simpl in E; done.
  - apply Forall_cons in Hl as [[_ Hx] Hl]. apply Forall_cons in Hl' as [[_ Hx'] Hl'].
    destruct l as [|y l], l' as [|y' l'].
    + simpl in E. by subst.
    + simpl in E. subst x. by apply free_of_not_split in Hx.
    + simpl in E. subst x'. by apply free_of_not_split in Hx'.
    + change (x +:+ String ch (String.concat (String ch EmptyString) (y :: l))
              = x' +:+ String ch (String.concat (String ch EmptyString) (y' :: l'))) in E.
      destruct (split_at_separator _ _ _ _ _ Hx Hx' E) as [-> E'].
      f_equal. by apply IH.
Qed.

End Strings.

Lemma plain_row_line (row : list string) :
  Forall plain row →
  format_quoted (String.concat " " row) ≠ EmptyString ∧
  free_of (Ascii.ascii_of_nat 10) (format_quoted (String.concat " " row)).
Proof.
  intros Hrow. split; [done|].
  unfold format_quoted. apply free_of_app; [by vm_compute|].
  apply free_of_app; [|by vm_compute].
  apply free_of_concat; [by vm_compute|].
  eapply Forall_impl; [exact Hrow|]. by intros s (_ & _ & ?).
Qed.

Lemma plain_row_inj (row row' : list string) :
  Forall plain row → Forall plain row' →
  format_quoted (String.concat " " row) = format_quoted (String.concat " " row') →
  row = row'.
Proof.
  intros Hrow Hrow' E. unfold format_quoted in E.
  apply string_app_inv_head, string_app_inv_tail in E.
  apply (concat_separator_inj (Ascii.ascii_of_nat 32)); [| |exact E].
  - eapply Forall_impl; [exact Hrow|]. by intros s (? & ? & _).
  - eapply Forall_impl; [exact Hrow'|]. by intros s (? & ? & _).
Qed.

Lemma map_inj_on {A B} (f : A → B) (P : A → Prop) (l l' : list A) :
  (∀ x y, P x → P y → f x = f y → x = y) →
  Forall P l → Forall P l' → map f l = map f l' → l = l'.
Proof.
  intros Hinj. revert l'. induction l as [|x l IH]; intros [|y l'] Hl Hl' E; try done.
  apply Forall_cons in Hl as [Hx Hl]. apply Forall_cons in Hl' as [Hy Hl'].
  injection E as E1 E2. f_equal; [by apply Hinj|by apply IH].
Qed.

(** The area template determines a matrix of plain names. *)
Lemma grid_template_areas_css_inj_on_plain (areas areas' : list (list string)) :
  plain_areas areas → plain_areas areas' →
  grid_template_areas_css areas = grid_template_areas_css areas' →
  areas = areas'.
Proof.
  intros Hp Hp' E. unfold grid_template_areas_css in E.
  apply (concat_separator_inj (Ascii.ascii_of_nat 10)) in E.
  - by apply (map_inj_on _ (Forall plain)) in E; [| apply plain_row_inj | |].
  - apply Forall_map. eapply Forall_impl; [exact Hp|]. apply plain_row_line.
  - apply Forall_map. eapply Forall_impl; [exact Hp'|]. apply plain_row_line.
Qed.

Lemma app_position_plain s : plain (AppLayout.position s).
Proof.
  destruct s; (split; [discriminate|split; vm_compute; repeat split; discriminate]).
Qed.

Lemma quad_position_plain s : plain (TwoByTwoLayout.position s).
Proof.
  destruct s; (split; [discriminate|split; vm_compute; repeat split; discriminate]).
Qed.

(** Every cell of a computed matrix is the name of a position. *)
Lemma app_grid_cells (self : AppLayout.t) g :
  AppLayout.grid self (present (AppLayout.all_children self)) = Ok g →
  Forall (Forall (λ p, ∃ s, p = AppLayout.position s)) (grid_template_areas g).
Proof.
  destruct self as [[?|] [?|] [?|] [?|] [?|] [? ? ? ? ? [|]] ? ?];
    vm_compute; intros [= <-];
    repeat first
      [ apply Forall_nil_2
      | apply Forall_cons_2
      | by exists AppLayout.Header
      | by exists AppLayout.Footer
      | by exists AppLayout.LeftSidebar
      | by exists AppLayout.RightSidebar
      | by exists AppLayout.Center ].
Qed.

Lemma quad_grid_cells (self : TwoByTwoLayout.t) areas :
  TwoByTwoLayout.grid self (present (TwoByTwoLayout.all_children self)) = Ok areas →
  Forall (Forall (λ p, ∃ s, p = TwoByTwoLayout.position s)) areas.
Proof.
  destruct self as [[?|] [?|] [?|] [?|] [? ? ? ? ? [|]] ? ?];
    vm_compute; intros [= <-];
    repeat first
      [ apply Forall_nil_2
      | apply Forall_cons_2
      | by exists TwoByTwoLayout.TopLeft
      | by exists TwoByTwoLayout.TopRight
      | by exists TwoByTwoLayout.BottomLeft
      | by exists TwoByTwoLayout.BottomRight ].
Qed.

Lemma app_grid_plain (self : AppLayout.t) g :
  AppLayout.grid self (present (AppLayout.all_children self)) = Ok g →
  plain_areas (grid_template_areas g).
Proof.
  intros Hg. eapply Forall_impl; [exact (app_grid_cells self g Hg)|].
  intros row Hrow. eapply Forall_impl; [exact Hrow|].
  intros p [s ->]. apply app_position_plain.
Qed.

Lemma quad_grid_plain (self : TwoByTwoLayout.t) areas :
  TwoByTwoLayout.grid self (present (TwoByTwoLayout.all_children self)) = Ok areas →
  plain_areas areas.
Proof.
  intros Hg. eapply Forall_impl; [exact (quad_grid_cells self areas Hg)|].
  intros row Hrow. eapply Forall_impl; [exact Hrow|].
  intros p [s ->]. apply quad_position_plain.
Qed.

(** X17: two containers whose computed area matrices give the same
    area template have the same area matrix. *)
Theorem equal_templates_equal_grids :
  (∀ (a b : AppLayout.t) ga gb,
     AppLayout.grid a (present (AppLayout.all_children a)) = Ok ga →
     AppLayout.grid b (present (AppLayout.all_children b)) = Ok gb →
     grid_template_areas_css (grid_template_areas ga)
     = grid_template_areas_css (grid_template_areas gb) →
     grid_template_areas ga = grid_template_areas gb) ∧
  (∀ (a b : TwoByTwoLayout.t) areas_a areas_b,
     TwoByTwoLayout.grid a (present (TwoByTwoLayout.all_children a)) = Ok areas_a →
     TwoByTwoLayout.grid b (present (TwoByTwoLayout.all_children b)) = Ok areas_b →
     grid_template_areas_css areas_a = grid_template_areas_css areas_b →
     areas_a = areas_b).
Proof.
  split.
  - intros a b ga gb Ha Hb. apply grid_template_areas_css_inj_on_plain.
    + by eapply app_grid_plain.
    + by eapply app_grid_plain.
  - intros a b areas_a areas_b Ha Hb. apply grid_template_areas_css_inj_on_plain.
    + by eapply quad_grid_plain.
    + by eapply quad_grid_plain.
Qed.

(** X18: with merging on, a single occupant fills the grid: every cell
    carries its position, on the base tracks. *)
Theorem single_occupant_fills_grid :
  (∀ (self : AppLayout.t) s c,
     AppLayout.merge self = true →
     AppLayout.get_slot s self = Some c →
     (∀ s', s' ≠ s → AppLayout.get_slot s' self = None) →
     AppLayout.grid self (present (AppLayout.all_children self))
     = Ok (mkGrid (replicate 3 (replicate 3 (AppLayout.position s)))
             ["1fr"; "2fr"; "1fr"] ["1fr"; "3fr"; "1fr"])) ∧
  (∀ (self : TwoByTwoLayout.t) s c,
     TwoByTwoLayout.merge self = true →
     TwoByTwoLayout.get_slot s self = Some c →
     (∀ s', s' ≠ s → TwoByTwoLayout.get_slot s' self = None) →
     TwoByTwoLayout.grid self (present (TwoByTwoLayout.all_children self))
     = Ok (replicate 2 (replicate 2 (TwoByTwoLayout.position s)))).
Proof.
  split.
  - intros [h f l r ce [? ? ? ? ? m] ? ?] s c. unfold AppLayout.merge. simpl.
    intros -> Hs Ho.
    pose proof (Ho AppLayout.Header) as Hh. pose proof (Ho AppLayout.Footer) as Hf.
    pose proof (Ho AppLayout.LeftSidebar) as Hl.
    pose proof (Ho AppLayout.RightSidebar) as Hr.
    pose proof (Ho AppLayout.Center) as Hc. clear Ho.
    destruct s; simpl in *; subst;
      repeat match goal with
             | H : ?a ≠ ?a → _ |- _ => clear H
             | H : ?a ≠ ?b → _ |- _ => specialize (H ltac:(discriminate)); subst
             end; reflexivity.
  - intros [tl tr bl br [? ? ? ? ? m] ? ?] s c. unfold TwoByTwoLayout.merge. simpl.
    intros -> Hs Ho.
    pose proof (Ho TwoByTwoLayout.TopLeft) as H1.
    pose proof (Ho TwoByTwoLayout.TopRight) as H2.
    pose proof (Ho TwoByTwoLayout.BottomLeft) as H3.
    pose proof (Ho TwoByTwoLayout.BottomRight) as H4. clear Ho.
    destruct s; simpl in *; subst;
      repeat match goal with
             | H : ?a ≠ ?a → _ |- _ => clear H
             | H : ?a ≠ ?b → _ |- _ => specialize (H ltac:(discriminate)); subst
             end; reflexivity.
Qed.

Lemma single_occupant_fills_grid_witness :
  AppLayout.grid app_header (present (AppLayout.all_children app_header))
  = Ok (mkGrid (replicate 3 (replicate 3 "header"))
          ["1fr"; "2fr"; "1fr"] ["1fr"; "3fr"; "1fr"]).
Proof.
  apply (proj1 single_occupant_fills_grid app_header AppLayout.Header button1).
  - reflexivity.
  - reflexivity.
  - intros s' Hs'. by destruct s'.
Defined.

Lemma merged_cells_occupied_witness :
  ∃ areas,
    TwoByTwoLayout.grid quad_diagonal (present (TwoByTwoLayout.all_children quad_diagonal))
    = Ok areas ∧
    ∀ p, occurs p areas →
         ∃ s c, p = TwoByTwoLayout.position s ∧
                TwoByTwoLayout.get_slot s quad_diagonal = Some c.
Proof.
  apply (proj2 merged_cells_occupied quad_diagonal); [reflexivity|discriminate].
Defined.

Lemma grid_depends_on_presence_witness :
  AppLayout.grid app_header_footer (present (AppLayout.all_children app_header_footer))
  = AppLayout.grid
      (AppLayout.mk (Some button3) (Some button4) None None None
         LayoutTemplate.default [button1] 7)
      (present (AppLayout.all_children
         (AppLayout.mk (Some button3) (Some button4) None None None
            LayoutTemplate.default [button1] 7))).
Proof.
  apply (proj1 grid_depends_on_presence app_header_footer
           (AppLayout.mk (Some button3) (Some button4) None None None
              LayoutTemplate.default [button1] 7)).
  - reflexivity.
  - intros s. by destruct s.
Defined.

Lemma other_assignments_keep_grid_witness :
  ∃ w', AppLayout.assign (AppLayout.SetMerge false) app_header_placed = Ok w' ∧
    (∀ s, AppLayout.get_slot s (self w') = AppLayout.get_slot s (self app_header_placed)) ∧
    (∀ o attr, attr ∈ "grid_area" :: grid_attributes →
       getattr w' o attr = getattr app_header_placed o attr) ∧
    ((∀ ws, AppLayout.SetMerge false ≠ AppLayout.SetChildren ws) →
     AppLayout.children (self w') = AppLayout.children (self app_header_placed)).
Proof.
  apply (proj1 other_assignments_keep_grid (AppLayout.SetMerge false) app_header_placed).
  discriminate.
Defined.

(** X16: the area template determines the matrix: two matrices of
    non-empty names without spaces and newlines that give the same
    string are equal. *)
Theorem area_template_injective (areas areas' : list (list string)) :
  plain_areas areas → plain_areas areas' →
  grid_template_areas_css areas = grid_template_areas_css areas' →
  areas = areas'.
Proof. apply grid_template_areas_css_inj_on_plain. Qed.

Lemma area_template_injective_witness :
  [["top-left"; "top-right"]] = [["top-left"; "top-right"]].
Proof.
  apply (area_template_injective [["top-left"; "top-right"]] [["top-left"; "top-right"]]).
  - repeat first [ apply Forall_nil_2 | apply Forall_cons_2
                 | (split; [discriminate|split; vm_compute; repeat split; discriminate]) ].
  - repeat first [ apply Forall_nil_2 | apply Forall_cons_2
                 | (split; [discriminate|split; vm_compute; repeat split; discriminate]) ].
  - reflexivity.
Defined.

Lemma equal_templates_equal_grids_witness :
  grid_template_areas (mkGrid [["header"]; ["footer"]] ["1fr"] ["1fr"; "1fr"])
  = grid_template_areas (mkGrid [["header"]; ["footer"]] ["1fr"] ["1fr"; "1fr"]).
Proof.
  apply (proj1 equal_templates_equal_grids app_header_footer
           (AppLayout.mk (Some button3) (Some button4) None None None
              LayoutTemplate.default [button1] 7)).
  - reflexivity.
  - reflexivity.
  - reflexivity.
Defined.

Lemma quad_columns_read_base_witness :
  ∃ areas from_left from_right,
    let children := present (TwoByTwoLayout.all_children quad_diagonal) in
    TwoByTwoLayout.grid quad_diagonal children = Ok areas ∧
    TwoByTwoLayout.merge_column children (0, "left") TwoByTwoLayout.base_areas
    = Ok from_left ∧
    TwoByTwoLayout.merge_column children (1, "right") TwoByTwoLayout.base_areas
    = Ok from_right ∧
    left_column areas = left_column from_left ∧
    right_column areas = right_column from_right.
Proof.
  apply (quad_columns_read_base quad_diagonal); [reflexivity|simpl; lia].
Defined.

(** ** Assignments as traitlets carries them out *)

Example validate_canonical :
  LayoutTemplate.validate_style LayoutTemplate.JustifyContent (Some "CENTER")
  = Ok (Some "center") ∧
  LayoutTemplate.validate_style LayoutTemplate.AlignItems (Some "Baseline")
  = Ok (Some "baseline") ∧
  LayoutTemplate.validate_style LayoutTemplate.JustifyContent (Some "middle")
  = Raise TraitError ∧
  LayoutTemplate.validate_style LayoutTemplate.JustifyContent (Some "baseline")
  = Raise TraitError ∧
  LayoutTemplate.validate_style LayoutTemplate.JustifyContent None = Ok None ∧
  LayoutTemplate.validate_style LayoutTemplate.Width (Some "MIDDLE") = Ok (Some "MIDDLE").
Proof. repeat split. Qed.

Section AppSetTrait.
Implicit Types (w : world AppLayout.t) (a : AppLayout.assignment).

Lemma app_set_trait_unchanged a a' w :
  AppLayout.validate a = Ok a' →
  AppLayout.unchanged a' (self w) = true →
  AppLayout.set_trait a w = Ok w.
Proof. intros Hv Hu. unfold AppLayout.set_trait. rewrite Hv. simpl. by rewrite Hu. Qed.

Lemma app_set_trait_changed a a' w :
  AppLayout.validate a = Ok a' →
  AppLayout.unchanged a' (self w) = false →
  AppLayout.set_trait a w = AppLayout.assign a' w.
Proof. intros Hv Hu. unfold AppLayout.set_trait. rewrite Hv. simpl. by rewrite Hu. Qed.

Lemma app_set_trait_invalid a e w :
  AppLayout.validate a = Raise e → AppLayout.set_trait a w = Raise e.
Proof. intros Hv. unfold AppLayout.set_trait. by rewrite Hv. Qed.

Lemma app_set_slot_changed w s c :
  AppLayout.get_slot s (self w) ≠ c →
  AppLayout.set_trait (AppLayout.SetSlot s c) w
  = AppLayout.assign (AppLayout.SetSlot s c) w.
Proof.
  intros Hne. apply app_set_trait_changed; [done|].
  simpl. by apply bool_decide_eq_false_2.
Qed.

Lemma app_set_slot_same w s :
  AppLayout.set_trait (AppLayout.SetSlot s (AppLayout.get_slot s (self w))) w = Ok w.
Proof.
  eapply app_set_trait_unchanged; [done|]. simpl. by apply bool_decide_eq_true_2.
Qed.

Lemma app_set_slot_id s self :
  AppLayout.set_slot s (AppLayout.get_slot s self) self = self.
Proof. by destruct self, s. Qed.

Lemma app_get_set_slot_ne s1 s2 c ws self :
  s1 ≠ s2 →
  AppLayout.get_slot s2 (AppLayout.set_children ws (AppLayout.set_slot s1 c self))
  = AppLayout.get_slot s2 self.
Proof. by destruct s1, s2. Qed.

End AppSetTrait.

Section QuadSetTrait.
Implicit Types (w : world TwoByTwoLayout.t) (a : TwoByTwoLayout.assignment).

Lemma quad_set_trait_unchanged a a' w :
  TwoByTwoLayout.validate a = Ok a' →
  TwoByTwoLayout.unchanged a' (self w) = true →
  TwoByTwoLayout.set_trait a w = Ok w.
Proof.
  intros Hv Hu. unfold TwoByTwoLayout.set_trait. rewrite Hv. simpl. by rewrite Hu.
Qed.

Lemma quad_set_trait_changed a a' w :
  TwoByTwoLayout.validate a = Ok a' →
  TwoByTwoLayout.unchanged a' (self w) = false →
  TwoByTwoLayout.set_trait a w = TwoByTwoLayout.assign a' w.
Proof.
  intros Hv Hu. unfold TwoByTwoLayout.set_trait. rewrite Hv. simpl. by rewrite Hu.
Qed.

Lemma quad_set_trait_invalid a e w :
  TwoByTwoLayout.validate a = Raise e → TwoByTwoLayout.set_trait a w = Raise e.
Proof. intros Hv. unfold TwoByTwoLayout.set_trait. by rewrite Hv. Qed.

Lemma quad_set_slot_changed w s c :
  TwoByTwoLayout.get_slot s (self w) ≠ c →
  TwoByTwoLayout.set_trait (TwoByTwoLayout.SetSlot s c) w
  = TwoByTwoLayout.assign (TwoByTwoLayout.SetSlot s c) w.
Proof.
  intros Hne. apply quad_set_trait_changed; [done|].
  simpl. by apply bool_decide_eq_false_2.
Qed.

Lemma quad_set_slot_same w s :
  TwoByTwoLayout.set_trait
    (TwoByTwoLayout.SetSlot s (TwoByTwoLayout.get_slot s (self w))) w = Ok w.
Proof.
  eapply quad_set_trait_unchanged; [done|]. simpl. by apply bool_decide_eq_true_2.
Qed.

Lemma quad_set_slot_id s self :
  TwoByTwoLayout.set_slot s (TwoByTwoLayout.get_slot s self) self = self.
Proof. by destruct self, s. Qed.

Lemma quad_get_set_slot_ne s1 s2 c ws self :
  s1 ≠ s2 →
  TwoByTwoLayout.get_slot s2
    (TwoByTwoLayout.set_children ws (TwoByTwoLayout.set_slot s1 c self))
  = TwoByTwoLayout.get_slot s2 self.
Proof. by destruct s1, s2. Qed.

End QuadSetTrait.

(** The events of a run that the code performs whatever the state. *)
Lemma run_events_listed (children : list (string * Widget)) l columns rows css ws
    (before after : list event) :
  let run := before ++ (tag_event <$> children) ++
             write_out_events l columns rows css ws ++ after in
  (∀ item, item ∈ children → tag_event item ∈ run) ∧
  SetAttr l "grid_template_columns" (VStr columns) ∈ run ∧
  SetAttr l "grid_template_rows" (VStr rows) ∈ run ∧
  SetAttr l "grid_template_areas" (VStr css) ∈ run ∧
  SetTrait "children" (VTuple ws) ∈ run.
Proof.
  intros run. subst run. unfold write_out_events.
  split; [|repeat split].
  - intros item Hin. rewrite !elem_of_app. right. left.
    apply list_elem_of_fmap. by exists item.
  - rewrite !elem_of_app. right. right. left. apply list_elem_of_here.
  - rewrite !elem_of_app. right. right. left.
    apply list_elem_of_further, list_elem_of_here.
  - rewrite !elem_of_app. right. right. left.
    do 2 apply list_elem_of_further. apply list_elem_of_here.
  - rewrite !elem_of_app. right. right. left.
    do 3 apply list_elem_of_further. apply list_elem_of_here.
Qed.

(** C4, as the code has it: an assignment to a widget position that
    changes the value held there and leaves at least one position
    occupied runs the whole computation at once: every occupant is
    tagged, the layout object's columns, rows and areas are written and
    show the grid of the new occupants, and the container's [children]
    is assigned the new occupants; so for both classes.  An assignment
    of the value the position already holds does nothing. *)
Theorem slot_change_rewrites :
  (∀ (w : world AppLayout.t) (s : AppLayout.slot) (c : option Widget),
     AppLayout.get_slot s (self w) ≠ c →
     let self' := AppLayout.set_slot s c (self w) in
     let children := present (AppLayout.all_children self') in
     children ≠ [] →
     ∃ g w' run,
       AppLayout.grid self' children = Ok g ∧
       AppLayout.set_trait (AppLayout.SetSlot s c) w = Ok w' ∧
       shows w' (AppLayout.layout (self w))
         (String.concat " " (grid_template_columns g))
         (String.concat " " (grid_template_rows g))
         (grid_template_areas_css (grid_template_areas g)) ∧
       AppLayout.children (self w') = values children ∧
       appended w w' run ∧
       (∀ item, item ∈ children → tag_event item ∈ run) ∧
       SetAttr (AppLayout.layout (self w)) "grid_template_columns"
         (VStr (String.concat " " (grid_template_columns g))) ∈ run ∧
       SetAttr (AppLayout.layout (self w)) "grid_template_rows"
         (VStr (String.concat " " (grid_template_rows g))) ∈ run ∧
       SetAttr (AppLayout.layout (self w)) "grid_template_areas"
         (VStr (grid_template_areas_css (grid_template_areas g))) ∈ run ∧
       SetTrait "children" (VTuple (values children)) ∈ run) ∧
  (∀ (w : world TwoByTwoLayout.t) (s : TwoByTwoLayout.slot) (c : option Widget),
     TwoByTwoLayout.get_slot s (self w) ≠ c →
     let self' := TwoByTwoLayout.set_slot s c (self w) in
     let children := present (TwoByTwoLayout.all_children self') in
     children ≠ [] →
     ∃ areas w' run,
       TwoByTwoLayout.grid self' children = Ok areas ∧
       TwoByTwoLayout.set_trait (TwoByTwoLayout.SetSlot s c) w = Ok w' ∧
       shows w' (TwoByTwoLayout.layout (self w)) "1fr 1fr" "1fr 1fr"
         (grid_template_areas_css areas) ∧
       TwoByTwoLayout.children (self w') = values children ∧
       appended w w' run ∧
       (∀ item, item ∈ children → tag_event item ∈ run) ∧
       SetAttr (TwoByTwoLayout.layout (self w)) "grid_template_columns"
         (VStr "1fr 1fr") ∈ run ∧
       SetAttr (TwoByTwoLayout.layout (self w)) "grid_template_rows"
         (VStr "1fr 1fr") ∈ run ∧
       SetAttr (TwoByTwoLayout.layout (self w)) "grid_template_areas"
         (VStr (grid_template_areas_css areas)) ∈ run ∧
       SetTrait "children" (VTuple (values children)) ∈ run) ∧
  (∀ (w : world AppLayout.t) (s : AppLayout.slot),
     AppLayout.set_trait (AppLayout.SetSlot s (AppLayout.get_slot s (self w))) w = Ok w) ∧
  (∀ (w : world TwoByTwoLayout.t) (s : TwoByTwoLayout.slot),
     TwoByTwoLayout.set_trait
       (TwoByTwoLayout.SetSlot s (TwoByTwoLayout.get_slot s (self w))) w = Ok w).
Proof.
  split; [|split; [|split]].
  - intros w s c Hchange self' children Hne.
    destruct (proj1 notified_slot_rewrites w s c Hne)
      as (g & w' & Hg & Hassign & Hshows & Hchildren & Happ).
    rewrite <- app_set_slot_changed in Hassign by done.
    eexists g, w', _. split; [exact Hg|]. split; [exact Hassign|].
    split; [exact Hshows|]. split; [exact Hchildren|]. split; [exact Happ|].
    apply (run_events_listed _ _ _ _ _ _ [_] [_]).
  - intros w s c Hchange self' children Hne.
    destruct (proj2 notified_slot_rewrites w s c Hne)
      as (g & w' & Hg & Hassign & Hshows & Hchildren & Happ).
    rewrite <- quad_set_slot_changed in Hassign by done.
    eexists g, w', _. split; [exact Hg|]. split; [exact Hassign|].
    split; [exact Hshows|]. split; [exact Hchildren|]. split; [exact Happ|].
    apply (run_events_listed _ _ _ _ _ _ [_] [_]).
  - intros w s. apply app_set_slot_same.
  - intros w s. apply quad_set_slot_same.
Qed.

(** C10, as the code has it: an assignment to a trait of the
    container, a style attribute, [merge], a widget position or
    [children], is forwarded when it changes the trait: it then ends
    with [setattr] of the same name and the stored value on the layout
    object.  An assignment of the value the trait already holds changes
    nothing, and one that traitlets rejects raises.  An assignment that
    changes [merge] does nothing but store the flag and set that one
    attribute, so no grid is computed or written; an assignment that
    changes a widget position sets the attribute of that name. *)
Theorem changed_assignment_forwarded :
  (∀ (a : AppLayout.assignment) (w : world AppLayout.t),
     match AppLayout.validate a with
     | Raise e => AppLayout.set_trait a w = Raise e
     | Ok a' =>
         if AppLayout.unchanged a' (self w)
         then AppLayout.set_trait a w = Ok w
         else ∃ w' run,
           AppLayout.set_trait a w = Ok w' ∧
           AppLayout.layout (self w') = AppLayout.layout (self w) ∧
           getattr w' (AppLayout.layout (self w)) (name (AppLayout.change_of a'))
           = Some (new (AppLayout.change_of a')) ∧
           appended w w'
             (SetTrait (name (AppLayout.change_of a')) (new (AppLayout.change_of a'))
              :: run ++
              [SetAttr (AppLayout.layout (self w)) (name (AppLayout.change_of a'))
                 (new (AppLayout.change_of a'))])
     end) ∧
  (∀ (b : bool) (w : world AppLayout.t),
     AppLayout.merge (self w) ≠ b →
     AppLayout.set_trait (AppLayout.SetMerge b) w
     = Ok (mkWorld (AppLayout.set_template (LayoutTemplate.set_merge b) (self w))
             (<[(AppLayout.layout (self w), "merge") := VBool b]> (heap w))
             (trace w ++ [SetTrait "merge" (VBool b);
                          SetAttr (AppLayout.layout (self w)) "merge" (VBool b)]))) ∧
  (∀ (w : world AppLayout.t) s c,
     AppLayout.get_slot s (self w) ≠ c →
     ∃ w', AppLayout.set_trait (AppLayout.SetSlot s c) w = Ok w' ∧
           getattr w' (AppLayout.layout (self w)) (AppLayout.slot_name s)
           = Some (of_child c)) ∧
  (∀ (a : TwoByTwoLayout.assignment) (w : world TwoByTwoLayout.t),
     match TwoByTwoLayout.validate a with
     | Raise e => TwoByTwoLayout.set_trait a w = Raise e
     | Ok a' =>
         if TwoByTwoLayout.unchanged a' (self w)
         then TwoByTwoLayout.set_trait a w = Ok w
         else ∃ w' run,
           TwoByTwoLayout.set_trait a w = Ok w' ∧
           TwoByTwoLayout.layout (self w') = TwoByTwoLayout.layout (self w) ∧
           getattr w' (TwoByTwoLayout.layout (self w))
             (name (TwoByTwoLayout.change_of a'))
           = Some (new (TwoByTwoLayout.change_of a')) ∧
           appended w w'
             (SetTrait (name (TwoByTwoLayout.change_of a'))
                (new (TwoByTwoLayout.change_of a'))
              :: run ++
              [SetAttr (TwoByTwoLayout.layout (self w))
                 (name (TwoByTwoLayout.change_of a'))
                 (new (TwoByTwoLayout.change_of a'))])
     end) ∧
  (∀ (b : bool) (w : world TwoByTwoLayout.t),
     TwoByTwoLayout.merge (self w) ≠ b →
     TwoByTwoLayout.set_trait (TwoByTwoLayout.SetMerge b) w
     = Ok (mkWorld (TwoByTwoLayout.set_template (LayoutTemplate.set_merge b) (self w))
             (<[(TwoByTwoLayout.layout (self w), "merge") := VBool b]> (heap w))
             (trace w ++ [SetTrait "merge" (VBool b);
                          SetAttr (TwoByTwoLayout.layout (self w)) "merge" (VBool b)]))) ∧
  (∀ (w : world TwoByTwoLayout.t) s c,
     TwoByTwoLayout.get_slot s (self w) ≠ c →
     ∃ w', TwoByTwoLayout.set_trait (TwoByTwoLayout.SetSlot s c) w = Ok w' ∧
           getattr w' (TwoByTwoLayout.layout (self w)) (TwoByTwoLayout.slot_name s)
           = Some (of_child c)).
Proof.
  split; [|split; [|split; [|split; [|split]]]].
  - intros a w. destruct (AppLayout.validate a) as [a'|e] eqn:Hv.
    + destruct (AppLayout.unchanged a' (self w)) eqn:Hu.
      * by eapply app_set_trait_unchanged.
      * destruct (proj1 notified_assignment_forwarded a' w) as (w' & run & H).
        exists w', run. by rewrite (app_set_trait_changed a a' w).
    + by apply app_set_trait_invalid.
  - intros b w Hb.
    rewrite (app_set_trait_changed _ (AppLayout.SetMerge b)); [|done|].
    + apply (proj1 (proj2 notified_assignment_forwarded)).
    + simpl. by apply bool_decide_eq_false_2.
  - intros w s c Hc.
    destruct (proj1 notified_assignment_forwarded (AppLayout.SetSlot s c) w)
      as (w' & run & Hassign & _ & Hget & _).
    exists w'. by rewrite app_set_slot_changed.
  - intros a w. destruct (TwoByTwoLayout.validate a) as [a'|e] eqn:Hv.
    + destruct (TwoByTwoLayout.unchanged a' (self w)) eqn:Hu.
      * by eapply quad_set_trait_unchanged.
      * destruct (proj1 (proj2 (proj2 notified_assignment_forwarded)) a' w)
          as (w' & run & H).
        exists w', run. by rewrite (quad_set_trait_changed a a' w).
    + by apply quad_set_trait_invalid.
  - intros b w Hb.
    rewrite (quad_set_trait_changed _ (TwoByTwoLayout.SetMerge b)); [|done|].
    + apply (proj2 (proj2 (proj2 notified_assignment_forwarded))).
    + simpl. by apply bool_decide_eq_false_2.
  - intros w s c Hc.
    destruct (proj1 (proj2 (proj2 notified_assignment_forwarded))
                (TwoByTwoLayout.SetSlot s c) w)
      as (w' & run & Hassign & _ & Hget & _).
    exists w'. by rewrite quad_set_slot_changed.
Qed.

(** X13: an assignment that changes a position and leaves no position
    occupied stores the value and forwards it to the layout object, and
    that is all it does: this is the resulting world.  Assigning [None]
    to a position of a container with nothing placed does nothing. *)
Theorem last_occupant_removal :
  (∀ (w : world AppLayout.t) s c,
     AppLayout.get_slot s (self w) ≠ c →
     present (AppLayout.all_children (AppLayout.set_slot s c (self w))) = [] →
     AppLayout.set_trait (AppLayout.SetSlot s c) w
     = Ok (mkWorld (AppLayout.set_slot s c (self w))
             (<[(AppLayout.layout (self w), AppLayout.slot_name s) := of_child c]> (heap w))
             (trace w ++ [SetTrait (AppLayout.slot_name s) (of_child c);
                          SetAttr (AppLayout.layout (self w)) (AppLayout.slot_name s)
                            (of_child c)]))) ∧
  (∀ (w : world AppLayout.t) s,
     present (AppLayout.all_children (self w)) = [] →
     AppLayout.set_trait (AppLayout.SetSlot s None) w = Ok w) ∧
  (∀ (w : world TwoByTwoLayout.t) s c,
     TwoByTwoLayout.get_slot s (self w) ≠ c →
     present (TwoByTwoLayout.all_children (TwoByTwoLayout.set_slot s c (self w))) = [] →
     TwoByTwoLayout.set_trait (TwoByTwoLayout.SetSlot s c) w
     = Ok (mkWorld (TwoByTwoLayout.set_slot s c (self w))
             (<[(TwoByTwoLayout.layout (self w), TwoByTwoLayout.slot_name s)
                := of_child c]> (heap w))
             (trace w ++ [SetTrait (TwoByTwoLayout.slot_name s) (of_child c);
                          SetAttr (TwoByTwoLayout.layout (self w))
                            (TwoByTwoLayout.slot_name s) (of_child c)]))) ∧
  (∀ (w : world TwoByTwoLayout.t) s,
     present (TwoByTwoLayout.all_children (self w)) = [] →
     TwoByTwoLayout.set_trait (TwoByTwoLayout.SetSlot s None) w = Ok w).
Proof.
  split; [|split; [|split]].
  - intros w s c Hc E. rewrite app_set_slot_changed by done.
    by apply (proj1 notified_last_removed).
  - intros w s E.
    assert (Hs : AppLayout.get_slot s (self w) = None).
    { destruct w as [[[?|] [?|] [?|] [?|] [?|] ? ? ?] ? ?]; try discriminate E.
      by destruct s. }
    rewrite <- Hs at 1. apply app_set_slot_same.
  - intros w s c Hc E. rewrite quad_set_slot_changed by done.
    by apply (proj2 notified_last_removed).
  - intros w s E.
    assert (Hs : TwoByTwoLayout.get_slot s (self w) = None).
    { destruct w as [[[?|] [?|] [?|] [?|] ? ? ?] ? ?]; try discriminate E.
      by destruct s. }
    rewrite <- Hs at 1. apply quad_set_slot_same.
Qed.

Lemma app_set_slot_held w s c :
  AppLayout.get_slot s (self w) = c →
  AppLayout.set_trait (AppLayout.SetSlot s c) w = Ok w.
Proof. intros <-. apply app_set_slot_same. Qed.

Lemma quad_set_slot_held w s c :
  TwoByTwoLayout.get_slot s (self w) = c →
  TwoByTwoLayout.set_trait (TwoByTwoLayout.SetSlot s c) w = Ok w.
Proof. intros <-. apply quad_set_slot_same. Qed.

(** One of two assignments changes its position, the other does not:
    in either order the result is that of the one that changes. *)
Lemma app_one_change w s1 c1 s2 c2 :
  s1 ≠ s2 →
  AppLayout.get_slot s1 (self w) ≠ c1 →
  AppLayout.get_slot s2 (self w) = c2 →
  present (AppLayout.all_children (AppLayout.set_slot s1 c1 (self w))) ≠ [] →
  ∃ w' g,
    (AppLayout.set_trait (AppLayout.SetSlot s1 c1) w
       ≫= AppLayout.set_trait (AppLayout.SetSlot s2 c2)) = Ok w' ∧
    (AppLayout.set_trait (AppLayout.SetSlot s2 c2) w
       ≫= AppLayout.set_trait (AppLayout.SetSlot s1 c1)) = Ok w' ∧
    AppLayout.grid (AppLayout.set_slot s1 c1 (self w))
      (present (AppLayout.all_children (AppLayout.set_slot s1 c1 (self w)))) = Ok g ∧
    shows w' (AppLayout.layout (self w))
      (String.concat " " (grid_template_columns g))
      (String.concat " " (grid_template_rows g))
      (grid_template_areas_css (grid_template_areas g)).
Proof.
  intros Hs H1 H2 Hne.
  destruct (app_assign_slot_spec w s1 c1) as (w' & Hassign & Hspec).
  destruct (app_assign_slot_self w s1 c1) as (w'' & ws & Hassign' & Hself).
  rewrite Hassign in Hassign'. injection Hassign' as <-.
  destruct (present _) as [|item rest]; [done|].
  destruct Hspec as (g & Hg & _ & _ & Hshows).
  exists w', g. rewrite (app_set_slot_held w s2 c2 H2).
  rewrite app_set_slot_changed, Hassign by done. simpl.
  split; [|split; [|split]].
  - apply app_set_slot_held. rewrite Hself. by rewrite app_get_set_slot_ne.
  - by rewrite app_set_slot_changed.
  - exact Hg.
  - exact Hshows.
Qed.

Lemma quad_one_change w s1 c1 s2 c2 :
  s1 ≠ s2 →
  TwoByTwoLayout.get_slot s1 (self w) ≠ c1 →
  TwoByTwoLayout.get_slot s2 (self w) = c2 →
  present (TwoByTwoLayout.all_children (TwoByTwoLayout.set_slot s1 c1 (self w))) ≠ [] →
  ∃ w' areas,
    (TwoByTwoLayout.set_trait (TwoByTwoLayout.SetSlot s1 c1) w
       ≫= TwoByTwoLayout.set_trait (TwoByTwoLayout.SetSlot s2 c2)) = Ok w' ∧
    (TwoByTwoLayout.set_trait (TwoByTwoLayout.SetSlot s2 c2) w
       ≫= TwoByTwoLayout.set_trait (TwoByTwoLayout.SetSlot s1 c1)) = Ok w' ∧
    TwoByTwoLayout.grid (TwoByTwoLayout.set_slot s1 c1 (self w))
      (present (TwoByTwoLayout.all_children (TwoByTwoLayout.set_slot s1 c1 (self w))))
    = Ok areas ∧
    shows w' (TwoByTwoLayout.layout (self w)) "1fr 1fr" "1fr 1fr"
      (grid_template_areas_css areas).
Proof.
  intros Hs H1 H2 Hne.
  destruct (quad_assign_slot_spec w s1 c1) as (w' & Hassign & Hspec).
  destruct (quad_assign_slot_self w s1 c1) as (w'' & ws & Hassign' & Hself).
  rewrite Hassign in Hassign'. injection Hassign' as <-.
  destruct (present _) as [|item rest]; [done|].
  destruct Hspec as (g & Hg & _ & _ & Hshows).
  exists w', g. rewrite (quad_set_slot_held w s2 c2 H2).
  rewrite quad_set_slot_changed, Hassign by done. simpl.
  split; [|split; [|split]].
  - apply quad_set_slot_held. rewrite Hself. by rewrite quad_get_set_slot_ne.
  - by rewrite quad_set_slot_changed.
  - exact Hg.
  - exact Hshows.
Qed.

Lemma app_set_slot_held_id s c self :
  AppLayout.get_slot s self = c → AppLayout.set_slot s c self = self.
Proof. intros <-. apply app_set_slot_id. Qed.

Lemma quad_set_slot_held_id s c self :
  TwoByTwoLayout.get_slot s self = c → TwoByTwoLayout.set_slot s c self = self.
Proof. intros <-. apply quad_set_slot_id. Qed.

Lemma app_get_set_slot_other s1 s2 c self :
  s1 ≠ s2 →
  AppLayout.get_slot s2 (AppLayout.set_slot s1 c self) = AppLayout.get_slot s2 self.
Proof. by destruct s1, s2. Qed.

Lemma quad_get_set_slot_other s1 s2 c self :
  s1 ≠ s2 →
  TwoByTwoLayout.get_slot s2 (TwoByTwoLayout.set_slot s1 c self)
  = TwoByTwoLayout.get_slot s2 self.
Proof. by destruct s1, s2. Qed.

(** X11: two different positions assigned one after the other, in
    either order, leave the same container and the same grid attributes
    on the layout object, when some position is occupied in the end;
    when one of the two assignments changes its position, these are the
    grid attributes of the final occupants. *)
Theorem slot_changes_commute :
  (∀ (w : world AppLayout.t) s1 c1 s2 c2,
     s1 ≠ s2 →
     let final := AppLayout.set_slot s2 c2 (AppLayout.set_slot s1 c1 (self w)) in
     present (AppLayout.all_children final) ≠ [] →
     ∃ w12 w21,
       (AppLayout.set_trait (AppLayout.SetSlot s1 c1) w
          ≫= AppLayout.set_trait (AppLayout.SetSlot s2 c2)) = Ok w12 ∧
       (AppLayout.set_trait (AppLayout.SetSlot s2 c2) w
          ≫= AppLayout.set_trait (AppLayout.SetSlot s1 c1)) = Ok w21 ∧
       self w12 = self w21 ∧
       (∀ attr, attr ∈ grid_attributes →
          getattr w12 (AppLayout.layout (self w)) attr
          = getattr w21 (AppLayout.layout (self w)) attr) ∧
       (AppLayout.get_slot s1 (self w) ≠ c1 ∨ AppLayout.get_slot s2 (self w) ≠ c2 →
        ∃ g, AppLayout.grid final (present (AppLayout.all_children final)) = Ok g ∧
          shows w12 (AppLayout.layout (self w))
            (String.concat " " (grid_template_columns g))
            (String.concat " " (grid_template_rows g))
            (grid_template_areas_css (grid_template_areas g)) ∧
          shows w21 (AppLayout.layout (self w))
            (String.concat " " (grid_template_columns g))
            (String.concat " " (grid_template_rows g))
            (grid_template_areas_css (grid_template_areas g)))) ∧
  (∀ (w : world TwoByTwoLayout.t) s1 c1 s2 c2,
     s1 ≠ s2 →
     let final := TwoByTwoLayout.set_slot s2 c2 (TwoByTwoLayout.set_slot s1 c1 (self w)) in
     present (TwoByTwoLayout.all_children final) ≠ [] →
     ∃ w12 w21,
       (TwoByTwoLayout.set_trait (TwoByTwoLayout.SetSlot s1 c1) w
          ≫= TwoByTwoLayout.set_trait (TwoByTwoLayout.SetSlot s2 c2)) = Ok w12 ∧
       (TwoByTwoLayout.set_trait (TwoByTwoLayout.SetSlot s2 c2) w
          ≫= TwoByTwoLayout.set_trait (TwoByTwoLayout.SetSlot s1 c1)) = Ok w21 ∧
       self w12 = self w21 ∧
       (∀ attr, attr ∈ grid_attributes →
          getattr w12 (TwoByTwoLayout.layout (self w)) attr
          = getattr w21 (TwoByTwoLayout.layout (self w)) attr) ∧
       (TwoByTwoLayout.get_slot s1 (self w) ≠ c1 ∨
        TwoByTwoLayout.get_slot s2 (self w) ≠ c2 →
        ∃ areas,
          TwoByTwoLayout.grid final (present (TwoByTwoLayout.all_children final))
          = Ok areas ∧
          shows w12 (TwoByTwoLayout.layout (self w)) "1fr 1fr" "1fr 1fr"
            (grid_template_areas_css areas) ∧
          shows w21 (TwoByTwoLayout.layout (self w)) "1fr 1fr" "1fr 1fr"
            (grid_template_areas_css areas))).
Proof.
  assert (Hshown : ∀ {C} (wa wb : world C) l c r a,
            shows wa l c r a → shows wb l c r a →
            ∀ attr, attr ∈ grid_attributes → getattr wa l attr = getattr wb l attr).
  { intros C wa wb l c r a (Ha1 & Ha2 & Ha3) (Hb1 & Hb2 & Hb3) attr Hattr.
    unfold grid_attributes in Hattr.
    repeat (apply elem_of_cons in Hattr as [->|Hattr]); try congruence.
    by apply elem_of_nil in Hattr. }
  split.
  - intros w s1 c1 s2 c2 Hs final Hne.
    destruct (decide (AppLayout.get_slot s1 (self w) = c1)) as [E1|N1];
      destruct (decide (AppLayout.get_slot s2 (self w) = c2)) as [E2|N2].
    + exists w, w. rewrite (app_set_slot_held w s1 c1 E1), (app_set_slot_held w s2 c2 E2).
      simpl. rewrite (app_set_slot_held w s1 c1 E1), (app_set_slot_held w s2 c2 E2).
      repeat split; try done. by intros [?|?].
    + assert (Hfinal : final = AppLayout.set_slot s2 c2 (self w)).
      { subst final. by rewrite (app_set_slot_held_id s1 c1 (self w) E1). }
      rewrite Hfinal in *.
      destruct (app_one_change w s2 c2 s1 c1 (not_eq_sym Hs) N2 E1 Hne)
        as (w' & g & H21 & H12 & Hg & Hshows).
      exists w', w'. repeat split; try done. intros _. by exists g.
    + assert (Hfinal : final = AppLayout.set_slot s1 c1 (self w)).
      { subst final. apply app_set_slot_held_id.
        by rewrite app_get_set_slot_other. }
      rewrite Hfinal in *.
      destruct (app_one_change w s1 c1 s2 c2 Hs N1 E2 Hne)
        as (w' & g & H12 & H21 & Hg & Hshows).
      exists w', w'. repeat split; try done. intros _. by exists g.
    + destruct (proj1 notified_slots_commute w s1 c1 s2 c2 Hs Hne)
        as (w12 & w21 & g & H12 & H21 & Hself & Hg & Hs12 & Hs21).
      destruct (app_assign_slot_self w s1 c1) as (wa & wsa & Ha & Hselfa).
      destruct (app_assign_slot_self w s2 c2) as (wb & wsb & Hb & Hselfb).
      exists w12, w21.
      rewrite !app_set_slot_changed by done.
      rewrite Ha, Hb in *. simpl in *.
      rewrite !app_set_slot_changed
        by (rewrite ?Hselfa, ?Hselfb, app_get_set_slot_ne; done).
      repeat split; try done.
      * by eapply Hshown.
      * intros _. by exists g.
  - intros w s1 c1 s2 c2 Hs final Hne.
    destruct (decide (TwoByTwoLayout.get_slot s1 (self w) = c1)) as [E1|N1];
      destruct (decide (TwoByTwoLayout.get_slot s2 (self w) = c2)) as [E2|N2].
    + exists w, w.
      rewrite (quad_set_slot_held w s1 c1 E1), (quad_set_slot_held w s2 c2 E2).
      simpl. rewrite (quad_set_slot_held w s1 c1 E1), (quad_set_slot_held w s2 c2 E2).
      repeat split; try done. by intros [?|?].
    + assert (Hfinal : final = TwoByTwoLayout.set_slot s2 c2 (self w)).
      { subst final. by rewrite (quad_set_slot_held_id s1 c1 (self w) E1). }
      rewrite Hfinal in *.
      destruct (quad_one_change w s2 c2 s1 c1 (not_eq_sym Hs) N2 E1 Hne)
        as (w' & g & H21 & H12 & Hg & Hshows).
      exists w', w'. repeat split; try done. intros _. by exists g.
    + assert (Hfinal : final = TwoByTwoLayout.set_slot s1 c1 (self w)).
      { subst final. apply quad_set_slot_held_id.
        by rewrite quad_get_set_slot_other. }
      rewrite Hfinal in *.
      destruct (quad_one_change w s1 c1 s2 c2 Hs N1 E2 Hne)
        as (w' & g & H12 & H21 & Hg & Hshows).
      exists w', w'. repeat split; try done. intros _. by exists g.
    + destruct (proj2 notified_slots_commute w s1 c1 s2 c2 Hs Hne)
        as (w12 & w21 & g & H12 & H21 & Hself & Hg & Hs12 & Hs21).
      destruct (quad_assign_slot_self w s1 c1) as (wa & wsa & Ha & Hselfa).
      destruct (quad_assign_slot_self w s2 c2) as (wb & wsb & Hb & Hselfb).
      exists w12, w21.
      rewrite !quad_set_slot_changed by done.
      rewrite Ha, Hb in *. simpl in *.
      rewrite !quad_set_slot_changed
        by (rewrite ?Hselfa, ?Hselfb, quad_get_set_slot_ne; done).
      repeat split; try done.
      * by eapply Hshown.
      * intros _. by exists g.
Qed.

Lemma slot_change_rewrites_witness :
  ∃ g w' run,
    AppLayout.grid app_header (present (AppLayout.all_children app_header)) = Ok g ∧
    AppLayout.set_trait (AppLayout.SetSlot AppLayout.Header (Some button1)) app_blank
    = Ok w' ∧
    shows w' 0
      (String.concat " " (grid_template_columns g))
      (String.concat " " (grid_template_rows g))
      (grid_template_areas_css (grid_template_areas g)) ∧
    AppLayout.children (self w') = [button1] ∧
    appended app_blank w' run ∧
    (∀ item, item ∈ [("header", button1)] → tag_event item ∈ run) ∧
    SetAttr 0 "grid_template_columns"
      (VStr (String.concat " " (grid_template_columns g))) ∈ run ∧
    SetAttr 0 "grid_template_rows"
      (VStr (String.concat " " (grid_template_rows g))) ∈ run ∧
    SetAttr 0 "grid_template_areas"
      (VStr (grid_template_areas_css (grid_template_areas g))) ∈ run ∧
    SetTrait "children" (VTuple [button1]) ∈ run.
Proof.
  apply (proj1 slot_change_rewrites app_blank AppLayout.Header (Some button1)).
  - discriminate.
  - discriminate.
Defined.

(** C4, as the specification words it, fails twice.  On
    [app_header_placed], [header = None] removes the last occupant: the
    attribute is stored and forwarded and nothing more, no grid
    attribute and no [children] is written, the layout object still
    shows the grid computed for the header and [children] still holds
    the removed widget.  On [app_header_unmerged], [header = button1]
    assigns the value already held: nothing runs, and the layout object
    keeps the merged grid although [merge] is off. *)
Lemma slot_assignment_may_rewrite_nothing :
  (present (AppLayout.all_children
              (AppLayout.set_slot AppLayout.Header None (self app_header_placed))) = [] ∧
   ∃ w',
     AppLayout.set_trait (AppLayout.SetSlot AppLayout.Header None) app_header_placed
     = Ok w' ∧
     appended app_header_placed w' [SetTrait "header" VNone; SetAttr 0 "header" VNone] ∧
     List.filter (is_rewrite 0) [SetTrait "header" VNone; SetAttr 0 "header" VNone] = [] ∧
     AppLayout.children (self w') = [button1] ∧
     getattr w' 0 "grid_template_areas"
     = Some (VStr (grid_template_areas_css
                     [["header"; "header"; "header"];
                      ["header"; "header"; "header"];
                      ["header"; "header"; "header"]]))) ∧
  (AppLayout.header (self app_header_unmerged) = Some button1 ∧
   AppLayout.merge (self app_header_unmerged) = false ∧
   AppLayout.set_trait (AppLayout.SetSlot AppLayout.Header (Some button1))
     app_header_unmerged = Ok app_header_unmerged ∧
   getattr app_header_unmerged 0 "grid_template_areas"
   = Some (VStr (grid_template_areas_css
                   [["header"; "header"; "header"];
                    ["header"; "header"; "header"];
                    ["header"; "header"; "header"]]))).
Proof.
  split.
  - split; [reflexivity|].
    eexists. split; [reflexivity|].
    split; [reflexivity|]. split; [reflexivity|]. split; [reflexivity|].
    vm_compute. reflexivity.
  - split; [reflexivity|]. split; [reflexivity|]. split; [reflexivity|].
    vm_compute. reflexivity.
Qed.

Lemma changed_assignment_forwarded_witness :
  AppLayout.set_trait (AppLayout.SetMerge false) app_blank
  = Ok (mkWorld (AppLayout.set_template (LayoutTemplate.set_merge false) (self app_blank))
          (<[(0%nat, "merge") := VBool false]> (heap app_blank))
          (trace app_blank ++ [SetTrait "merge" (VBool false);
                               SetAttr 0 "merge" (VBool false)])).
Proof.
  apply (proj1 (proj2 changed_assignment_forwarded) false app_blank).
  discriminate.
Defined.

(** C10, as the specification words it, fails on a fresh container:
    [merge = True] assigns the value already held and sets no attribute
    on the layout object; [justify_content = 'middle'] raises; and
    [justify_content = 'CENTER'] forwards ['center'], the stored value,
    not the one written. *)
Lemma unchanged_write_not_forwarded :
  AppLayout.merge (self app_blank) = true ∧
  AppLayout.set_trait (AppLayout.SetMerge true) app_blank = Ok app_blank ∧
  getattr app_blank 0 "merge" = None ∧
  AppLayout.set_trait
    (AppLayout.SetStyle LayoutTemplate.JustifyContent (Some "middle")) app_blank
  = Raise TraitError ∧
  ∃ w', AppLayout.set_trait
          (AppLayout.SetStyle LayoutTemplate.JustifyContent (Some "CENTER")) app_blank
        = Ok w' ∧
        getattr w' 0 "justify_content" = Some (VStr "center").
Proof.
  split; [reflexivity|]. split; [reflexivity|]. split; [reflexivity|].
  split; [reflexivity|]. eexists. split; [reflexivity|]. vm_compute. reflexivity.
Qed.

Lemma last_occupant_removal_witness :
  AppLayout.set_trait (AppLayout.SetSlot AppLayout.Header None) app_header_placed
  = Ok (mkWorld (AppLayout.set_slot AppLayout.Header None (self app_header_placed))
          (<[(0%nat, "header") := VNone]> (heap app_header_placed))
          (trace app_header_placed ++
           [SetTrait "header" VNone; SetAttr 0 "header" VNone])).
Proof.
  apply (proj1 last_occupant_removal app_header_placed AppLayout.Header None).
  - discriminate.
  - reflexivity.
Defined.

Lemma slot_changes_commute_witness :
  ∃ w12 w21,
    (AppLayout.set_trait (AppLayout.SetSlot AppLayout.Header None) app_header_placed
       ≫= AppLayout.set_trait (AppLayout.SetSlot AppLayout.Footer (Some button2)))
    = Ok w12 ∧
    (AppLayout.set_trait (AppLayout.SetSlot AppLayout.Footer (Some button2))
       app_header_placed
       ≫= AppLayout.set_trait (AppLayout.SetSlot AppLayout.Header None)) = Ok w21 ∧
    self w12 = self w21 ∧
    (∀ attr, attr ∈ grid_attributes →
       getattr w12 (AppLayout.layout (self app_header_placed)) attr
       = getattr w21 (AppLayout.layout (self app_header_placed)) attr) ∧
    (AppLayout.get_slot AppLayout.Header (self app_header_placed) ≠ None ∨
     AppLayout.get_slot AppLayout.Footer (self app_header_placed) ≠ Some button2 →
     ∃ g,
       AppLayout.grid
         (AppLayout.set_slot AppLayout.Footer (Some button2)
            (AppLayout.set_slot AppLayout.Header None (self app_header_placed)))
         (present (AppLayout.all_children
            (AppLayout.set_slot AppLayout.Footer (Some button2)
               (AppLayout.set_slot AppLayout.Header None (self app_header_placed)))))
       = Ok g ∧
       shows w12 (AppLayout.layout (self app_header_placed))
         (String.concat " " (grid_template_columns g))
         (String.concat " " (grid_template_rows g))
         (grid_template_areas_css (grid_template_areas g)) ∧
       shows w21 (AppLayout.layout (self app_header_placed))
         (String.concat " " (grid_template_columns g))
         (String.concat " " (grid_template_rows g))
         (grid_template_areas_css (grid_template_areas g))).
Proof.
  apply (proj1 slot_changes_commute app_header_placed
           AppLayout.Header None AppLayout.Footer (Some button2)).
  - discriminate.
  - discriminate.
Defined.
